(** * Water_Level_Analysis: pumping-cycle segmentation and per-cycle metrics

    A shallow embedding of the data-processing core of
    [Water_Level_Analysis.py] ([main], lines 43-107): peak detection with
    [scipy.signal.find_peaks(levels, prominence=0)], then the loop over
    consecutive peak pairs that derives one record per accepted pumping
    cycle.

    Numbers.  The levels are float64 values in the program, and the file
    reads the program twice.  In the first reading finite levels are exact
    rationals ([Q]): the arithmetic is the exact arithmetic that the float
    operations approximate, equality of quantities is [Qeq] ([==]), and a
    difference of two timestamps is taken to fit a Timedelta.  It is used
    for what rests on comparisons, on guards and on the structure of the
    report.  In the second reading (module [Fl]) the float operations are
    the fields of an interface and are not interpreted; it is used for what
    is said about the values that are computed, added and rounded, and it
    keeps NaN, the infinite values and the error case of the subtraction of
    two Timestamps.  Timestamps are pandas [Timestamp]s, modelled by their
    integer nanosecond value ([Z]).  For peak detection the non-finite
    float values (NaN, +Inf, -Inf) are also modelled by a carrier of their
    own ([float64]).

    Errors.  Every operation of the source that can raise (positional and
    label indexing, [idxmin] of an empty column, division) is modelled with
    its error case, in a small error monad.

    Besides the cycle loop the file models the peak marks of lines 47-48 and
    [create_summary] (lines 201-217). *)

From Stdlib Require Import List ZArith QArith Qround Bool Lia Lqa.
From Stdlib Require Import Sorted.
From Stdlib Require String.
Import ListNotations.
Import String.StringSyntax.
Delimit Scope string_scope with string.

Local Open Scope Q_scope.

(** ** Exceptions *)

Inductive exn : Type :=
| IndexError
| KeyError
| ValueError
| ZeroDivisionError.

Inductive result (A : Type) : Type :=
| Ok (a : A)
| Raise (e : exn).

Arguments Ok {A} a.
Arguments Raise {A} e.

Definition bind {A B : Type} (c : result A) (k : A -> result B) : result B :=
  match c with
  | Ok a => k a
  | Raise e => Raise e
  end.

Notation "x <- c ;; k" := (bind c (fun x => k))
  (at level 61, c at next level, right associativity).

(** [f] under a result. *)
Definition map_result {A B : Type} (f : A -> B) (r : result A) : result B :=
  match r with
  | Ok a => Ok (f a)
  | Raise e => Raise e
  end.

(** [for x in xs: st = body(st, x)], stopping at the first exception. *)
Fixpoint for_each {S I : Type} (body : S -> I -> result S) (xs : list I)
  (st : S) : result S :=
  match xs with
  | [] => Ok st
  | x :: xs' => st' <- body st x ;; for_each body xs' st'
  end.

(** [range(n)] for a Python integer [n]: empty when [n <= 0]. *)
Definition range (n : Z) : list nat := seq 0 (Z.to_nat n).

(** [len(xs)] as a Python integer. *)
Definition len {A : Type} (xs : list A) : Z := Z.of_nat (length xs).

(** [xs[i]] for a non-negative position. *)
Definition getitem {A : Type} (xs : list A) (i : nat) : result A :=
  match nth_error xs i with
  | Some a => Ok a
  | None => Raise IndexError
  end.

(** ** Rational comparisons and arithmetic as the program uses them *)

Definition Qltb (a b : Q) : bool :=
  match a ?= b with
  | Lt => true
  | _ => false
  end.

(** [a / b]: a zero divisor has no finite quotient (Python floats raise,
    numpy scalars give inf or nan with a warning); the model has one error
    case for it. *)
Definition truediv (a b : Q) : result Q :=
  if Qeq_bool b 0 then Raise ZeroDivisionError else Ok (a / b).

(** Round half to even to the nearest integer. *)
Definition rint (x : Q) : Z :=
  let f := Qfloor x in
  match ((x - inject_Z f) ?= (1 # 2))%Q with
  | Lt => f
  | Gt => (f + 1)%Z
  | Eq => if Z.even f then f else (f + 1)%Z
  end.

Definition pow10 (ndigits : nat) : positive := Nat.iter ndigits (Pos.mul 10) 1%positive.

(** [round(x, ndigits)]: round half to even at [ndigits] decimals. *)
Definition round (x : Q) (ndigits : nat) : Q :=
  rint (x * inject_Z (Zpos (pow10 ndigits))) # pow10 ndigits.

(** ** The data frame *)

(** One row of [df]: the columns ['Timestamp'] (nanoseconds) and
    ['Level above Pump']. *)
Record row : Type := mkRow {
  Timestamp : Z;
  Level_above_Pump : Q
}.

(** [df] after [reset_index(drop=True)]: the index label of a row is its
    position, so the frame is the list of its rows. *)
Definition DataFrame : Type := list row.

(** A slice of [df] keeps the index labels of the rows it selects. *)
Definition frame : Type := list (nat * row).

Definition labelled (df : DataFrame) : frame := combine (seq 0 (length df)) df.

(** A slice bound as Python resolves it against a length: negative bounds
    count from the end, and both are clamped to [0 .. n]. *)
Definition slice_bound (n : nat) (k : Z) : nat :=
  if (k <? 0)%Z then Z.to_nat (Z.max 0 (k + Z.of_nat n))
  else Z.to_nat (Z.min k (Z.of_nat n)).

(** [df.iloc[start:stop]] *)
Definition iloc_slice (df : DataFrame) (start stop : Z) : frame :=
  let n := length df in
  let s := slice_bound n start in
  let e := slice_bound n stop in
  firstn (e - s) (skipn s (labelled df)).

(** [f.iloc[0]] *)
Definition iloc_first (f : frame) : result row :=
  match f with
  | [] => Raise IndexError
  | r :: _ => Ok (snd r)
  end.

(** [f.iloc[-1]] *)
Definition iloc_last (f : frame) : result row :=
  match rev f with
  | [] => Raise IndexError
  | r :: _ => Ok (snd r)
  end.

(** [f.loc[label]] *)
Fixpoint loc (f : frame) (label : nat) : result row :=
  match f with
  | [] => Raise KeyError
  | r :: f' => if Nat.eqb (fst r) label then Ok (snd r) else loc f' label
  end.

(** The label of the first row of least level among [best :: rest]. *)
Fixpoint idxmin_from (best : nat * row) (rest : frame) : nat :=
  match rest with
  | [] => fst best
  | r :: rest' =>
      if Qltb (Level_above_Pump (snd r)) (Level_above_Pump (snd best))
      then idxmin_from r rest'
      else idxmin_from best rest'
  end.

(** [f['Level above Pump'].idxmin()] *)
Definition idxmin (f : frame) : result nat :=
  match f with
  | [] => Raise ValueError
  | r :: rest => Ok (idxmin_from r rest)
  end.

(** [f[f['Level above Pump'] >= level]] *)
Definition level_at_least (level : Q) (f : frame) : frame :=
  filter (fun r => Qle_bool level (Level_above_Pump (snd r))) f.

(** [(t1 - t0).total_seconds()] for nanosecond timestamps. *)
Definition total_seconds (t1 t0 : Z) : Q := (t1 - t0)%Z # 1000000000.

(** ** One iteration of the cycle loop *)

(** The local variables of one loop iteration that reaches
    [cycles.append], at full precision, under their names in the source. *)
Record locals : Type := mkLocals {
  swl : Q;
  min_level_idx : nat;
  min_level : Q;
  max_drawdown_value : Q;
  start_time : Z;
  min_time : Z;
  end_time : Z;
  time_to_max_drawdown : Q;
  recovery_time : Q;
  drawdown_rate : Q;
  recharge_rate : Q;
  recovery_level : Q;
  time_to_90_recovery : option Q;   (* [None] is [np.nan] *)
  cycle_duration : Q;
  hourly_fluctuations : Q;
  recharge_volume : Q
}.

(** [num / hours if hours > 0 else 0] *)
Definition rate_or_zero (num hours : Q) : result Q :=
  if Qltb 0 hours then truediv num hours else Ok 0.

(** Lines 57-91 for the peak pair [(start_idx, end_idx)], without the update
    of the running total: [Ok None] is [continue], [Ok (Some L)] reaches
    [cycles.append] with the locals [L]. *)
Definition cycle_locals (df : DataFrame) (start_idx end_idx : Z)
  : result (option locals) :=
  let cycle_data := iloc_slice df start_idx (end_idx + 1) in
  if (len cycle_data <? 2)%Z then Ok None else
  row0 <- iloc_first cycle_data ;;
  let swl := Level_above_Pump row0 in
  min_level_idx <- idxmin cycle_data ;;
  row_min <- loc cycle_data min_level_idx ;;
  let min_level := Level_above_Pump row_min in
  let max_drawdown_value := swl - min_level in
  if Qltb max_drawdown_value 2 then Ok None else
  let start_time := Timestamp row0 in
  let min_time := Timestamp row_min in
  row_last <- iloc_last cycle_data ;;
  let end_time := Timestamp row_last in
  let time_to_max_drawdown := total_seconds min_time start_time / 3600 in
  let recovery_time := total_seconds end_time min_time / 3600 in
  drawdown_rate <- rate_or_zero max_drawdown_value time_to_max_drawdown ;;
  recharge_rate <- rate_or_zero max_drawdown_value recovery_time ;;
  let recovery_level := (9 # 10) * swl in
  let recovery_subset := level_at_least recovery_level cycle_data in
  time_to_90_recovery <-
    match recovery_subset with
    | [] => Ok None
    | _ :: _ =>
        row90 <- iloc_first recovery_subset ;;
        Ok (Some (-1 * total_seconds (Timestamp row90) min_time / 3600))
    end ;;
  let cycle_duration := total_seconds end_time start_time / 3600 in
  hourly_fluctuations <- rate_or_zero (swl - min_level) cycle_duration ;;
  let recharge_volume := max_drawdown_value * 1 in
  Ok (Some {|
    swl := swl;
    min_level_idx := min_level_idx;
    min_level := min_level;
    max_drawdown_value := max_drawdown_value;
    start_time := start_time;
    min_time := min_time;
    end_time := end_time;
    time_to_max_drawdown := time_to_max_drawdown;
    recovery_time := recovery_time;
    drawdown_rate := drawdown_rate;
    recharge_rate := recharge_rate;
    recovery_level := recovery_level;
    time_to_90_recovery := time_to_90_recovery;
    cycle_duration := cycle_duration;
    hourly_fluctuations := hourly_fluctuations;
    recharge_volume := recharge_volume
  |}).

(** ** The cycle records *)

Module Cycle.

(** The dictionary appended to [cycles], one field per key. *)
Record t : Type := mk {
  cycle_number : nat;
  start_time : Z;
  SWL_m : Q;
  Max_Drawdown_m : Q;
  Drawdown_Rate_m_hr : Q;
  Recovery_Time_hr : Q;
  Recharge_Rate_m_hr : Q;
  Time_to_Max_Drawdown_hr : Q;
  Recovery_90_Time_hr : option Q;    (* [None] is [np.nan] *)
  Hourly_Fluctuation_m_hr : Q;
  Cumulative_Drawdown_m : Q;
  Recharge_Volume_m3 : Q
}.

End Cycle.

(** The dictionary of lines 94-107, built when [cycles] already holds
    [ncycles] records and the running total is [cumulative_drawdown]. *)
Definition cycle_record (ncycles : nat) (L : locals) (cumulative_drawdown : Q)
  : Cycle.t :=
  {| Cycle.cycle_number := ncycles + 1;
     Cycle.start_time := start_time L;
     Cycle.SWL_m := round (swl L) 1;
     Cycle.Max_Drawdown_m := round (max_drawdown_value L) 1;
     Cycle.Drawdown_Rate_m_hr := round (drawdown_rate L) 1;
     Cycle.Recovery_Time_hr := round (recovery_time L) 2;
     Cycle.Recharge_Rate_m_hr := round (recharge_rate L) 1;
     Cycle.Time_to_Max_Drawdown_hr := round (time_to_max_drawdown L) 2;
     Cycle.Recovery_90_Time_hr :=
       match time_to_90_recovery L with
       | Some t => Some (round t 2)
       | None => None
       end;
     Cycle.Hourly_Fluctuation_m_hr := round (hourly_fluctuations L) 1;
     Cycle.Cumulative_Drawdown_m := round cumulative_drawdown 1;
     Cycle.Recharge_Volume_m3 := round (recharge_volume L) 1 |}.

(** ** The cycle loop *)

(** The state threaded through the loop: [cycles] and
    [cumulative_drawdown]. *)
Definition loop_state : Type := (list Cycle.t * Q)%type.

(** The body of [for i in range(len(peaks) - 1)]. *)
Definition loop_body (df : DataFrame) (peaks : list Z) (st : loop_state)
  (i : nat) : result loop_state :=
  start_idx <- getitem peaks i ;;
  end_idx <- getitem peaks (i + 1) ;;
  o <- cycle_locals df start_idx end_idx ;;
  match o with
  | None => Ok st
  | Some L =>
      let '(cycles, cumulative_drawdown) := st in
      let cumulative_drawdown := cumulative_drawdown + max_drawdown_value L in
      Ok (cycles ++ [cycle_record (length cycles) L cumulative_drawdown],
          cumulative_drawdown)
  end.

(** Lines 50-107: the list [cycles] at the end of the loop (the spec's
    [segmentCycles] with the drawdown floor fixed at 2). *)
Definition cycle_processing (df : DataFrame) (peaks : list Z)
  : result (list Cycle.t) :=
  st <- for_each (loop_body df peaks) (range (len peaks - 1)) ([], 0) ;;
  Ok (fst st).

(** ** Peak detection: [scipy.signal.find_peaks(x, prominence=0)]

    [find_peaks] is a library function, not code of the repository.  The
    model follows the library's algorithm: the strict local maxima of [x]
    with a plateau represented by its middle sample ([_local_maxima_1d]),
    their prominences ([peak_prominences] without a window), and the
    selection of the peaks whose prominence is at least the bound
    ([_select_by_property]).  It is stated once over the comparisons and
    the subtraction of the sample type, and used at the rationals and at
    float64 values with NaN and infinities. *)

Section FindPeaks.

Variable A : Type.
Variables ltb leb eqb : A -> A -> bool.
Variable sub : A -> A -> A.

Variable x : list A.

(** [while i_ahead < i_max and x[i_ahead] == x[i]: i_ahead += 1], with
    [gap = i_max - i_ahead]. *)
Fixpoint look_ahead (xi : A) (gap i_ahead : nat) : result nat :=
  match gap with
  | O => Ok i_ahead
  | S gap' =>
      xa <- getitem x i_ahead ;;
      if eqb xa xi then look_ahead xi gap' (S i_ahead) else Ok i_ahead
  end.

(** [while i < i_max: ...], the midpoints found from [i] on.  Every
    iteration advances [i], so [fuel] iterations with
    [i_max - i <= fuel] reach the end of the loop
    ([local_maxima_fuel]). *)
Fixpoint local_maxima_loop (i_max fuel i : nat) : result (list nat) :=
  match fuel with
  | O => Ok []
  | S fuel' =>
      if (i <? i_max)%nat then
        xp <- getitem x (i - 1) ;;
        xi <- getitem x i ;;
        if ltb xp xi then
          i_ahead <- look_ahead xi (i_max - (i + 1)) (i + 1) ;;
          xa <- getitem x i_ahead ;;
          if ltb xa xi then
            let left_edge := i in
            let right_edge := (i_ahead - 1)%nat in
            let midpoint := ((left_edge + right_edge) / 2)%nat in
            rest <- local_maxima_loop i_max fuel' (i_ahead + 1) ;;
            Ok (midpoint :: rest)
          else local_maxima_loop i_max fuel' (i + 1)
        else local_maxima_loop i_max fuel' (i + 1)
      else Ok []
  end.

(** The first sample and the last one cannot be maxima. *)
Definition local_maxima_1d : result (list nat) :=
  let i_max := (length x - 1)%nat in
  local_maxima_loop i_max i_max 1.

(** [while 0 <= i and x[i] <= x[peak]: ...; i -= 1], with [n = i + 1];
    the least sample met. *)
Fixpoint scan_left (xpeak : A) (n : nat) (left_min : A) : result A :=
  match n with
  | O => Ok left_min
  | S i =>
      xi <- getitem x i ;;
      if leb xi xpeak
      then scan_left xpeak i (if ltb xi left_min then xi else left_min)
      else Ok left_min
  end.

(** [while i <= i_max and x[i] <= x[peak]: ...; i += 1], with
    [gap = i_max - i + 1]. *)
Fixpoint scan_right (xpeak : A) (gap i : nat) (right_min : A) : result A :=
  match gap with
  | O => Ok right_min
  | S gap' =>
      xi <- getitem x i ;;
      if leb xi xpeak
      then scan_right xpeak gap' (S i) (if ltb xi right_min then xi else right_min)
      else Ok right_min
  end.

(** [x[peak] - max(left_min, right_min)]; a peak that is not an index of
    [x] is a [ValueError]. *)
Definition prominence (peak : nat) : result A :=
  if (peak <? length x)%nat then
    xpeak <- getitem x peak ;;
    left_min <- scan_left xpeak (peak + 1) xpeak ;;
    right_min <- scan_right xpeak (length x - peak) peak xpeak ;;
    Ok (sub xpeak (if ltb left_min right_min then right_min else left_min))
  else Raise ValueError.

(** The peaks whose prominence is at least [pmin], in order. *)
Fixpoint select_by_prominence (pmin : A) (peaks : list nat)
  : result (list nat) :=
  match peaks with
  | [] => Ok []
  | peak :: peaks' =>
      p <- prominence peak ;;
      kept <- select_by_prominence pmin peaks' ;;
      Ok (if leb pmin p then peak :: kept else kept)
  end.

Definition find_peaks_prominence (pmin : A) : result (list nat) :=
  peaks <- local_maxima_1d ;;
  select_by_prominence pmin peaks.

End FindPeaks.

Arguments look_ahead {A} eqb x xi gap i_ahead.
Arguments local_maxima_loop {A} ltb eqb x i_max fuel i.
Arguments local_maxima_1d {A} ltb eqb x.
Arguments scan_left {A} ltb leb x xpeak n left_min.
Arguments scan_right {A} ltb leb x xpeak gap i right_min.
Arguments prominence {A} ltb leb sub x peak.
Arguments select_by_prominence {A} ltb leb sub x pmin peaks.
Arguments find_peaks_prominence {A} ltb leb eqb sub x pmin.

(** [find_peaks(levels, prominence=0)] on finite levels. *)
Definition find_peaks (levels : list Q) : result (list nat) :=
  find_peaks_prominence Qltb Qle_bool Qeq_bool Qminus levels 0.

(** ** float64 samples with the non-finite values *)

Inductive float64 : Type :=
| Finite (q : Q)
| PosInf
| NegInf
| NaN.

Module F64.

(** IEEE comparisons: every comparison with NaN is false. *)
Definition ltb (a b : float64) : bool :=
  match a, b with
  | NaN, _ | _, NaN => false
  | Finite p, Finite q => Qltb p q
  | NegInf, NegInf => false
  | NegInf, _ => true
  | _, NegInf => false
  | PosInf, _ => false
  | _, PosInf => true
  end.

Definition eqb (a b : float64) : bool :=
  match a, b with
  | Finite p, Finite q => Qeq_bool p q
  | PosInf, PosInf => true
  | NegInf, NegInf => true
  | _, _ => false
  end.

Definition leb (a b : float64) : bool := ltb a b || eqb a b.

(** IEEE subtraction on the special values, exact on finite ones. *)
Definition sub (a b : float64) : float64 :=
  match a, b with
  | NaN, _ | _, NaN => NaN
  | Finite p, Finite q => Finite (p - q)
  | PosInf, PosInf => NaN
  | NegInf, NegInf => NaN
  | PosInf, _ => PosInf
  | NegInf, _ => NegInf
  | Finite _, PosInf => NegInf
  | Finite _, NegInf => PosInf
  end.


(** [find_peaks(x, prominence=0)] on float64 samples. *)
Definition find_peaks (x : list float64) : result (list nat) :=
  find_peaks_prominence ltb leb eqb sub x (Finite 0).

End F64.

(** ** The pipeline of [main], lines 43-107 *)

(** [levels = df['Level above Pump'].values] *)
Definition levels_of (df : DataFrame) : list Q := map Level_above_Pump df.

Definition main (df : DataFrame) : result (list Cycle.t) :=
  peaks <- find_peaks (levels_of df) ;;
  cycle_processing df (map Z.of_nat peaks).

(** ** Definitions used to state the properties *)

(** The locals of iteration [i] when it reaches [cycles.append]. *)
Definition locals_at (df : DataFrame) (peaks : list Z) (i : nat)
  : option locals :=
  match getitem peaks i, getitem peaks (i + 1) with
  | Ok start_idx, Ok end_idx =>
      match cycle_locals df start_idx end_idx with
      | Ok (Some L) => Some L
      | _ => None
      end
  | _, _ => None
  end.

(** The accepted cycles among the iterations [idxs], in encounter order, at
    full precision. *)
Fixpoint accepted_among (df : DataFrame) (peaks : list Z) (idxs : list nat)
  : list locals :=
  match idxs with
  | [] => []
  | i :: idxs' =>
      match locals_at df peaks i with
      | Some L => L :: accepted_among df peaks idxs'
      | None => accepted_among df peaks idxs'
      end
  end.

Definition accepted (df : DataFrame) (peaks : list Z) : list locals :=
  accepted_among df peaks (range (len peaks - 1)).

(** The records of the accepted cycles [Ls] when [ncycles] records precede
    them and the running total before them is [total]. *)
Fixpoint records_from (ncycles : nat) (total : Q) (Ls : list locals)
  : list Cycle.t :=
  match Ls with
  | [] => []
  | L :: Ls' =>
      let total' := total + max_drawdown_value L in
      cycle_record ncycles L total' :: records_from (S ncycles) total' Ls'
  end.

Definition Qsum (l : list Q) : Q := fold_right Qplus 0 l.

(** The exact sum of [max_drawdown_value] over the first [k] accepted
    cycles. *)
Definition drawdown_sum (Ls : list locals) (k : nat) : Q :=
  Qsum (map max_drawdown_value (firstn k Ls)).

(** The sum of the reported ['Max Drawdown (m)'] over the first [k]
    records. *)
Definition reported_drawdown_sum (cycles : list Cycle.t) (k : nat) : Q :=
  Qsum (map Cycle.Max_Drawdown_m (firstn k cycles)).

(** The rows of [cycle_data] from the row labelled [label] on. *)
Fixpoint from_label (cycle_data : frame) (label : nat) : frame :=
  match cycle_data with
  | [] => []
  | r :: f' => if Nat.eqb (fst r) label then cycle_data else from_label f' label
  end.

(** The 90%-recovery time in the words of the specification: the first
    sample from the trough on (the trough included) whose level is at least
    [0.9 * SWL], as hours after the trough; absent when there is none. *)
Definition spec_time_to_90_recovery (cycle_data : frame) (L : locals)
  : option Q :=
  match level_at_least ((9 # 10) * swl L)
          (from_label cycle_data (min_level_idx L)) with
  | [] => None
  | r :: _ => Some (total_seconds (Timestamp (snd r)) (min_time L) / 3600)
  end.

(** Structural validity of the segmenter's input in the words of the
    specification: every peak index within the series, peak indices
    ascending, timestamps increasing. *)
Definition in_bounds (df : DataFrame) (peak : Z) : bool :=
  (0 <=? peak)%Z && (peak <? len df)%Z.

Fixpoint increasing (l : list Z) : bool :=
  match l with
  | a :: (b :: _) as l' => (a <? b)%Z && increasing l'
  | _ => true
  end.

Definition structurally_valid (df : DataFrame) (peaks : list Z) : bool :=
  forallb (in_bounds df) peaks && increasing peaks
  && increasing (map Timestamp df).

(** What the statements of one accepted iteration established, read off
    the locals [L] of a run over the slice [cycle_data]. *)
Record iteration_run (cycle_data : frame) (L : locals) : Prop := {
  run_first : exists row0 rest,
    cycle_data = row0 :: rest
    /\ swl L = Level_above_Pump (snd row0)
    /\ start_time L = Timestamp (snd row0);
  run_trough : exists row_min,
    idxmin cycle_data = Ok (min_level_idx L)
    /\ loc cycle_data (min_level_idx L) = Ok row_min
    /\ min_level L = Level_above_Pump row_min
    /\ min_time L = Timestamp row_min;
  run_last : exists row_last,
    iloc_last cycle_data = Ok row_last /\ end_time L = Timestamp row_last;
  run_drawdown : max_drawdown_value L = swl L - min_level L;
  run_accepted : 2 <= max_drawdown_value L;
  run_time_to_max_drawdown :
    time_to_max_drawdown L = total_seconds (min_time L) (start_time L) / 3600;
  run_recovery_time :
    recovery_time L = total_seconds (end_time L) (min_time L) / 3600;
  run_drawdown_rate :
    rate_or_zero (max_drawdown_value L) (time_to_max_drawdown L)
    = Ok (drawdown_rate L);
  run_recharge_rate :
    rate_or_zero (max_drawdown_value L) (recovery_time L)
    = Ok (recharge_rate L);
  run_recovery_level : recovery_level L = (9 # 10) * swl L;
  run_time_to_90_recovery :
    time_to_90_recovery L =
    match level_at_least (recovery_level L) cycle_data with
    | [] => None
    | r :: _ => Some (-1 * total_seconds (Timestamp (snd r)) (min_time L) / 3600)
    end;
  run_cycle_duration :
    cycle_duration L = total_seconds (end_time L) (start_time L) / 3600;
  run_hourly_fluctuations :
    rate_or_zero (swl L - min_level L) (cycle_duration L)
    = Ok (hourly_fluctuations L);
  run_recharge_volume : recharge_volume L = max_drawdown_value L * 1
}.

(** ** Concrete series *)

Definition hour : Z := 3600000000000.

(** Readings at hourly timestamps, from time 0. *)
Definition hourly (levels : list Q) : DataFrame :=
  map (fun p => mkRow (Z.of_nat (fst p) * hour) (snd p))
      (combine (seq 0 (length levels)) levels).

(** The series of the end-to-end example. *)
Definition example_levels : list Q := [10; 11; 4; 3; 9; 19 # 2; 2; 8].

(** Two accepted cycles of drawdown 2.04 each. *)
Definition two_cycles_levels : list Q :=
  [0; 10; 796 # 100; 9; 696 # 100; 8; 0].


(** The reports of the concrete series. *)
Definition report_of (r : result (list Cycle.t)) : list Cycle.t :=
  match r with
  | Ok cycles => cycles
  | Raise _ => []
  end.

Definition two_cycles_report : list Cycle.t :=
  Eval vm_compute in report_of (main (hourly two_cycles_levels)).


(** ** The peak marks, lines 47-48 *)

(** [col[label] = v] on a column whose labels are the positions; a label
    that is not in the index is a [KeyError]. *)
Fixpoint set_label {A : Type} (col : list A) (label : nat) (v : A)
  : result (list A) :=
  match col, label with
  | [], _ => Raise KeyError
  | _ :: col', O => Ok (v :: col')
  | a :: col', S label' => col'' <- set_label col' label' v ;; Ok (a :: col'')
  end.

(** [df['is_peak'] = False; df.loc[peaks, 'is_peak'] = True]: the column
    ['is_peak']. *)
Definition is_peak_column (df : DataFrame) (peaks : list nat)
  : result (list bool) :=
  for_each (fun col peak => set_label col peak true) peaks
           (repeat false (length df)).

(** ** [create_summary], lines 201-217 *)

(** A float column of [df_cycles]; [None] is NaN. *)
Definition column : Type := list (option Q).

(** The values of a column that are not NaN ([skipna=True]). *)
Fixpoint dropna (col : column) : list Q :=
  match col with
  | [] => []
  | Some v :: col' => v :: dropna col'
  | None :: col' => dropna col'
  end.

Definition Qmin2 (a b : Q) : Q := if Qle_bool a b then a else b.
Definition Qmax2 (a b : Q) : Q := if Qle_bool a b then b else a.

(** [col.min()]: NaN when no value is left. *)
Definition series_min (col : column) : option Q :=
  match dropna col with
  | [] => None
  | v :: vs => Some (fold_left Qmin2 vs v)
  end.

(** [col.max()] *)
Definition series_max (col : column) : option Q :=
  match dropna col with
  | [] => None
  | v :: vs => Some (fold_left Qmax2 vs v)
  end.

(** [col.mean()]: the sum of the values over their count. *)
Definition series_mean (col : column) : option Q :=
  match dropna col with
  | [] => None
  | v :: vs => Some (Qsum (v :: vs) / inject_Z (len (v :: vs)))
  end.

Module Summary.

(** One row of the summary frame. *)
Record t : Type := mk {
  Param : String.string;          (* the key [Parameter] *)
  Min : option Q;
  Average : option Q;
  Max : option Q
}.

End Summary.

(** The list [params] of [create_summary], each name with the column
    [df[param]] it selects from a record. *)
Definition params : list (String.string * (Cycle.t -> option Q)) :=
  [ ("SWL (m)"%string, fun r => Some (Cycle.SWL_m r));
    ("Max Drawdown (m)"%string, fun r => Some (Cycle.Max_Drawdown_m r));
    ("Drawdown Rate (m/hr)"%string, fun r => Some (Cycle.Drawdown_Rate_m_hr r));
    ("Recovery Time (hr)"%string, fun r => Some (Cycle.Recovery_Time_hr r));
    ("Recharge Rate (m/hr)"%string, fun r => Some (Cycle.Recharge_Rate_m_hr r));
    ("Time to Max Drawdown (hr)"%string,
     fun r => Some (Cycle.Time_to_Max_Drawdown_hr r));
    ("90% Recovery Time (hr)"%string, Cycle.Recovery_90_Time_hr);
    ("Hourly Fluctuation (m/hr)"%string,
     fun r => Some (Cycle.Hourly_Fluctuation_m_hr r));
    ("Cumulative Drawdown (m)"%string,
     fun r => Some (Cycle.Cumulative_Drawdown_m r));
    ("Recharge Volume (m³)"%string, fun r => Some (Cycle.Recharge_Volume_m3 r)) ].

(** The summary row of one parameter. *)
Definition summary_row (df : list Cycle.t)
  (param : String.string * (Cycle.t -> option Q)) : Summary.t :=
  let col := map (snd param) df in
  {| Summary.Param := fst param;
     Summary.Min := series_min col;
     Summary.Average := series_mean col;
     Summary.Max := series_max col |}.

Definition create_summary (df : list Cycle.t) : list Summary.t :=
  map (summary_row df) params.

(** ** Orderings of a series, as checks *)

(** Every element stands in [rel] to the next one. *)
Fixpoint chain {A : Type} (rel : A -> A -> bool) (l : list A) : bool :=
  match l with
  | a :: (b :: _) as l' => rel a b && chain rel l'
  | _ => true
  end.

(** The frame is sorted by ['Timestamp'] (line 42). *)
Definition sorted_by_timestamp (df : DataFrame) : bool :=
  chain Z.leb (map Timestamp df).

(** ** Peaks as plateaus *)

(** [p] is the middle index of a plateau of [x] that is strictly higher
    than the sample before it and the sample after it. *)
Definition plateau_peak (x : list Q) (p : nat) : Prop :=
  exists left right v,
    (1 <= left <= right)%nat
    /\ (right + 1 < length x)%nat
    /\ p = ((left + right) / 2)%nat
    /\ (forall k, (left <= k <= right)%nat ->
                  exists u, nth_error x k = Some u /\ u == v)
    /\ (exists a, nth_error x (left - 1) = Some a /\ a < v)
    /\ (exists c, nth_error x (right + 1) = Some c /\ c < v).

(** ** The cycle loop over the program's float operations

    The definitions above compute with exact rationals, which is what the
    program's float64 operations approximate; that is enough for what rests
    on comparisons and guards.  What is said about the values the program
    computes and reports (which value is rounded, when, and what is added to
    what) is stated on a second reading of the same lines, in which the
    float operations are not interpreted at all: [F] stands for the binary64
    values that the program's numeric variables hold, and the operations on
    them are the fields of an interface.  This reading keeps what the first
    one leaves out: NaN and infinite levels, the two roundings that the
    builtin [round] dispatches to (the levels and what is computed from them
    are numpy float64 scalars, the hours are Python floats), and the error
    case of the subtraction of two Timestamps, whose difference is out of
    bounds when it does not fit a nanosecond Timedelta.  The column
    ['Timestamp'] holds Timestamps (no NaT). *)

Module Fl.

(** The operations of the program on its float values. *)
Record ops (F : Type) : Type := mkOps {
  lt : F -> F -> bool;         (* [a < b] *)
  le : F -> F -> bool;         (* [a <= b] *)
  eqb : F -> F -> bool;        (* [a == b] *)
  add : F -> F -> F;           (* [a + b] *)
  sub : F -> F -> F;           (* [a - b] *)
  mul : F -> F -> F;           (* [a * b] *)
  div : F -> F -> F;           (* [a / b], [a] a numpy float64 or [b] the
                                  literal 3600: it never raises *)
  lit : Q -> F;                (* the value of a numeric literal *)
  seconds : Z -> F;            (* [total_seconds()] of a Timedelta, given
                                  in nanoseconds *)
  round : F -> nat -> F;       (* [round(a, ndigits)], [a] a numpy float64 *)
  round_float : F -> nat -> F; (* [round(a, ndigits)], [a] a Python float *)
  isnan : F -> bool;           (* [np.isnan(a)] *)
  nan : F;                     (* [np.nan] *)
  inf : F                      (* [np.inf], which [idxmin] reads for NaN *)
}.

Arguments lt {F} o _ _.
Arguments le {F} o _ _.
Arguments eqb {F} o _ _.
Arguments add {F} o _ _.
Arguments sub {F} o _ _.
Arguments mul {F} o _ _.
Arguments div {F} o _ _.
Arguments lit {F} o _.
Arguments seconds {F} o _.
Arguments round {F} o _ _.
Arguments round_float {F} o _ _.
Arguments isnan {F} o _.
Arguments nan {F} o.
Arguments inf {F} o.

(** One row of [df]. *)
Record row (F : Type) : Type := mkRow {
  Timestamp : Z;
  Level_above_Pump : F
}.

Arguments mkRow {F} _ _.
Arguments Timestamp {F} r.
Arguments Level_above_Pump {F} r.

(** The locals of one iteration that reaches [cycles.append]. *)
Record locals (F : Type) : Type := mkLocals {
  swl : F;
  min_level_idx : nat;
  min_level : F;
  max_drawdown_value : F;
  start_time : Z;
  min_time : Z;
  end_time : Z;
  time_to_max_drawdown : F;
  recovery_time : F;
  drawdown_rate : F;
  recharge_rate : F;
  recovery_level : F;
  time_to_90_recovery : F;
  cycle_duration : F;
  hourly_fluctuations : F;
  recharge_volume : F
}.

Arguments swl {F} l.
Arguments min_level_idx {F} l.
Arguments min_level {F} l.
Arguments max_drawdown_value {F} l.
Arguments start_time {F} l.
Arguments min_time {F} l.
Arguments end_time {F} l.
Arguments time_to_max_drawdown {F} l.
Arguments recovery_time {F} l.
Arguments drawdown_rate {F} l.
Arguments recharge_rate {F} l.
Arguments recovery_level {F} l.
Arguments time_to_90_recovery {F} l.
Arguments cycle_duration {F} l.
Arguments hourly_fluctuations {F} l.
Arguments recharge_volume {F} l.

(** The dictionary appended to [cycles]. *)
Record cycle (F : Type) : Type := mkCycle {
  cycle_number : nat;
  cycle_start_time : Z;                 (* the key ['start_time'] *)
  SWL_m : F;
  Max_Drawdown_m : F;
  Drawdown_Rate_m_hr : F;
  Recovery_Time_hr : F;
  Recharge_Rate_m_hr : F;
  Time_to_Max_Drawdown_hr : F;
  Recovery_90_Time_hr : F;
  Hourly_Fluctuation_m_hr : F;
  Cumulative_Drawdown_m : F;
  Recharge_Volume_m3 : F
}.

Arguments cycle_number {F} c.
Arguments cycle_start_time {F} c.
Arguments SWL_m {F} c.
Arguments Max_Drawdown_m {F} c.
Arguments Drawdown_Rate_m_hr {F} c.
Arguments Recovery_Time_hr {F} c.
Arguments Recharge_Rate_m_hr {F} c.
Arguments Time_to_Max_Drawdown_hr {F} c.
Arguments Recovery_90_Time_hr {F} c.
Arguments Hourly_Fluctuation_m_hr {F} c.
Arguments Cumulative_Drawdown_m {F} c.
Arguments Recharge_Volume_m3 {F} c.

(** The largest nanosecond count of a Timedelta. *)
Definition timedelta_max : Z := 9223372036854775807.

Definition in_timedelta_bounds (d : Z) : bool :=
  (- timedelta_max <=? d)%Z && (d <=? timedelta_max)%Z.

(** [t1 - t0] for two Timestamps: the Timedelta in nanoseconds, or the
    error of a difference that does not fit ([OutOfBoundsTimedelta], a
    [ValueError]). *)
Definition timedelta (t1 t0 : Z) : result Z :=
  if in_timedelta_bounds (t1 - t0) then Ok (t1 - t0)%Z else Raise ValueError.

Section Program.

Context {F : Type} (O : ops F).

Definition DataFrame : Type := list (row F).
Definition frame : Type := list (nat * row F).

Definition labelled (df : DataFrame) : frame := combine (seq 0 (length df)) df.

(** [df.iloc[start:stop]] *)
Definition iloc_slice (df : DataFrame) (start stop : Z) : frame :=
  let n := length df in
  let s := slice_bound n start in
  let e := slice_bound n stop in
  firstn (e - s) (skipn s (labelled df)).

(** [f.iloc[0]] *)
Definition iloc_first (f : frame) : result (row F) :=
  match f with
  | [] => Raise IndexError
  | r :: _ => Ok (snd r)
  end.

(** [f.iloc[-1]] *)
Definition iloc_last (f : frame) : result (row F) :=
  match rev f with
  | [] => Raise IndexError
  | r :: _ => Ok (snd r)
  end.

(** [f.loc[label]] *)
Fixpoint loc (f : frame) (label : nat) : result (row F) :=
  match f with
  | [] => Raise KeyError
  | r :: f' => if Nat.eqb (fst r) label then Ok (snd r) else loc f' label
  end.

(** The level of a row as [idxmin] reads it: NaN is skipped by reading it
    as [+inf]. *)
Definition filled (r : nat * row F) : F :=
  if isnan O (Level_above_Pump (snd r)) then inf O
  else Level_above_Pump (snd r).

(** The label of the first row of least level among [best :: rest]. *)
Fixpoint idxmin_from (best : nat * row F) (rest : frame) : nat :=
  match rest with
  | [] => fst best
  | r :: rest' =>
      if lt O (filled r) (filled best)
      then idxmin_from r rest'
      else idxmin_from best rest'
  end.

(** [f['Level above Pump'].idxmin()], as far as line 64 can use it: on a
    slice whose levels are all NaN [idxmin] gives NaN, with which the [loc]
    of line 64 raises [KeyError] (in pandas 3 [idxmin] itself raises). *)
Definition idxmin (f : frame) : result nat :=
  match f with
  | [] => Raise ValueError
  | r :: rest =>
      if forallb (fun r => isnan O (Level_above_Pump (snd r))) f
      then Raise KeyError
      else Ok (idxmin_from r rest)
  end.

(** [f[f['Level above Pump'] >= level]] *)
Definition level_at_least (level : F) (f : frame) : frame :=
  filter (fun r => le O level (Level_above_Pump (snd r))) f.

(** [(t1 - t0).total_seconds() / 3600] *)
Definition hours_between (t1 t0 : Z) : result F :=
  d <- timedelta t1 t0 ;;
  Ok (div O (seconds O d) (lit O 3600)).

(** [num / hours if hours > 0 else 0] *)
Definition rate_or_zero (num hours : F) : F :=
  if lt O (lit O 0) hours then div O num hours else lit O 0.

(** Lines 57-91 for the peak pair [(start_idx, end_idx)], without the
    update of the running total: [Ok None] is [continue]. *)
Definition cycle_locals (df : DataFrame) (start_idx end_idx : Z)
  : result (option (locals F)) :=
  let cycle_data := iloc_slice df start_idx (end_idx + 1) in
  if (len cycle_data <? 2)%Z then Ok None else
  row0 <- iloc_first cycle_data ;;
  let swl := Level_above_Pump row0 in
  min_level_idx <- idxmin cycle_data ;;
  row_min <- loc cycle_data min_level_idx ;;
  let min_level := Level_above_Pump row_min in
  let max_drawdown_value := sub O swl min_level in
  if lt O max_drawdown_value (lit O 2) then Ok None else
  let start_time := Timestamp row0 in
  let min_time := Timestamp row_min in
  row_last <- iloc_last cycle_data ;;
  let end_time := Timestamp row_last in
  time_to_max_drawdown <- hours_between min_time start_time ;;
  recovery_time <- hours_between end_time min_time ;;
  let drawdown_rate := rate_or_zero max_drawdown_value time_to_max_drawdown in
  let recharge_rate := rate_or_zero max_drawdown_value recovery_time in
  let recovery_level := mul O (lit O (9 # 10)) swl in
  let recovery_subset := level_at_least recovery_level cycle_data in
  time_to_90_recovery <-
    match recovery_subset with
    | [] => Ok (nan O)
    | row90 :: _ =>
        d <- timedelta (Timestamp (snd row90)) min_time ;;
        Ok (div O (mul O (lit O (-1)) (seconds O d)) (lit O 3600))
    end ;;
  cycle_duration <- hours_between end_time start_time ;;
  let hourly_fluctuations := rate_or_zero (sub O swl min_level) cycle_duration in
  let recharge_volume := mul O max_drawdown_value (lit O 1) in
  Ok (Some {|
    swl := swl;
    min_level_idx := min_level_idx;
    min_level := min_level;
    max_drawdown_value := max_drawdown_value;
    start_time := start_time;
    min_time := min_time;
    end_time := end_time;
    time_to_max_drawdown := time_to_max_drawdown;
    recovery_time := recovery_time;
    drawdown_rate := drawdown_rate;
    recharge_rate := recharge_rate;
    recovery_level := recovery_level;
    time_to_90_recovery := time_to_90_recovery;
    cycle_duration := cycle_duration;
    hourly_fluctuations := hourly_fluctuations;
    recharge_volume := recharge_volume
  |}).

(** The dictionary of lines 94-107.  The values rounded to 1 decimal are
    numpy float64 scalars (or the int 0 of a rate), those rounded to 2
    decimals are Python floats. *)
Definition cycle_record (ncycles : nat) (L : locals F) (cumulative_drawdown : F)
  : cycle F :=
  {| cycle_number := ncycles + 1;
     cycle_start_time := start_time L;
     SWL_m := round O (swl L) 1;
     Max_Drawdown_m := round O (max_drawdown_value L) 1;
     Drawdown_Rate_m_hr := round O (drawdown_rate L) 1;
     Recovery_Time_hr := round_float O (recovery_time L) 2;
     Recharge_Rate_m_hr := round O (recharge_rate L) 1;
     Time_to_Max_Drawdown_hr := round_float O (time_to_max_drawdown L) 2;
     Recovery_90_Time_hr :=
       if negb (isnan O (time_to_90_recovery L))
       then round_float O (time_to_90_recovery L) 2
       else nan O;
     Hourly_Fluctuation_m_hr := round O (hourly_fluctuations L) 1;
     Cumulative_Drawdown_m := round O cumulative_drawdown 1;
     Recharge_Volume_m3 := round O (recharge_volume L) 1 |}.

(** The state threaded through the loop: [cycles] and
    [cumulative_drawdown]. *)
Definition loop_state : Type := (list (cycle F) * F)%type.

(** The body of [for i in range(len(peaks) - 1)]. *)
Definition loop_body (df : DataFrame) (peaks : list Z) (st : loop_state)
  (i : nat) : result loop_state :=
  start_idx <- getitem peaks i ;;
  end_idx <- getitem peaks (i + 1) ;;
  o <- cycle_locals df start_idx end_idx ;;
  match o with
  | None => Ok st
  | Some L =>
      let '(cycles, cumulative_drawdown) := st in
      let cumulative_drawdown := add O cumulative_drawdown (max_drawdown_value L) in
      Ok (cycles ++ [cycle_record (length cycles) L cumulative_drawdown],
          cumulative_drawdown)
  end.

(** Lines 50-107: the list [cycles] at the end of the loop. *)
Definition cycle_processing (df : DataFrame) (peaks : list Z)
  : result (list (cycle F)) :=
  st <- for_each (loop_body df peaks) (range (len peaks - 1)) ([], lit O 0) ;;
  Ok (fst st).

(** [find_peaks(levels, prominence=0)] *)
Definition find_peaks (levels : list F) : result (list nat) :=
  find_peaks_prominence (lt O) (le O) (eqb O) (sub O) levels (lit O 0).

(** Lines 47-48. *)
Definition is_peak_column (df : DataFrame) (peaks : list nat)
  : result (list bool) :=
  for_each (fun col peak => set_label col peak true) peaks
           (repeat false (length df)).

(** Lines 43-107. *)
Definition main (df : DataFrame) : result (list (cycle F)) :=
  peaks <- find_peaks (map Level_above_Pump df) ;;
  _ <- is_peak_column df peaks ;;
  cycle_processing df (map Z.of_nat peaks).

(** The locals of iteration [i] when it reaches [cycles.append]. *)
Definition locals_at (df : DataFrame) (peaks : list Z) (i : nat)
  : option (locals F) :=
  match getitem peaks i, getitem peaks (i + 1) with
  | Ok start_idx, Ok end_idx =>
      match cycle_locals df start_idx end_idx with
      | Ok (Some L) => Some L
      | _ => None
      end
  | _, _ => None
  end.

(** The accepted cycles among the iterations [idxs], in encounter order. *)
Fixpoint accepted_among (df : DataFrame) (peaks : list Z) (idxs : list nat)
  : list (locals F) :=
  match idxs with
  | [] => []
  | i :: idxs' =>
      match locals_at df peaks i with
      | Some L => L :: accepted_among df peaks idxs'
      | None => accepted_among df peaks idxs'
      end
  end.

Definition accepted (df : DataFrame) (peaks : list Z) : list (locals F) :=
  accepted_among df peaks (range (len peaks - 1)).

(** The running total after the first [k] of the accepted cycles [Ls]:
    their drawdowns added one after the other, in float arithmetic, to the
    initial 0. *)
Definition running_total (Ls : list (locals F)) (k : nat) : F :=
  fold_left (add O) (map max_drawdown_value (firstn k Ls)) (lit O 0).

(** The records of the accepted cycles [Ls] when [ncycles] records precede
    them and the running total before them is [total]. *)
Fixpoint records_from (ncycles : nat) (total : F) (Ls : list (locals F))
  : list (cycle F) :=
  match Ls with
  | [] => []
  | L :: Ls' =>
      let total' := add O total (max_drawdown_value L) in
      cycle_record ncycles L total' :: records_from (S ncycles) total' Ls'
  end.

(** Every difference of two timestamps of the frame fits a Timedelta. *)
Definition timestamps_in_bounds (df : DataFrame) : bool :=
  forallb (fun a =>
    forallb (fun b => in_timedelta_bounds (Timestamp a - Timestamp b)) df) df.

(** No level of the frame is NaN. *)
Definition no_nan_levels (df : DataFrame) : bool :=
  forallb (fun r => negb (isnan O (Level_above_Pump r))) df.

(** No accepted cycle has a NaN drawdown (which takes a NaN level, or two
    infinite levels of the same sign). *)
Definition drawdowns_not_nan (df : DataFrame) (peaks : list Z) : bool :=
  forallb (fun L => negb (isnan O (max_drawdown_value L))) (accepted df peaks).

(** The operations [O] with other roundings in place of [round] and
    [round_float]. *)
Definition with_round (rnd rnd_float : F -> nat -> F) : ops F :=
  {| lt := lt O; le := le O; eqb := eqb O; add := add O; sub := sub O;
     mul := mul O; div := div O; lit := lit O; seconds := seconds O;
     round := rnd; round_float := rnd_float;
     isnan := isnan O; nan := nan O; inf := inf O |}.

(** What the statements about order use of the float operations.  Each line
    is a fact of binary64 arithmetic with rounding to nearest, in which
    every comparison with NaN is false: [<=] is transitive; a value that
    compares with another compares with itself; the conversion of a literal
    is monotone and never NaN; of two values that are not NaN, one is below
    the other or the other is not above it; adding a value that is not
    negative to one that is not negative does not give less; and the
    rounding of a numpy float64 to decimals (a scaling, a rounding to an
    integer and a scaling back) is monotone. *)
Record order_laws : Prop := {
  le_trans : forall x y z,
      le O x y = true -> le O y z = true -> le O x z = true;
  le_self : forall x y,
      le O x y = true -> le O x x = true /\ le O y y = true;
  lit_le : forall p q : Q,
      Qle_bool p q = true -> le O (lit O p) (lit O q) = true;
  lit_not_nan : forall q : Q, isnan O (lit O q) = false;
  not_lt_le : forall x y,
      isnan O x = false -> isnan O y = false ->
      lt O x y = false -> le O y x = true;
  add_grows : forall x y,
      le O (lit O 0) x = true -> le O (lit O 0) y = true ->
      le O x (add O x y) = true;
  round_monotone : forall x y n,
      le O x y = true -> le O (round O x n) (round O y n) = true
}.

End Program.

Arguments DataFrame : clear implicits.
Arguments frame : clear implicits.
Arguments loop_state : clear implicits.

End Fl.

(** *** An instance of the operations

    Arithmetic on [float64] that is exact on the finite values (no rounding
    of a result, no overflow, no signed zero) and follows IEEE 754 on the
    infinite values and NaN.  It is not binary64: it is an instance of the
    interface with which the definitions run. *)

Module Exact.

Definition isnan (a : float64) : bool :=
  match a with
  | NaN => true
  | _ => false
  end.

Definition add (a b : float64) : float64 :=
  match a, b with
  | NaN, _ | _, NaN => NaN
  | Finite p, Finite q => Finite (p + q)
  | PosInf, NegInf | NegInf, PosInf => NaN
  | PosInf, _ | _, PosInf => PosInf
  | NegInf, _ | _, NegInf => NegInf
  end.

(** An infinite value of sign [s] times the finite [q]. *)
Definition inf_times (s : bool) (q : Q) : float64 :=
  match q ?= 0 with
  | Eq => NaN
  | Gt => if s then PosInf else NegInf
  | Lt => if s then NegInf else PosInf
  end.

Definition mul (a b : float64) : float64 :=
  match a, b with
  | NaN, _ | _, NaN => NaN
  | Finite p, Finite q => Finite (p * q)
  | PosInf, Finite q | Finite q, PosInf => inf_times true q
  | NegInf, Finite q | Finite q, NegInf => inf_times false q
  | PosInf, PosInf | NegInf, NegInf => PosInf
  | PosInf, NegInf | NegInf, PosInf => NegInf
  end.

Definition div (a b : float64) : float64 :=
  match a, b with
  | NaN, _ | _, NaN => NaN
  | Finite p, Finite q =>
      if Qeq_bool q 0 then
        match p ?= 0 with
        | Eq => NaN
        | Gt => PosInf
        | Lt => NegInf
        end
      else Finite (p / q)
  | Finite _, _ => Finite 0
  | PosInf, Finite q => if Qltb q 0 then NegInf else PosInf
  | NegInf, Finite q => if Qltb q 0 then PosInf else NegInf
  | _, _ => NaN
  end.

(** Rounding to decimals, half to even on the exact value. *)
Definition round_decimals (a : float64) (ndigits : nat) : float64 :=
  match a with
  | Finite q => Finite (round q ndigits)
  | _ => a
  end.

Definition ops : Fl.ops float64 :=
  {| Fl.lt := F64.ltb; Fl.le := F64.leb; Fl.eqb := F64.eqb;
     Fl.add := add; Fl.sub := F64.sub; Fl.mul := mul; Fl.div := div;
     Fl.lit := Finite;
     Fl.seconds := fun d => Finite (d # 1000000000);
     Fl.round := round_decimals; Fl.round_float := round_decimals;
     Fl.isnan := isnan; Fl.nan := NaN; Fl.inf := PosInf |}.

End Exact.

(** ** More concrete series *)

(** The rows of a frame of finite levels. *)
Definition float_rows (df : DataFrame) : Fl.DataFrame float64 :=
  map (fun r => Fl.mkRow (Timestamp r) (Finite (Level_above_Pump r))) df.

Definition records_of {F : Type} (r : result (list (Fl.cycle F)))
  : list (Fl.cycle F) :=
  match r with
  | Ok cycles => cycles
  | Raise _ => []
  end.

Definition two_cycles_records : list (Fl.cycle float64) :=
  Eval vm_compute in
    records_of (Fl.main Exact.ops (float_rows (hourly two_cycles_levels))).

(** A frame of repeated timestamps: sorted by timestamp, and the timestamps
    do not increase. *)
Definition repeated_timestamps : DataFrame :=
  [mkRow 0 0; mkRow 0 10; mkRow 0 5; mkRow 0 10; mkRow 0 0].

Definition repeated_timestamps_report : list Cycle.t :=
  Eval vm_compute in report_of (main repeated_timestamps).

Definition repeated_timestamps_records : list (Fl.cycle float64) :=
  Eval vm_compute in
    records_of (Fl.main Exact.ops (float_rows repeated_timestamps)).

(** * Properties *)

(** ** The error monad *)

Lemma bind_Ok_inv {A B : Type} (c : result A) (k : A -> result B) (b : B) :
  bind c k = Ok b -> exists a, c = Ok a /\ k a = Ok b.
Proof.
  destruct c as [a | e]; simpl; intros H.
  - exists a; split; [reflexivity | exact H].
  - discriminate H.
Qed.

Lemma getitem_lt {A : Type} (xs : list A) (i : nat) :
  (i < length xs)%nat -> exists a, getitem xs i = Ok a.
Proof.
  intros H. unfold getitem.
  destruct (nth_error xs i) as [a |] eqn:E.
  - now exists a.
  - apply nth_error_None in E. lia.
Qed.

(** ** Comparisons and rounding *)

Lemma Qltb_true (a b : Q) : Qltb a b = true <-> a < b.
Proof.
  unfold Qltb. rewrite Qlt_alt. destruct (a ?= b); split; congruence.
Qed.

Lemma Qltb_false (a b : Q) : Qltb a b = false <-> b <= a.
Proof.
  unfold Qltb. destruct (Qcompare_spec a b) as [H | H | H]; split; intros H';
    try reflexivity; try discriminate.
  - rewrite H. apply Qle_refl.
  - exfalso. apply (Qlt_irrefl a). eapply Qlt_le_trans; eassumption.
  - apply Qlt_le_weak. exact H.
Qed.

Lemma rint_comp (x y : Q) : x == y -> rint x = rint y.
Proof.
  intros H. unfold rint.
  rewrite (Qfloor_comp x y H).
  assert (E : (x - inject_Z (Qfloor y) ?= 1 # 2) = (y - inject_Z (Qfloor y) ?= 1 # 2)).
  { apply Qcompare_comp; [rewrite H|]; reflexivity. }
  rewrite E. reflexivity.
Qed.

Lemma rint_bounds (x : Q) : (Qfloor x <= rint x <= Qfloor x + 1)%Z.
Proof.
  unfold rint.
  destruct (x - inject_Z (Qfloor x) ?= 1 # 2); [destruct (Z.even (Qfloor x))| |]; lia.
Qed.

Lemma rint_mono (x y : Q) : x <= y -> (rint x <= rint y)%Z.
Proof.
  intros H.
  pose proof (Qfloor_resp_le x y H) as Hf.
  destruct (Z.eq_dec (Qfloor x) (Qfloor y)) as [E | NE].
  - unfold rint. rewrite <- E.
    destruct (Qcompare_spec (x - inject_Z (Qfloor x)) (1 # 2)) as [Hx | Hx | Hx];
      destruct (Qcompare_spec (y - inject_Z (Qfloor x)) (1 # 2)) as [Hy | Hy | Hy];
      try destruct (Z.even (Qfloor x)); try lia; exfalso; lra.
  - pose proof (rint_bounds x). pose proof (rint_bounds y). lia.
Qed.

Lemma rint_Z (z : Z) : rint (inject_Z z) = z.
Proof.
  unfold rint. rewrite Qfloor_Z.
  destruct (Qcompare_spec (inject_Z z - inject_Z z) (1 # 2)) as [H | H | H];
    [exfalso; lra | reflexivity | exfalso; lra].
Qed.

Lemma round_comp (x y : Q) (n : nat) : x == y -> round x n = round y n.
Proof.
  intros H. unfold round. f_equal. apply rint_comp. rewrite H. reflexivity.
Qed.

Lemma round_mono (x y : Q) (n : nat) : x <= y -> round x n <= round y n.
Proof.
  intros H. unfold round, Qle. simpl.
  apply Z.mul_le_mono_nonneg_r; [lia|].
  apply rint_mono. apply Qmult_le_compat_r; [exact H|].
  unfold Qle; simpl; lia.
Qed.

Lemma round_Z (z : Z) (n : nat) : round (inject_Z z) n == inject_Z z.
Proof.
  unfold round.
  assert (E : inject_Z z * inject_Z (Z.pos (pow10 n)) == inject_Z (z * Z.pos (pow10 n))).
  { rewrite inject_Z_mult. reflexivity. }
  rewrite (rint_comp _ _ E), rint_Z.
  unfold Qeq; simpl. lia.
Qed.

Lemma truediv_pos (a b : Q) : 0 < b -> truediv a b = Ok (a / b).
Proof.
  intros H. unfold truediv.
  destruct (Qeq_bool b 0) eqn:E; [|reflexivity].
  apply Qeq_bool_iff in E. exfalso. lra.
Qed.

(** The guarded quotient never raises, and a zero divisor gives 0. *)
Lemma rate_or_zero_cases (num hours : Q) :
  (0 < hours /\ rate_or_zero num hours = Ok (num / hours))
  \/ (hours <= 0 /\ rate_or_zero num hours = Ok 0).
Proof.
  unfold rate_or_zero. destruct (Qltb 0 hours) eqn:E.
  - left. apply Qltb_true in E. split; [exact E | apply truediv_pos; exact E].
  - right. apply Qltb_false in E. split; [exact E | reflexivity].
Qed.

(** ** Frames *)

Lemma iloc_first_cons (f : frame) :
  (2 <= len f)%Z -> exists r f', f = r :: f' /\ iloc_first f = Ok (snd r).
Proof.
  destruct f as [| r f']; unfold len; simpl; intros H; [lia|].
  exists r, f'. split; reflexivity.
Qed.

Lemma iloc_last_total (f : frame) :
  f <> [] -> exists r, iloc_last f = Ok r.
Proof.
  intros H. unfold iloc_last.
  destruct (rev f) as [| r f'] eqn:E.
  - exfalso. apply H. rewrite <- (rev_involutive f), E. reflexivity.
  - exists (snd r). reflexivity.
Qed.

Lemma idxmin_from_In (rest : frame) (best : nat * row) :
  In (idxmin_from best rest) (map fst (best :: rest)).
Proof.
  revert best. induction rest as [| r rest IH]; intros best; simpl.
  - left. reflexivity.
  - destruct (Qltb _ _).
    + right. apply (IH r).
    + destruct (IH best) as [H | H]; [left; exact H | right; right; exact H].
Qed.

Lemma loc_In (f : frame) (label : nat) :
  In label (map fst f) -> exists r, loc f label = Ok r.
Proof.
  induction f as [| r f IH]; simpl; intros H; [contradiction|].
  destruct (Nat.eqb (fst r) label) eqn:E.
  - exists (snd r). reflexivity.
  - destruct H as [H | H].
    + apply Nat.eqb_neq in E. contradiction.
    + apply IH, H.
Qed.

(** ** One iteration never raises *)

(** Decompose [cycle_locals df s e = Ok (Some L)] into the run of its
    statements. *)
Ltac bind_inv H x Hx :=
  apply bind_Ok_inv in H; destruct H as (x & Hx & H).

Lemma cycle_locals_total (df : DataFrame) (start_idx end_idx : Z) :
  exists o, cycle_locals df start_idx end_idx = Ok o.
Proof.
  unfold cycle_locals.
  set (cycle_data := iloc_slice df start_idx (end_idx + 1)).
  destruct (len cycle_data <? 2)%Z eqn:Hlen; [eexists; reflexivity|].
  apply Z.ltb_ge in Hlen.
  destruct (iloc_first_cons cycle_data Hlen) as (r0 & f' & Hcd & Hfirst).
  rewrite Hfirst; simpl bind.
  assert (Hmin : idxmin cycle_data = Ok (idxmin_from r0 f')) by (rewrite Hcd; reflexivity).
  rewrite Hmin; simpl bind.
  destruct (loc_In cycle_data (idxmin_from r0 f')) as (row_min & Hloc).
  { rewrite Hcd. apply idxmin_from_In. }
  rewrite Hloc; simpl bind.
  destruct (Qltb _ 2); [eexists; reflexivity|].
  destruct (iloc_last_total cycle_data) as (row_last & Hlast).
  { rewrite Hcd. discriminate. }
  rewrite Hlast; simpl bind.
  match goal with |- context [rate_or_zero ?a ?b] =>
    destruct (rate_or_zero_cases a b) as [[_ E] | [_ E]]; rewrite E; clear E; simpl bind
  end;
  match goal with |- context [rate_or_zero ?a ?b] =>
    destruct (rate_or_zero_cases a b) as [[_ E] | [_ E]]; rewrite E; clear E; simpl bind
  end;
  (destruct (level_at_least _ cycle_data) as [| r90 rs]; simpl bind);
  match goal with |- context [rate_or_zero ?a ?b] =>
    destruct (rate_or_zero_cases a b) as [[_ E] | [_ E]]; rewrite E; clear E; simpl bind
  end; eexists; reflexivity.
Qed.

Lemma cycle_locals_Some (df : DataFrame) (start_idx end_idx : Z) (L : locals) :
  cycle_locals df start_idx end_idx = Ok (Some L) ->
  iteration_run (iloc_slice df start_idx (end_idx + 1)) L.
Proof.
  unfold cycle_locals.
  set (cycle_data := iloc_slice df start_idx (end_idx + 1)).
  intros H.
  destruct (len cycle_data <? 2)%Z eqn:Hlen; [discriminate H|].
  apply Z.ltb_ge in Hlen.
  destruct (iloc_first_cons cycle_data Hlen) as (r0 & f' & Hcd & Hfirst).
  bind_inv H row0 Hrow0.
  rewrite Hfirst in Hrow0. injection Hrow0 as <-.
  bind_inv H idx Hidx.
  bind_inv H row_min Hloc.
  destruct (Qltb _ 2) eqn:Hacc; [discriminate H|].
  apply Qltb_false in Hacc.
  bind_inv H row_last Hlast.
  bind_inv H dr Hdr.
  bind_inv H rr Hrr.
  bind_inv H t90 Ht90.
  bind_inv H hf Hhf.
  injection H as <-.
  constructor; simpl; try reflexivity; try assumption.
  - exists r0, f'. repeat split. exact Hcd.
  - exists row_min. repeat split; assumption.
  - exists row_last. split; [assumption | reflexivity].
  - destruct (level_at_least _ cycle_data) as [| r90 rs].
    + injection Ht90 as <-. reflexivity.
    + simpl in Ht90. injection Ht90 as <-. reflexivity.
Qed.

(** ** The loop as a fold over the accepted cycles *)

Lemma loop_body_step (df : DataFrame) (peaks : list Z) (st : loop_state) (i : nat) :
  (i + 1 < length peaks)%nat ->
  loop_body df peaks st i =
  Ok match locals_at df peaks i with
     | Some L =>
         (fst st ++ [cycle_record (length (fst st)) L (snd st + max_drawdown_value L)],
          snd st + max_drawdown_value L)
     | None => st
     end.
Proof.
  intros Hi. unfold loop_body, locals_at.
  destruct (getitem_lt peaks i) as (s & Hs); [lia|].
  destruct (getitem_lt peaks (i + 1)) as (e & He); [lia|].
  rewrite Hs, He; simpl bind.
  destruct (cycle_locals_total df s e) as (o & Ho).
  rewrite Ho; simpl bind.
  destruct o as [L |]; [|reflexivity].
  destruct st as [cycles total]. reflexivity.
Qed.

Lemma for_each_loop_body (df : DataFrame) (peaks : list Z) (idxs : list nat) :
  (forall i, In i idxs -> (i + 1 < length peaks)%nat) ->
  forall cycles total,
    for_each (loop_body df peaks) idxs (cycles, total) =
    Ok (cycles ++ records_from (length cycles) total (accepted_among df peaks idxs),
        fold_left Qplus (map max_drawdown_value (accepted_among df peaks idxs)) total).
Proof.
  induction idxs as [| i idxs IH]; intros Hin cycles total.
  - simpl. rewrite app_nil_r. reflexivity.
  - simpl for_each. rewrite loop_body_step by (apply Hin; left; reflexivity).
    simpl bind. simpl accepted_among.
    assert (Hin' : forall j, In j idxs -> (j + 1 < length peaks)%nat)
      by (intros j Hj; apply Hin; right; exact Hj).
    destruct (locals_at df peaks i) as [L |].
    + simpl fst; simpl snd. rewrite (IH Hin').
      rewrite length_app, Nat.add_1_r. simpl.
      rewrite <- app_assoc. reflexivity.
    + apply (IH Hin').
Qed.

Lemma range_peaks_in (peaks : list Z) (i : nat) :
  In i (range (len peaks - 1)) -> (i + 1 < length peaks)%nat.
Proof.
  unfold range, len. rewrite in_seq. lia.
Qed.

(** The list built by the loop with its threaded total is the list of the
    records of the accepted cycles. *)
Lemma cycle_processing_records (df : DataFrame) (peaks : list Z) :
  cycle_processing df peaks = Ok (records_from 0 0 (accepted df peaks)).
Proof.
  unfold cycle_processing, accepted.
  rewrite (for_each_loop_body df peaks _ (range_peaks_in peaks)).
  reflexivity.
Qed.

Lemma records_from_length (Ls : list locals) (n : nat) (total : Q) :
  length (records_from n total Ls) = length Ls.
Proof.
  revert n total. induction Ls as [| L Ls IH]; intros n total; simpl;
    [reflexivity | rewrite IH; reflexivity].
Qed.

Lemma records_from_nth (Ls : list locals) :
  forall n total k r,
    nth_error (records_from n total Ls) k = Some r ->
    exists L running,
      nth_error Ls k = Some L
      /\ running == total + drawdown_sum Ls (S k)
      /\ r = cycle_record (n + k) L running.
Proof.
  unfold drawdown_sum.
  induction Ls as [| L Ls IH]; intros n total k r H.
  - destruct k; discriminate H.
  - destruct k as [| k]; simpl in H.
    + injection H as <-. exists L, (total + max_drawdown_value L).
      split; [reflexivity|]. split; [simpl; ring|].
      rewrite Nat.add_0_r. reflexivity.
    + destruct (IH _ _ _ _ H) as (L' & running & HL & Hrun & Hr).
      exists L', running. split; [exact HL|]. split.
      * rewrite Hrun. change (firstn (S (S k)) (L :: Ls)) with (L :: firstn (S k) Ls).
        simpl. ring.
      * rewrite Hr. f_equal. lia.
Qed.

Lemma accepted_among_In (df : DataFrame) (peaks : list Z) (idxs : list nat) (L : locals) :
  In L (accepted_among df peaks idxs) ->
  exists i start_idx end_idx,
    In i idxs
    /\ getitem peaks i = Ok start_idx
    /\ getitem peaks (i + 1) = Ok end_idx
    /\ cycle_locals df start_idx end_idx = Ok (Some L).
Proof.
  induction idxs as [| i idxs IH]; simpl; intros H; [contradiction|].
  destruct (locals_at df peaks i) as [L' |] eqn:E.
  - destruct H as [<- | H].
    + unfold locals_at in E.
      destruct (getitem peaks i) as [s |] eqn:Es; [|discriminate E].
      destruct (getitem peaks (i + 1)) as [e |] eqn:Ee; [|discriminate E].
      destruct (cycle_locals df s e) as [[L'' |] |] eqn:EL; try discriminate E.
      injection E as ->.
      exists i, s, e. repeat split; try assumption. left; reflexivity.
    + destruct (IH H) as (j & s & e & Hj & Hrest).
      exists j, s, e. split; [right; exact Hj | exact Hrest].
  - destruct (IH H) as (j & s & e & Hj & Hrest).
    exists j, s, e. split; [right; exact Hj | exact Hrest].
Qed.

Lemma accepted_run (df : DataFrame) (peaks : list Z) (L : locals) :
  In L (accepted df peaks) ->
  exists start_idx end_idx,
    cycle_locals df start_idx end_idx = Ok (Some L)
    /\ iteration_run (iloc_slice df start_idx (end_idx + 1)) L.
Proof.
  intros H. destruct (accepted_among_In _ _ _ _ H) as (i & s & e & _ & _ & _ & HL).
  exists s, e. split; [exact HL | apply cycle_locals_Some; exact HL].
Qed.

Lemma accepted_drawdown_floor (df : DataFrame) (peaks : list Z) (L : locals) :
  In L (accepted df peaks) -> 2 <= max_drawdown_value L.
Proof.
  intros H. destruct (accepted_run _ _ _ H) as (s & e & _ & Hrun).
  apply (run_accepted _ _ Hrun).
Qed.

Lemma drawdown_sum_mono (Ls : list locals) :
  (forall L, In L Ls -> 0 <= max_drawdown_value L) ->
  forall j k, (j <= k)%nat -> drawdown_sum Ls j <= drawdown_sum Ls k.
Proof.
  unfold drawdown_sum.
  induction Ls as [| L Ls IH]; intros Hpos j k Hjk.
  - rewrite !firstn_nil. apply Qle_refl.
  - assert (HL : 0 <= max_drawdown_value L) by (apply Hpos; left; reflexivity).
    assert (Hpos' : forall L', In L' Ls -> 0 <= max_drawdown_value L')
      by (intros L' HL'; apply Hpos; right; exact HL').
    destruct j as [| j]; destruct k as [| k]; simpl; try lia.
    + apply Qle_refl.
    + assert (H0 := IH Hpos' 0%nat k (Nat.le_0_l k)). simpl in H0. lra.
    + assert (H1 := IH Hpos' j k ltac:(lia)). lra.
Qed.

(** ** Peak detection never raises *)

Section FindPeaksFacts.

Context {A : Type}.
Variables ltb leb eqb : A -> A -> bool.
Variable sub : A -> A -> A.
Variable x : list A.

Lemma look_ahead_ge (xi : A) (gap i_ahead j : nat) :
  look_ahead eqb x xi gap i_ahead = Ok j -> (i_ahead <= j)%nat.
Proof.
  revert i_ahead. induction gap as [| gap IH]; intros i_ahead; simpl.
  - intros [= <-]. lia.
  - destruct (getitem x i_ahead) as [xa | e]; simpl; [|discriminate].
    destruct (eqb xa xi).
    + intros H. apply IH in H. lia.
    + intros [= <-]. lia.
Qed.

Lemma look_ahead_total (xi : A) (gap i_ahead : nat) :
  (i_ahead + gap <= length x)%nat ->
  exists j, look_ahead eqb x xi gap i_ahead = Ok j
            /\ (i_ahead <= j <= i_ahead + gap)%nat.
Proof.
  revert i_ahead. induction gap as [| gap IH]; intros i_ahead Hb; simpl.
  - exists i_ahead. split; [reflexivity | lia].
  - destruct (getitem_lt x i_ahead) as (xa & Hxa); [lia|].
    rewrite Hxa; simpl.
    destruct (eqb xa xi).
    + destruct (IH (S i_ahead)) as (j & Hj & Hr); [lia|].
      exists j. split; [exact Hj | lia].
    + exists i_ahead. split; [reflexivity | lia].
Qed.

(** The loop ends without an error, on midpoints that are interior
    indices of [x]. *)
Lemma local_maxima_loop_total (fuel i : nat) :
  (1 <= i)%nat ->
  exists peaks,
    local_maxima_loop ltb eqb x (length x - 1) fuel i = Ok peaks
    /\ Forall (fun peak => (i <= peak < length x - 1)%nat) peaks.
Proof.
  revert i. induction fuel as [| fuel IH]; intros i Hi; simpl.
  - exists []. split; [reflexivity | constructor].
  - destruct (i <? length x - 1)%nat eqn:Hlt.
    2:{ exists []. split; [reflexivity | constructor]. }
    apply Nat.ltb_lt in Hlt.
    destruct (getitem_lt x (i - 1)) as (xp & Hxp); [lia|].
    destruct (getitem_lt x i) as (xi & Hxi); [lia|].
    rewrite Hxp, Hxi; simpl.
    assert (Hnext : exists peaks,
               local_maxima_loop ltb eqb x (length x - 1) fuel (i + 1) = Ok peaks
               /\ Forall (fun peak => (i <= peak < length x - 1)%nat) peaks).
    { destruct (IH (i + 1)%nat) as (peaks & Hp & Hall); [lia|].
      exists peaks. split; [exact Hp|].
      eapply Forall_impl; [|exact Hall]. simpl. intros; lia. }
    destruct (ltb xp xi); [|exact Hnext].
    destruct (look_ahead_total xi (length x - 1 - (i + 1)) (i + 1))
      as (j & Hj & Hjr); [lia|].
    rewrite Hj; simpl.
    destruct (getitem_lt x j) as (xa & Hxa); [lia|].
    rewrite Hxa; simpl.
    destruct (ltb xa xi); [|exact Hnext].
    destruct (IH (j + 1)%nat) as (peaks & Hp & Hall); [lia|].
    rewrite Hp; simpl.
    exists (((i + (j - 1)) / 2)%nat :: peaks). split; [reflexivity|].
    constructor.
    + split.
      * apply Nat.div_le_lower_bound; lia.
      * apply Nat.Div0.div_lt_upper_bound. lia.
    + eapply Forall_impl; [|exact Hall]. simpl. intros; lia.
Qed.

(** Every iteration advances [i]: any two amounts of fuel that cover the
    distance to [i_max] give the same result, so the fuel never ends the
    loop early. *)
Lemma local_maxima_fuel (i_max : nat) :
  forall fuel1 fuel2 i,
    (i_max - i <= fuel1)%nat -> (i_max - i <= fuel2)%nat ->
    local_maxima_loop ltb eqb x i_max fuel1 i
    = local_maxima_loop ltb eqb x i_max fuel2 i.
Proof.
  induction fuel1 as [| fuel1 IH]; intros fuel2 i H1 H2.
  - destruct fuel2 as [| fuel2]; simpl; [reflexivity|].
    destruct (i <? i_max)%nat eqn:Hlt; [|reflexivity].
    apply Nat.ltb_lt in Hlt. lia.
  - destruct fuel2 as [| fuel2]; simpl.
    + destruct (i <? i_max)%nat eqn:Hlt; [|reflexivity].
      apply Nat.ltb_lt in Hlt. lia.
    + destruct (i <? i_max)%nat eqn:Hlt; [|reflexivity].
      apply Nat.ltb_lt in Hlt.
      destruct (getitem x (i - 1)) as [xp |]; simpl; [|reflexivity].
      destruct (getitem x i) as [xi |]; simpl; [|reflexivity].
      assert (Hnext : local_maxima_loop ltb eqb x i_max fuel1 (i + 1)
                      = local_maxima_loop ltb eqb x i_max fuel2 (i + 1))
        by (apply IH; lia).
      destruct (ltb xp xi); [|exact Hnext].
      destruct (look_ahead eqb x xi (i_max - (i + 1)) (i + 1)) as [j |] eqn:Hj;
        simpl; [|reflexivity].
      apply look_ahead_ge in Hj.
      destruct (getitem x j) as [xa |]; simpl; [|reflexivity].
      destruct (ltb xa xi); [|exact Hnext].
      rewrite (IH fuel2 (j + 1)%nat) by lia. reflexivity.
Qed.

Lemma scan_left_total (xpeak : A) (n : nat) (left_min : A) :
  (n <= length x)%nat -> exists m, scan_left ltb leb x xpeak n left_min = Ok m.
Proof.
  revert left_min. induction n as [| i IH]; intros left_min Hn; simpl.
  - exists left_min. reflexivity.
  - destruct (getitem_lt x i) as (xi & Hxi); [lia|].
    rewrite Hxi; simpl.
    destruct (leb xi xpeak); [apply IH; lia | exists left_min; reflexivity].
Qed.

Lemma scan_right_total (xpeak : A) (gap i : nat) (right_min : A) :
  (i + gap <= length x)%nat ->
  exists m, scan_right ltb leb x xpeak gap i right_min = Ok m.
Proof.
  revert i right_min. induction gap as [| gap IH]; intros i right_min Hb; simpl.
  - exists right_min. reflexivity.
  - destruct (getitem_lt x i) as (xi & Hxi); [lia|].
    rewrite Hxi; simpl.
    destruct (leb xi xpeak); [apply IH; lia | exists right_min; reflexivity].
Qed.

Lemma prominence_total (peak : nat) :
  (peak < length x)%nat -> exists p, prominence ltb leb sub x peak = Ok p.
Proof.
  intros Hp. unfold prominence.
  apply Nat.ltb_lt in Hp as Hb. rewrite Hb.
  destruct (getitem_lt x peak Hp) as (xpeak & Hx). rewrite Hx; simpl.
  destruct (scan_left_total xpeak (peak + 1) xpeak) as (l & Hl); [lia|].
  destruct (scan_right_total xpeak (length x - peak) peak xpeak) as (r & Hr); [lia|].
  rewrite Hl, Hr; simpl. eexists; reflexivity.
Qed.

Lemma select_by_prominence_total (pmin : A) (peaks : list nat) :
  Forall (fun peak => (peak < length x)%nat) peaks ->
  exists kept, select_by_prominence ltb leb sub x pmin peaks = Ok kept.
Proof.
  induction 1 as [| peak peaks Hp _ IH]; simpl.
  - exists []. reflexivity.
  - destruct (prominence_total peak Hp) as (p & Hprom).
    destruct IH as (kept & Hkept).
    rewrite Hprom, Hkept; simpl. eexists; reflexivity.
Qed.

Lemma find_peaks_prominence_total (pmin : A) :
  exists peaks, find_peaks_prominence ltb leb eqb sub x pmin = Ok peaks.
Proof.
  unfold find_peaks_prominence, local_maxima_1d.
  destruct (local_maxima_loop_total (length x - 1) 1 (le_n 1)) as (peaks & Hp & Hall).
  rewrite Hp; simpl.
  apply select_by_prominence_total.
  eapply Forall_impl; [|exact Hall]. simpl. intros; lia.
Qed.

(** Fewer than three samples have no interior sample, hence no peak. *)
Lemma find_peaks_prominence_short (pmin : A) :
  (length x < 3)%nat -> find_peaks_prominence ltb leb eqb sub x pmin = Ok [].
Proof.
  intros Hlen. unfold find_peaks_prominence, local_maxima_1d.
  destruct (length x - 1)%nat as [| n] eqn:E; [reflexivity|].
  simpl. destruct (1 <? S n)%nat eqn:Hlt; [|reflexivity].
  apply Nat.ltb_lt in Hlt. lia.
Qed.

End FindPeaksFacts.

(** ** Finite float64 samples behave as the rationals *)

Section Transfer.

Context {A B : Type} (f : A -> B).
Variables (ltbA lebA eqbA : A -> A -> bool) (subA : A -> A -> A).
Variables (ltbB lebB eqbB : B -> B -> bool) (subB : B -> B -> B).
Hypothesis f_ltb : forall a b, ltbB (f a) (f b) = ltbA a b.
Hypothesis f_leb : forall a b, lebB (f a) (f b) = lebA a b.
Hypothesis f_eqb : forall a b, eqbB (f a) (f b) = eqbA a b.
Hypothesis f_sub : forall a b, subB (f a) (f b) = f (subA a b).
Variable x : list A.

Lemma getitem_map (i : nat) : getitem (map f x) i = map_result f (getitem x i).
Proof.
  unfold getitem. rewrite nth_error_map.
  destruct (nth_error x i); reflexivity.
Qed.

Lemma look_ahead_map (xi : A) (gap i_ahead : nat) :
  look_ahead eqbB (map f x) (f xi) gap i_ahead = look_ahead eqbA x xi gap i_ahead.
Proof.
  revert i_ahead. induction gap as [| gap IH]; intros i_ahead; simpl; [reflexivity|].
  rewrite getitem_map. destruct (getitem x i_ahead) as [xa |]; simpl; [|reflexivity].
  rewrite f_eqb, IH. reflexivity.
Qed.

Lemma local_maxima_loop_map (i_max fuel i : nat) :
  local_maxima_loop ltbB eqbB (map f x) i_max fuel i
  = local_maxima_loop ltbA eqbA x i_max fuel i.
Proof.
  revert i. induction fuel as [| fuel IH]; intros i; simpl; [reflexivity|].
  destruct (i <? i_max)%nat; [|reflexivity].
  rewrite !getitem_map.
  destruct (getitem x (i - 1)) as [xp |]; simpl; [|reflexivity].
  destruct (getitem x i) as [xi |]; simpl; [|reflexivity].
  rewrite f_ltb, look_ahead_map, !IH.
  destruct (ltbA xp xi); [|reflexivity].
  destruct (look_ahead eqbA x xi (i_max - (i + 1)) (i + 1)) as [j |]; simpl;
    [|reflexivity].
  rewrite getitem_map, IH.
  destruct (getitem x j) as [xa |]; simpl; [|reflexivity].
  rewrite f_ltb. reflexivity.
Qed.

Lemma scan_left_map (xpeak : A) (n : nat) (left_min : A) :
  scan_left ltbB lebB (map f x) (f xpeak) n (f left_min)
  = map_result f (scan_left ltbA lebA x xpeak n left_min).
Proof.
  revert left_min. induction n as [| i IH]; intros left_min; simpl; [reflexivity|].
  rewrite getitem_map. destruct (getitem x i) as [xi |]; simpl; [|reflexivity].
  rewrite f_leb, f_ltb. destruct (lebA xi xpeak); [|reflexivity].
  destruct (ltbA xi left_min); apply IH.
Qed.

Lemma scan_right_map (xpeak : A) (gap i : nat) (right_min : A) :
  scan_right ltbB lebB (map f x) (f xpeak) gap i (f right_min)
  = map_result f (scan_right ltbA lebA x xpeak gap i right_min).
Proof.
  revert i right_min. induction gap as [| gap IH]; intros i right_min; simpl;
    [reflexivity|].
  rewrite getitem_map. destruct (getitem x i) as [xi |]; simpl; [|reflexivity].
  rewrite f_leb, f_ltb. destruct (lebA xi xpeak); [|reflexivity].
  destruct (ltbA xi right_min); apply IH.
Qed.

Lemma prominence_map (peak : nat) :
  prominence ltbB lebB subB (map f x) peak
  = map_result f (prominence ltbA lebA subA x peak).
Proof.
  unfold prominence. rewrite length_map.
  destruct (peak <? length x)%nat; [|reflexivity].
  rewrite getitem_map. destruct (getitem x peak) as [xpeak |]; simpl; [|reflexivity].
  rewrite scan_left_map.
  destruct (scan_left ltbA lebA x xpeak (peak + 1) xpeak) as [l |]; simpl;
    [|reflexivity].
  rewrite scan_right_map.
  destruct (scan_right ltbA lebA x xpeak (length x - peak) peak xpeak) as [r |];
    simpl; [|reflexivity].
  rewrite f_ltb. destruct (ltbA l r); rewrite f_sub; reflexivity.
Qed.

Lemma select_by_prominence_map (pmin : A) (peaks : list nat) :
  select_by_prominence ltbB lebB subB (map f x) (f pmin) peaks
  = select_by_prominence ltbA lebA subA x pmin peaks.
Proof.
  induction peaks as [| peak peaks IH]; simpl; [reflexivity|].
  rewrite prominence_map, IH.
  destruct (prominence ltbA lebA subA x peak) as [p |]; simpl; [|reflexivity].
  rewrite f_leb. reflexivity.
Qed.

Lemma find_peaks_prominence_map (pmin : A) :
  find_peaks_prominence ltbB lebB eqbB subB (map f x) (f pmin)
  = find_peaks_prominence ltbA lebA eqbA subA x pmin.
Proof.
  unfold find_peaks_prominence, local_maxima_1d.
  rewrite length_map, local_maxima_loop_map.
  destruct (local_maxima_loop ltbA eqbA x (length x - 1) (length x - 1) 1);
    simpl; [apply select_by_prominence_map | reflexivity].
Qed.

End Transfer.

Lemma Qle_bool_ltb_eqb (a b : Q) : Qltb a b || Qeq_bool a b = Qle_bool a b.
Proof.
  destruct (Qle_bool a b) eqn:Hle.
  - apply Qle_bool_iff in Hle. apply orb_true_iff.
    destruct (Qltb a b) eqn:Hlt; [left; reflexivity | right].
    apply Qltb_false in Hlt. apply Qeq_bool_iff. lra.
  - apply orb_false_iff. split.
    + destruct (Qltb a b) eqn:Hlt; [|reflexivity].
      apply Qltb_true in Hlt.
      assert (H : a <= b) by lra. apply Qle_bool_iff in H. congruence.
    + destruct (Qeq_bool a b) eqn:Heq; [|reflexivity].
      apply Qeq_bool_iff in Heq.
      assert (H : a <= b) by lra. apply Qle_bool_iff in H. congruence.
Qed.

(** On finite samples the float64 peak detection is the one on the
    rationals. *)
Lemma find_peaks_finite (levels : list Q) :
  F64.find_peaks (map Finite levels) = find_peaks levels.
Proof.
  unfold F64.find_peaks, find_peaks.
  apply (find_peaks_prominence_map Finite); intros a b;
    [reflexivity | apply Qle_bool_ltb_eqb | reflexivity | reflexivity].
Qed.

(** ** The report *)

Lemma report_nth (df : DataFrame) (peaks : list Z) (cycles : list Cycle.t)
  (k : nat) (r : Cycle.t) :
  cycle_processing df peaks = Ok cycles ->
  nth_error cycles k = Some r ->
  exists L running,
    nth_error (accepted df peaks) k = Some L
    /\ running == drawdown_sum (accepted df peaks) (S k)
    /\ r = cycle_record k L running.
Proof.
  rewrite cycle_processing_records. intros [= <-] Hr.
  destruct (records_from_nth _ _ _ _ _ Hr) as (L & running & HL & Hrun & Hrec).
  exists L, running. split; [exact HL|]. split; [|exact Hrec].
  rewrite Hrun. ring.
Qed.

Lemma report_length (df : DataFrame) (peaks : list Z) (cycles : list Cycle.t) :
  cycle_processing df peaks = Ok cycles ->
  length cycles = length (accepted df peaks).
Proof.
  rewrite cycle_processing_records. intros [= <-]. apply records_from_length.
Qed.

Lemma rejected_iteration_keeps_state (df : DataFrame) (peaks : list Z)
  (st : loop_state) (i : nat) (start_idx end_idx : Z) :
  getitem peaks i = Ok start_idx ->
  getitem peaks (i + 1) = Ok end_idx ->
  cycle_locals df start_idx end_idx = Ok None ->
  loop_body df peaks st i = Ok st.
Proof.
  intros Hs He Hc. unfold loop_body. rewrite Hs, He; simpl. rewrite Hc. reflexivity.
Qed.

(** C8. For every series and every peak list with fewer than two indices,
    the cycle loop returns the empty report, and does not raise. *)
Theorem fewer_than_two_peaks_empty_report (df : DataFrame) (peaks : list Z) :
  (length peaks < 2)%nat -> cycle_processing df peaks = Ok [].
Proof.
  intros H. rewrite cycle_processing_records.
  unfold accepted, range, len.
  replace (Z.to_nat (Z.of_nat (length peaks) - 1)) with 0%nat by lia.
  reflexivity.
Qed.

Lemma fewer_than_two_peaks_empty_report_witness :
  (length [3%Z] < 2)%nat
  /\ cycle_processing (hourly example_levels) [3%Z] = Ok [].
Proof.
  split.
  - simpl. lia.
  - apply (fewer_than_two_peaks_empty_report (hourly example_levels) [3%Z]).
    simpl. lia.
Defined.

(** C3. Every record of the report comes from a cycle whose drawdown is at
    least 2 and reports a drawdown of at least 2, and the record at
    position [k] (from 0) of the report carries the cycle number [k + 1]:
    the report holds exactly the accepted cycles, numbered in sequence. *)
Theorem accepted_cycles_reach_floor_and_are_numbered
  (df : DataFrame) (peaks : list Z) (cycles : list Cycle.t) :
  cycle_processing df peaks = Ok cycles ->
  length cycles = length (accepted df peaks)
  /\ forall k r,
      nth_error cycles k = Some r ->
      Cycle.cycle_number r = (k + 1)%nat
      /\ 2 <= Cycle.Max_Drawdown_m r
      /\ exists L,
          nth_error (accepted df peaks) k = Some L
          /\ 2 <= max_drawdown_value L
          /\ Cycle.Max_Drawdown_m r = round (max_drawdown_value L) 1.
Proof.
  intros H. split; [apply (report_length _ _ _ H)|].
  intros k r Hr.
  destruct (report_nth _ _ _ _ _ H Hr) as (L & running & HL & _ & ->).
  assert (Hfloor : 2 <= max_drawdown_value L)
    by (apply (accepted_drawdown_floor df peaks), (nth_error_In _ _ HL)).
  split; [reflexivity|]. split.
  - simpl. rewrite <- (round_Z 2 1). apply round_mono. exact Hfloor.
  - exists L. repeat split; assumption.
Qed.

Lemma accepted_cycles_reach_floor_and_are_numbered_witness :
  cycle_processing (hourly two_cycles_levels) [1; 3; 5]%Z = Ok two_cycles_report
  /\ length two_cycles_report
     = length (accepted (hourly two_cycles_levels) [1; 3; 5]%Z)
  /\ forall k r,
      nth_error two_cycles_report k = Some r ->
      Cycle.cycle_number r = (k + 1)%nat
      /\ 2 <= Cycle.Max_Drawdown_m r
      /\ exists L,
          nth_error (accepted (hourly two_cycles_levels) [1; 3; 5]%Z) k = Some L
          /\ 2 <= max_drawdown_value L
          /\ Cycle.Max_Drawdown_m r = round (max_drawdown_value L) 1.
Proof.
  split.
  - vm_compute. reflexivity.
  - apply (accepted_cycles_reach_floor_and_are_numbered
             (hourly two_cycles_levels) [1; 3; 5]%Z two_cycles_report).
    vm_compute. reflexivity.
Defined.

(** C2, counterexample. On two accepted cycles of drawdown 2.04 each, the
    second record reports the cumulative drawdown 4.1: neither the exact sum
    4.08 of the drawdowns nor the sum 4.0 of the reported drawdowns. *)
Lemma cumulative_drawdown_not_exact_sum :
  exists r,
    main (hourly two_cycles_levels) = Ok two_cycles_report
    /\ nth_error two_cycles_report 1 = Some r
    /\ Cycle.Cumulative_Drawdown_m r == 41 # 10
    /\ drawdown_sum (accepted (hourly two_cycles_levels) [1; 3; 5]%Z) 2 == 408 # 100
    /\ reported_drawdown_sum two_cycles_report 2 == 4
    /\ ~ Cycle.Cumulative_Drawdown_m r
         == drawdown_sum (accepted (hourly two_cycles_levels) [1; 3; 5]%Z) 2
    /\ ~ Cycle.Cumulative_Drawdown_m r == reported_drawdown_sum two_cycles_report 2.
Proof.
  eexists. split; [vm_compute; reflexivity|].
  split; [reflexivity|].
  repeat split; try (vm_compute; reflexivity); vm_compute; discriminate.
Qed.

(** ** Rates and the 90%-recovery time of one cycle *)




Lemma total_seconds_opp (a b : Z) : -1 * total_seconds a b == total_seconds b a.
Proof.
  unfold total_seconds, Qeq, Qmult, Qopp.
  cbn [Qnum Qden]. rewrite Pos.mul_1_l. ring.
Qed.

(** C10. In every accepted cycle whose SWL is positive the first sample of
    the slice is the first one of the 90%-recovery subset, so the
    90%-recovery time is present; it is the time from that sample to the
    trough, equal to the time to the maximum drawdown, and the record
    reports the same number under both keys. *)
Theorem recovery_90_time_is_time_to_max_drawdown
  (df : DataFrame) (start_idx end_idx : Z) (L : locals) :
  cycle_locals df start_idx end_idx = Ok (Some L) ->
  0 < swl L ->
  (exists row0 rest rest',
      iloc_slice df start_idx (end_idx + 1) = row0 :: rest
      /\ level_at_least (recovery_level L) (iloc_slice df start_idx (end_idx + 1))
         = row0 :: rest')
  /\ (exists t, time_to_90_recovery L = Some t /\ t == time_to_max_drawdown L)
  /\ forall n total,
      Cycle.Recovery_90_Time_hr (cycle_record n L total)
      = Some (Cycle.Time_to_Max_Drawdown_hr (cycle_record n L total)).
Proof.
  intros HL Hswl. apply cycle_locals_Some in HL.
  destruct (run_first _ _ HL) as (row0 & rest & Hcd & Hs & Hstart).
  assert (Hsub : level_at_least (recovery_level L)
                   (iloc_slice df start_idx (end_idx + 1))
                 = row0 :: level_at_least (recovery_level L) rest).
  { rewrite Hcd. unfold level_at_least. simpl.
    assert (E : Qle_bool (recovery_level L) (Level_above_Pump (snd row0)) = true).
    { apply Qle_bool_iff. rewrite (run_recovery_level _ _ HL), <- Hs. lra. }
    rewrite E. reflexivity. }
  assert (Ht : exists t, time_to_90_recovery L = Some t /\ t == time_to_max_drawdown L).
  { rewrite (run_time_to_90_recovery _ _ HL), Hsub.
    eexists. split; [reflexivity|].
    rewrite (run_time_to_max_drawdown _ _ HL), <- Hstart.
    unfold Qdiv. rewrite total_seconds_opp. reflexivity. }
  split; [exists row0, rest; eexists; split; [exact Hcd | exact Hsub]|].
  split; [exact Ht|].
  intros n total. simpl.
  destruct Ht as (t & -> & Heq). f_equal. apply round_comp. exact Heq.
Qed.

Lemma recovery_90_time_is_time_to_max_drawdown_witness :
  exists L,
    cycle_locals (hourly example_levels) 1 5 = Ok (Some L)
    /\ 0 < swl L
    /\ Cycle.Recovery_90_Time_hr (cycle_record 0 L 8)
       = Some (Cycle.Time_to_Max_Drawdown_hr (cycle_record 0 L 8)).
Proof.
  eexists. split; [reflexivity|]. split; [vm_compute; reflexivity|].
  eapply (recovery_90_time_is_time_to_max_drawdown (hourly example_levels) 1 5).
  - reflexivity.
  - vm_compute. reflexivity.
Defined.

(** C1, the code at a failing input. In the cycle between the peaks 1 and 5
    of the example series (SWL 11, threshold 9.9, trough at index 3) no
    sample from the trough on reaches the threshold, so the scan of the
    specification finds nothing; the program reports 2 hours, the time from
    the cycle's first sample to the trough. *)
Theorem recovery_90_time_scans_whole_cycle :
  exists L t,
    cycle_locals (hourly example_levels) 1 5 = Ok (Some L)
    /\ min_level_idx L = 3%nat
    /\ recovery_level L == 99 # 10
    /\ spec_time_to_90_recovery (iloc_slice (hourly example_levels) 1 (5 + 1)) L = None
    /\ time_to_90_recovery L = Some t
    /\ t == 2
    /\ Cycle.Recovery_90_Time_hr (cycle_record 0 L 8) = Some (round t 2)
    /\ round t 2 == 2.
Proof.
  eexists. eexists. split; [reflexivity|].
  split; [vm_compute; reflexivity|].
  split; [vm_compute; reflexivity|].
  split; [vm_compute; reflexivity|].
  split; [reflexivity|].
  split; [vm_compute; reflexivity|].
  split; [reflexivity|].
  vm_compute. reflexivity.
Qed.

(** ** Peak detection *)




(** ** The end-to-end example *)

(** C9, as amended. On the levels [10, 11, 4, 3, 9, 9.5, 2, 8] at hourly
    timestamps the peaks are the indices 1 (level 11) and 5 (level 9.5), and
    the pipeline returns exactly one record: cycle number 1, SWL 11, least
    level 3 (at index 3), drawdown 8, cumulative drawdown 8. *)
Theorem example_series_one_cycle :
  find_peaks example_levels = Ok [1; 5]%nat
  /\ nth_error example_levels 1 = Some 11
  /\ nth_error example_levels 5 = Some (19 # 2)
  /\ exists r L,
      main (hourly example_levels) = Ok [r]
      /\ accepted (hourly example_levels) [1; 5]%Z = [L]
      /\ Cycle.cycle_number r = 1%nat
      /\ Cycle.SWL_m r == 11
      /\ swl L == 11
      /\ min_level_idx L = 3%nat
      /\ min_level L == 3
      /\ max_drawdown_value L == 8
      /\ Cycle.Max_Drawdown_m r == 8
      /\ Cycle.Cumulative_Drawdown_m r == 8.
Proof.
  split; [vm_compute; reflexivity|].
  split; [reflexivity|]. split; [reflexivity|].
  eexists. eexists.
  split; [vm_compute; reflexivity|].
  split; [vm_compute; reflexivity|].
  repeat split; vm_compute; reflexivity.
Qed.

(** C9, counterexample. The peaks of the example series are not the
    indices 1 and 6: the level 9.5 stands at index 5, and index 6 holds the
    level 2, below both its neighbours. *)
Lemma example_series_peak_not_at_6 :
  find_peaks example_levels <> Ok [1; 6]%nat
  /\ nth_error example_levels 6 = Some 2
  /\ nth_error example_levels 5 = Some (19 # 2)
  /\ nth_error example_levels 7 = Some 8.
Proof.
  split; [vm_compute; discriminate|].
  repeat split; reflexivity.
Qed.

(** * Further properties of the code *)

(** ** Slices of the frame *)

Lemma slice_bound_le (n : nat) (k : Z) : (slice_bound n k <= n)%nat.
Proof.
  unfold slice_bound. destruct (k <? 0)%Z eqn:E.
  - apply Z.ltb_lt in E. lia.
  - apply Z.ltb_ge in E. lia.
Qed.

Lemma skipn_combine {A B : Type} (n : nat) (l : list A) (l' : list B) :
  skipn n (combine l l') = combine (skipn n l) (skipn n l').
Proof.
  revert l l'. induction n as [| n IH]; intros l l'; [reflexivity|].
  destruct l as [| a l]; [reflexivity|].
  destruct l' as [| b l']; simpl.
  - destruct (skipn n l); reflexivity.
  - apply IH.
Qed.

Lemma firstn_seq_min (k s n : nat) : firstn k (seq s n) = seq s (Nat.min k n).
Proof.
  revert s n. induction k as [| k IH]; intros s n; [reflexivity|].
  destruct n as [| n]; simpl; [reflexivity | rewrite IH; reflexivity].
Qed.

(** A slice holds consecutive rows of the frame under their positions. *)
Lemma iloc_slice_rows (df : DataFrame) (start stop : Z) :
  let s := slice_bound (length df) start in
  let e := slice_bound (length df) stop in
  let rows := firstn (e - s) (skipn s df) in
  iloc_slice df start stop = combine (seq s (length rows)) rows.
Proof.
  intros s e rows. unfold iloc_slice, labelled.
  fold s e. rewrite skipn_combine, combine_firstn, skipn_seq, firstn_seq_min.
  simpl. fold rows. f_equal. f_equal.
  unfold rows. rewrite length_firstn, length_skipn. reflexivity.
Qed.

Lemma combine_seq_fst {A : Type} (rows : list A) (s : nat) :
  map fst (combine (seq s (length rows)) rows) = seq s (length rows).
Proof.
  revert s. induction rows as [| r rows IH]; intros s; simpl;
    [reflexivity | rewrite IH; reflexivity].
Qed.

Lemma combine_seq_snd {A : Type} (rows : list A) (s : nat) :
  map snd (combine (seq s (length rows)) rows) = rows.
Proof.
  revert s. induction rows as [| r rows IH]; intros s; simpl;
    [reflexivity | rewrite IH; reflexivity].
Qed.

Lemma iloc_slice_labels_NoDup (df : DataFrame) (start stop : Z) :
  NoDup (map fst (iloc_slice df start stop)).
Proof.
  rewrite iloc_slice_rows, combine_seq_fst. apply seq_NoDup.
Qed.

(** ** The trough *)

Lemma Qltb_trans_le (a b c : Q) : a <= b -> Qltb b c = true -> a < c.
Proof.
  intros H1 H2. apply Qltb_true in H2. lra.
Qed.

(** [idxmin_from] picks the first row of least level. *)
Lemma idxmin_from_first_least (rest : frame) (best : nat * row) :
  exists pre r post,
    best :: rest = pre ++ r :: post
    /\ idxmin_from best rest = fst r
    /\ (forall p, In p pre ->
          Level_above_Pump (snd r) < Level_above_Pump (snd p))
    /\ (forall p, In p post ->
          Level_above_Pump (snd r) <= Level_above_Pump (snd p)).
Proof.
  revert best. induction rest as [| x rest IH]; intros best.
  - exists [], best, []. simpl.
    split; [reflexivity|]. split; [reflexivity|]. split; intros p [].
  - simpl. destruct (Qltb _ _) eqn:E.
    + apply Qltb_true in E.
      destruct (IH x) as (pre & r & post & Heq & Hidx & Hpre & Hpost).
      exists (best :: pre), r, post. simpl. rewrite <- Heq.
      split; [reflexivity|]. split; [exact Hidx|].
      split; [|exact Hpost].
      intros p [<- | Hp]; [|apply Hpre, Hp].
      assert (Hrx : Level_above_Pump (snd r) <= Level_above_Pump (snd x)).
      { destruct pre as [| y pre]; simpl in Heq; injection Heq as -> Heq'.
        - apply Qle_refl.
        - apply Qlt_le_weak, Hpre. left. reflexivity. }
      lra.
    + apply Qltb_false in E.
      destruct (IH best) as (pre & r & post & Heq & Hidx & Hpre & Hpost).
      destruct pre as [| y pre]; simpl in Heq; injection Heq as <- Heq'.
      * subst rest. exists [], best, (x :: post). simpl.
        split; [reflexivity|]. split; [exact Hidx|].
        split; [intros p []|].
        intros p [<- | Hp]; [exact E | apply Hpost, Hp].
      * subst rest. exists (best :: x :: pre), r, post. simpl.
        split; [reflexivity|]. split; [exact Hidx|].
        split; [|exact Hpost].
        intros p [<- | [<- | Hp]].
        -- apply Hpre. left. reflexivity.
        -- assert (H := Hpre best (or_introl eq_refl)). lra.
        -- apply Hpre. right. exact Hp.
Qed.

Lemma loc_first_label (pre post : frame) (r : nat * row) :
  ~ In (fst r) (map fst pre) -> loc (pre ++ r :: post) (fst r) = Ok (snd r).
Proof.
  induction pre as [| p pre IH]; simpl; intros H.
  - rewrite Nat.eqb_refl. reflexivity.
  - destruct (Nat.eqb (fst p) (fst r)) eqn:E.
    + apply Nat.eqb_eq in E. exfalso. apply H. left. exact E.
    + apply IH. intros Hin. apply H. right. exact Hin.
Qed.

(** Where the trough of an accepted cycle stands in its slice. *)
Lemma trough_position (df : DataFrame) (start_idx end_idx : Z) (L : locals) :
  cycle_locals df start_idx end_idx = Ok (Some L) ->
  exists pre row_min post,
    iloc_slice df start_idx (end_idx + 1)
    = pre ++ (min_level_idx L, row_min) :: post
    /\ Level_above_Pump row_min = min_level L
    /\ Timestamp row_min = min_time L
    /\ (forall p, In p pre -> min_level L < Level_above_Pump (snd p))
    /\ (forall p, In p post -> min_level L <= Level_above_Pump (snd p)).
Proof.
  intros HL. apply cycle_locals_Some in HL.
  destruct (run_first _ _ HL) as (row0 & rest & Hcd & _ & _).
  destruct (run_trough _ _ HL) as (row_min & Hidx & Hloc & Hmin & Htime).
  destruct (idxmin_from_first_least rest row0)
    as (pre & r & post & Heq & Hr & Hpre & Hpost).
  rewrite Hcd in Hidx. simpl in Hidx. injection Hidx as Hidx.
  assert (Hrow : row_min = snd r).
  { assert (Hnd := iloc_slice_labels_NoDup df start_idx (end_idx + 1)).
    rewrite Hcd, Heq, map_app in Hnd. simpl in Hnd.
    apply NoDup_remove_2 in Hnd.
    rewrite Hcd, Heq, <- Hidx, Hr in Hloc.
    rewrite loc_first_label in Hloc.
    - injection Hloc as <-. reflexivity.
    - intros Hin. apply Hnd. apply in_or_app. left. exact Hin. }
  exists pre, row_min, post.
  assert (Hlabel : min_level_idx L = fst r) by congruence.
  split; [rewrite Hcd, Heq, Hlabel, Hrow; destruct r; reflexivity|].
  split; [symmetry; exact Hmin|]. split; [symmetry; exact Htime|].
  rewrite Hmin, Hrow. split; assumption.
Qed.

Lemma combine_seq_In {A : Type} (rows : list A) (s l : nat) (r : A) :
  In (l, r) (combine (seq s (length rows)) rows) ->
  exists k, l = (s + k)%nat /\ nth_error rows k = Some r.
Proof.
  revert s. induction rows as [| a rows IH]; intros s; simpl; [intros []|].
  intros [H | H].
  - injection H as <- <-. exists 0%nat. split; [lia | reflexivity].
  - destruct (IH _ H) as (k & -> & Hk). exists (S k). split; [lia | exact Hk].
Qed.

Lemma nth_error_segment {A : Type} (l : list A) (s m k : nat) (a : A) :
  nth_error (firstn m (skipn s l)) k = Some a -> nth_error l (s + k) = Some a.
Proof.
  intros H.
  destruct (Nat.lt_ge_cases k m) as [Hlt | Hge].
  - rewrite nth_error_firstn in H.
    apply Nat.ltb_lt in Hlt as Hb. rewrite Hb in H.
    rewrite nth_error_skipn in H. exact H.
  - assert (Hlen : (length (firstn m (skipn s l)) <= k)%nat)
      by (rewrite length_firstn; lia).
    apply nth_error_None in Hlen. congruence.
Qed.

(** A row of a slice is the row of the frame at its label. *)
Lemma iloc_slice_In (df : DataFrame) (start stop : Z) (l : nat) (r : row) :
  In (l, r) (iloc_slice df start stop) -> nth_error df l = Some r.
Proof.
  rewrite iloc_slice_rows. intros H.
  apply combine_seq_In in H. destruct H as (k & -> & Hk).
  apply nth_error_segment in Hk. exact Hk.
Qed.

(** X1. For peak indices [0 <= start_idx <= end_idx < len(df)] the slice
    of the cycle holds exactly the rows [start_idx .. end_idx] of the frame,
    both peaks included, each under its own index label. *)
Theorem peak_slice_is_inclusive (df : DataFrame) (start_idx end_idx : Z) :
  (0 <= start_idx)%Z -> (start_idx <= end_idx)%Z -> (end_idx < len df)%Z ->
  map fst (iloc_slice df start_idx (end_idx + 1))
  = seq (Z.to_nat start_idx) (Z.to_nat (end_idx - start_idx + 1))
  /\ map snd (iloc_slice df start_idx (end_idx + 1))
     = firstn (Z.to_nat (end_idx - start_idx + 1)) (skipn (Z.to_nat start_idx) df)
  /\ len (iloc_slice df start_idx (end_idx + 1)) = (end_idx - start_idx + 1)%Z.
Proof.
  intros H0 Hse He. unfold len in *.
  assert (Hs : slice_bound (length df) start_idx = Z.to_nat start_idx).
  { unfold slice_bound. destruct (start_idx <? 0)%Z eqn:E.
    - apply Z.ltb_lt in E. lia.
    - lia. }
  assert (Hstop : slice_bound (length df) (end_idx + 1) = Z.to_nat (end_idx + 1)).
  { unfold slice_bound. destruct (end_idx + 1 <? 0)%Z eqn:E.
    - apply Z.ltb_lt in E. lia.
    - lia. }
  rewrite iloc_slice_rows, Hs, Hstop.
  replace (Z.to_nat (end_idx + 1) - Z.to_nat start_idx)%nat
    with (Z.to_nat (end_idx - start_idx + 1)) by lia.
  assert (Hlen : length (firstn (Z.to_nat (end_idx - start_idx + 1))
                           (skipn (Z.to_nat start_idx) df))
                 = Z.to_nat (end_idx - start_idx + 1)).
  { rewrite length_firstn, length_skipn. lia. }
  rewrite combine_seq_fst, combine_seq_snd, length_combine, length_seq, Hlen.
  repeat split; try reflexivity. lia.
Qed.

Lemma peak_slice_is_inclusive_witness :
  (0 <= 1)%Z /\ (1 <= 5)%Z /\ (5 < len (hourly example_levels))%Z
  /\ map fst (iloc_slice (hourly example_levels) 1 (5 + 1)) = seq 1 5.
Proof.
  split; [lia|]. split; [lia|]. split; [vm_compute; reflexivity|].
  apply (peak_slice_is_inclusive (hourly example_levels) 1 5);
    [lia | lia | vm_compute; reflexivity].
Defined.



(** ** Times and rates of one cycle *)

Lemma chain_tail {A : Type} (rel : A -> A -> bool) (a : A) (l : list A) :
  chain rel (a :: l) = true -> chain rel l = true.
Proof.
  destruct l as [| b l]; [reflexivity|].
  simpl. intros H. apply andb_true_iff in H. apply H.
Qed.

Lemma chain_firstn {A : Type} (rel : A -> A -> bool) (l : list A) (n : nat) :
  chain rel l = true -> chain rel (firstn n l) = true.
Proof.
  revert n. induction l as [| a l IH]; intros n H.
  - rewrite firstn_nil. reflexivity.
  - destruct n as [| n]; [reflexivity|].
    destruct l as [| b l]; [destruct n; reflexivity|].
    destruct n as [| n]; [reflexivity|].
    change (firstn (S (S n)) (a :: b :: l)) with (a :: firstn (S n) (b :: l)).
    change (firstn (S n) (b :: l)) with (b :: firstn n l) in *.
    simpl in H. apply andb_true_iff in H. destruct H as [Hab H].
    specialize (IH (S n) H).
    change (firstn (S n) (b :: l)) with (b :: firstn n l) in IH.
    simpl. rewrite Hab. exact IH.
Qed.

Lemma chain_skipn {A : Type} (rel : A -> A -> bool) (l : list A) (n : nat) :
  chain rel l = true -> chain rel (skipn n l) = true.
Proof.
  revert l. induction n as [| n IH]; intros l H; [exact H|].
  destruct l as [| a l]; [reflexivity|].
  simpl. apply IH. apply (chain_tail rel a). exact H.
Qed.

Lemma chain_leb_head (a : Z) (l : list Z) :
  chain Z.leb (a :: l) = true -> Forall (fun b => (a <= b)%Z) l.
Proof.
  revert a. induction l as [| b l IH]; intros a H; [constructor|].
  simpl in H. apply andb_true_iff in H. destruct H as [Hab H].
  apply Z.leb_le in Hab.
  constructor; [exact Hab|].
  eapply Forall_impl; [|apply (IH b H)]. simpl. intros; lia.
Qed.

Lemma chain_leb_app (l1 l2 : list Z) (a : Z) :
  chain Z.leb (l1 ++ a :: l2) = true ->
  Forall (fun b => (b <= a)%Z) l1 /\ Forall (fun b => (a <= b)%Z) l2.
Proof.
  induction l1 as [| c l1 IH]; intros H.
  - split; [constructor | apply chain_leb_head; exact H].
  - simpl in H. pose proof (chain_leb_head _ _ H) as Hc.
    apply chain_tail in H. destruct (IH H) as [H1 H2].
    split; [|exact H2].
    constructor; [|exact H1].
    rewrite Forall_forall in Hc. apply Hc. apply in_or_app. right. left. reflexivity.
Qed.

Lemma iloc_last_app (pre post : frame) (x : nat * row) (r : row) :
  iloc_last (pre ++ x :: post) = Ok r ->
  (post = [] /\ r = snd x) \/ (exists p, In p post /\ r = snd p).
Proof.
  unfold iloc_last. rewrite rev_app_distr. simpl. rewrite <- app_assoc.
  destruct (rev post) as [| p t] eqn:E; simpl.
  - intros [= <-]. left. split; [|reflexivity].
    rewrite <- (rev_involutive post), E. reflexivity.
  - intros [= <-]. right. exists p. split; [|reflexivity].
    apply in_rev. rewrite E. left. reflexivity.
Qed.

Lemma slice_timestamps_chain (df : DataFrame) (start stop : Z) :
  sorted_by_timestamp df = true ->
  chain Z.leb (map Timestamp (map snd (iloc_slice df start stop))) = true.
Proof.
  unfold sorted_by_timestamp. intros H.
  rewrite iloc_slice_rows, combine_seq_snd.
  rewrite <- firstn_map, <- skipn_map.
  apply chain_firstn, chain_skipn, H.
Qed.

(** In a frame sorted by timestamp a cycle starts no later than its trough
    and ends no earlier. *)
Lemma cycle_times_ordered (df : DataFrame) (start_idx end_idx : Z) (L : locals) :
  sorted_by_timestamp df = true ->
  cycle_locals df start_idx end_idx = Ok (Some L) ->
  (start_time L <= min_time L <= end_time L)%Z.
Proof.
  intros Hsorted HL.
  destruct (trough_position _ _ _ _ HL)
    as (pre & row_min & post & Hcd & _ & Htime & _ & _).
  apply cycle_locals_Some in HL.
  destruct (run_first _ _ HL) as (row0 & rest & Hcd0 & _ & Hstart).
  destruct (run_last _ _ HL) as (row_last & Hlast & Hend).
  pose proof (slice_timestamps_chain df start_idx (end_idx + 1) Hsorted) as Hchain.
  rewrite Hcd, !map_app in Hchain. simpl in Hchain.
  apply chain_leb_app in Hchain. destruct Hchain as [Hbefore Hafter].
  rewrite Forall_forall in Hbefore, Hafter.
  rewrite Htime in *.
  split.
  - rewrite Hstart. rewrite Hcd in Hcd0.
    destruct pre as [| p pre]; simpl in Hcd0; injection Hcd0 as <- _.
    + simpl. lia.
    + apply Hbefore. simpl. left. reflexivity.
  - rewrite Hend. rewrite Hcd in Hlast.
    destruct (iloc_last_app _ _ _ _ Hlast) as [[_ ->] | (p & Hp & ->)].
    + simpl. lia.
    + apply Hafter. apply in_map, in_map, Hp.
Qed.

Lemma total_seconds_add (a b c : Z) :
  total_seconds c a == total_seconds b a + total_seconds c b.
Proof.
  unfold total_seconds, Qeq, Qplus. cbn [Qnum Qden].
  rewrite Pos2Z.inj_mul. ring.
Qed.

Lemma hours_nonneg (t1 t0 : Z) : (t0 <= t1)%Z -> 0 <= total_seconds t1 t0 / 3600.
Proof.
  intros H. unfold Qdiv. apply Qmult_le_0_compat.
  - unfold total_seconds, Qle. cbn [Qnum Qden]. lia.
  - apply Qlt_le_weak. reflexivity.
Qed.

(** X4. On a frame sorted by timestamp, in every accepted cycle the trough
    lies between the start and the end of the cycle, so the time to the
    maximum drawdown, the recovery time and the cycle duration are not
    negative, and neither of the first two exceeds the duration. *)
Theorem sorted_frame_gives_nonnegative_times
  (df : DataFrame) (start_idx end_idx : Z) (L : locals) :
  sorted_by_timestamp df = true ->
  cycle_locals df start_idx end_idx = Ok (Some L) ->
  (start_time L <= min_time L <= end_time L)%Z
  /\ 0 <= time_to_max_drawdown L
  /\ 0 <= recovery_time L
  /\ 0 <= cycle_duration L
  /\ time_to_max_drawdown L <= cycle_duration L
  /\ recovery_time L <= cycle_duration L.
Proof.
  intros Hsorted HL.
  pose proof (cycle_times_ordered _ _ _ _ Hsorted HL) as Hord.
  assert (Hsplit : cycle_duration L == time_to_max_drawdown L + recovery_time L).
  { pose proof (cycle_locals_Some _ _ _ _ HL) as Hrun.
    rewrite (run_cycle_duration _ _ Hrun), (run_time_to_max_drawdown _ _ Hrun),
      (run_recovery_time _ _ Hrun).
    unfold Qdiv.
    rewrite (total_seconds_add (start_time L) (min_time L) (end_time L)).
    ring. }
  apply cycle_locals_Some in HL.
  assert (H1 : 0 <= time_to_max_drawdown L)
    by (rewrite (run_time_to_max_drawdown _ _ HL); apply hours_nonneg; lia).
  assert (H2 : 0 <= recovery_time L)
    by (rewrite (run_recovery_time _ _ HL); apply hours_nonneg; lia).
  split; [exact Hord|]. repeat split; lra.
Qed.

Lemma sorted_frame_gives_nonnegative_times_witness :
  exists L,
    sorted_by_timestamp (hourly example_levels) = true
    /\ cycle_locals (hourly example_levels) 1 5 = Ok (Some L)
    /\ 0 <= time_to_max_drawdown L
    /\ time_to_max_drawdown L <= cycle_duration L.
Proof.
  eexists. split; [vm_compute; reflexivity|]. split; [reflexivity|].
  destruct (sorted_frame_gives_nonnegative_times (hourly example_levels) 1 5 _
              ltac:(vm_compute; reflexivity) eq_refl)
    as (_ & H1 & _ & _ & H2 & _).
  split; assumption.
Defined.

Lemma rate_or_zero_bounds (num hours rate : Q) :
  0 <= num ->
  rate_or_zero num hours = Ok rate ->
  0 <= rate /\ (0 < hours -> rate * hours == num).
Proof.
  intros Hnum H.
  destruct (rate_or_zero_cases num hours) as [[Hpos E] | [Hle E]];
    rewrite E in H; injection H as <-.
  - split.
    + unfold Qdiv. apply Qmult_le_0_compat; [exact Hnum|].
      apply Qinv_le_0_compat. lra.
    + intros _. field. lra.
  - split; [apply Qle_refl|]. intros Hpos. exfalso. lra.
Qed.

(** X5. In every accepted cycle the drawdown rate, the recharge rate and
    the hourly fluctuation are not negative; and on a frame sorted by
    timestamp the hourly fluctuation, a rate over the whole cycle, exceeds
    neither the drawdown rate when the trough comes after the start nor the
    recharge rate when the end comes after the trough. *)
Theorem rates_not_negative_and_ordered
  (df : DataFrame) (start_idx end_idx : Z) (L : locals) :
  cycle_locals df start_idx end_idx = Ok (Some L) ->
  0 <= drawdown_rate L /\ 0 <= recharge_rate L /\ 0 <= hourly_fluctuations L
  /\ (sorted_by_timestamp df = true ->
      (0 < time_to_max_drawdown L ->
       hourly_fluctuations L <= drawdown_rate L)
      /\ (0 < recovery_time L ->
          hourly_fluctuations L <= recharge_rate L)).
Proof.
  intros HL0. pose proof (cycle_locals_Some _ _ _ _ HL0) as HL.
  assert (Hmd : 0 <= max_drawdown_value L)
    by (pose proof (run_accepted _ _ HL); lra).
  destruct (rate_or_zero_bounds _ _ _ Hmd (run_drawdown_rate _ _ HL)) as [Hd Hd'].
  destruct (rate_or_zero_bounds _ _ _ Hmd (run_recharge_rate _ _ HL)) as [Hr Hr'].
  pose proof (run_hourly_fluctuations _ _ HL) as Hf.
  rewrite <- (run_drawdown _ _ HL) in Hf.
  destruct (rate_or_zero_bounds _ _ _ Hmd Hf) as [Hh Hh'].
  split; [exact Hd|]. split; [exact Hr|]. split; [exact Hh|].
  intros Hsorted.
  pose proof (cycle_times_ordered _ _ _ _ Hsorted HL0) as Hord.
  assert (Hsplit : cycle_duration L == time_to_max_drawdown L + recovery_time L).
  { rewrite (run_cycle_duration _ _ HL), (run_time_to_max_drawdown _ _ HL),
      (run_recovery_time _ _ HL).
    unfold Qdiv.
    rewrite (total_seconds_add (start_time L) (min_time L) (end_time L)).
    ring. }
  assert (H1 : 0 <= time_to_max_drawdown L)
    by (rewrite (run_time_to_max_drawdown _ _ HL); apply hours_nonneg; lia).
  assert (H2 : 0 <= recovery_time L)
    by (rewrite (run_recovery_time _ _ HL); apply hours_nonneg; lia).
  split; intros Hpos.
  - assert (HT : 0 < cycle_duration L) by lra.
    specialize (Hh' HT). specialize (Hd' Hpos).
    apply Qnot_lt_le. intros Hlt.
    assert (Hc : drawdown_rate L * time_to_max_drawdown L
                 < hourly_fluctuations L * time_to_max_drawdown L)
      by (apply Qmult_lt_compat_r; assumption).
    assert (Hc' : hourly_fluctuations L * time_to_max_drawdown L
                  <= hourly_fluctuations L * cycle_duration L).
    { rewrite Hsplit.
      setoid_replace (hourly_fluctuations L * (time_to_max_drawdown L + recovery_time L))
        with (hourly_fluctuations L * time_to_max_drawdown L
              + hourly_fluctuations L * recovery_time L) by ring.
      pose proof (Qmult_le_0_compat _ _ Hh H2). lra. }
    lra.
  - assert (HT : 0 < cycle_duration L) by lra.
    specialize (Hh' HT). specialize (Hr' Hpos).
    apply Qnot_lt_le. intros Hlt.
    assert (Hc : recharge_rate L * recovery_time L
                 < hourly_fluctuations L * recovery_time L)
      by (apply Qmult_lt_compat_r; assumption).
    assert (Hc' : hourly_fluctuations L * recovery_time L
                  <= hourly_fluctuations L * cycle_duration L).
    { rewrite Hsplit.
      setoid_replace (hourly_fluctuations L * (time_to_max_drawdown L + recovery_time L))
        with (hourly_fluctuations L * time_to_max_drawdown L
              + hourly_fluctuations L * recovery_time L) by ring.
      pose proof (Qmult_le_0_compat _ _ Hh H1). lra. }
    lra.
Qed.

Lemma rates_not_negative_and_ordered_witness :
  exists L,
    cycle_locals (hourly example_levels) 1 5 = Ok (Some L)
    /\ sorted_by_timestamp (hourly example_levels) = true
    /\ 0 < time_to_max_drawdown L
    /\ 0 <= hourly_fluctuations L
    /\ hourly_fluctuations L <= drawdown_rate L.
Proof.
  eexists. split; [reflexivity|].
  split; [vm_compute; reflexivity|].
  split; [vm_compute; reflexivity|].
  destruct (rates_not_negative_and_ordered (hourly example_levels) 1 5 _ eq_refl)
    as (_ & _ & Hh & Hord).
  split; [exact Hh|].
  apply Hord; vm_compute; reflexivity.
Defined.

(** ** More on the report *)

(** X6. Every record of the report gives the same number under
    ['Recharge Volume (m³)'] and under ['Max Drawdown (m)']: the unit area of
    line 91 is 1. *)
Theorem recharge_volume_is_max_drawdown
  (df : DataFrame) (peaks : list Z) (cycles : list Cycle.t) (r : Cycle.t) :
  cycle_processing df peaks = Ok cycles ->
  In r cycles ->
  Cycle.Recharge_Volume_m3 r = Cycle.Max_Drawdown_m r.
Proof.
  intros H Hr. apply In_nth_error in Hr. destruct Hr as (k & Hk).
  destruct (report_nth _ _ _ _ _ H Hk) as (L & running & HL & _ & ->).
  destruct (accepted_run df peaks L (nth_error_In _ _ HL)) as (s & e & _ & Hrun).
  simpl. apply round_comp. rewrite (run_recharge_volume _ _ Hrun). ring.
Qed.

Lemma recharge_volume_is_max_drawdown_witness :
  cycle_processing (hourly two_cycles_levels) [1; 3; 5]%Z = Ok two_cycles_report
  /\ forall r, In r two_cycles_report ->
               Cycle.Recharge_Volume_m3 r = Cycle.Max_Drawdown_m r.
Proof.
  split; [vm_compute; reflexivity|].
  intros r. apply (recharge_volume_is_max_drawdown
                     (hourly two_cycles_levels) [1; 3; 5]%Z two_cycles_report).
  vm_compute. reflexivity.
Defined.

Lemma drawdown_sum_floor (Ls : list locals) (c : Q) :
  (forall L, In L Ls -> c <= max_drawdown_value L) ->
  forall k, (k <= length Ls)%nat ->
            inject_Z (Z.of_nat k) * c <= drawdown_sum Ls k.
Proof.
  unfold drawdown_sum.
  induction Ls as [| L Ls IH]; intros Hc k Hk.
  - simpl in Hk. replace k with 0%nat by lia.
    rewrite firstn_nil. change (0 * c <= 0). lra.
  - destruct k as [| k]; [change (0 * c <= 0); lra|].
    assert (HL : c <= max_drawdown_value L) by (apply Hc; left; reflexivity).
    assert (IH' := IH (fun L' HL' => Hc L' (or_intror HL')) k ltac:(simpl in Hk; lia)).
    change (firstn (S k) (L :: Ls)) with (L :: firstn k Ls).
    rewrite map_cons.
    change (inject_Z (Z.of_nat (S k)) * c
            <= max_drawdown_value L + Qsum (map max_drawdown_value (firstn k Ls))).
    rewrite Nat2Z.inj_succ. unfold Z.succ. rewrite inject_Z_plus.
    change (inject_Z 1) with 1.
    setoid_replace ((inject_Z (Z.of_nat k) + 1) * c)
      with (inject_Z (Z.of_nat k) * c + c) by ring.
    lra.
Qed.

Lemma drawdown_sum_covers_last (Ls : list locals) :
  (forall L, In L Ls -> 0 <= max_drawdown_value L) ->
  forall k L, nth_error Ls k = Some L ->
              max_drawdown_value L <= drawdown_sum Ls (S k).
Proof.
  unfold drawdown_sum.
  induction Ls as [| L0 Ls IH]; intros Hpos k L HL.
  - destruct k; discriminate HL.
  - assert (H0 : 0 <= max_drawdown_value L0) by (apply Hpos; left; reflexivity).
    destruct k as [| k]; simpl in HL.
    + injection HL as <-. simpl. lra.
    + assert (IH' := IH (fun L' HL' => Hpos L' (or_intror HL')) k L HL).
      change (firstn (S (S k)) (L0 :: Ls)) with (L0 :: firstn (S k) Ls).
      rewrite map_cons.
      change (max_drawdown_value L
              <= max_drawdown_value L0
                 + Qsum (map max_drawdown_value (firstn (S k) Ls))).
      lra.
Qed.

(** X7. The record at position [k] (from 0) reports a cumulative drawdown
    of at least [2 * (k + 1)], and of at least its own reported maximum
    drawdown. *)
Theorem cumulative_drawdown_lower_bounds
  (df : DataFrame) (peaks : list Z) (cycles : list Cycle.t)
  (k : nat) (r : Cycle.t) :
  cycle_processing df peaks = Ok cycles ->
  nth_error cycles k = Some r ->
  inject_Z (2 * (Z.of_nat k + 1)) <= Cycle.Cumulative_Drawdown_m r
  /\ Cycle.Max_Drawdown_m r <= Cycle.Cumulative_Drawdown_m r.
Proof.
  intros H Hk.
  destruct (report_nth _ _ _ _ _ H Hk) as (L & running & HL & Hrun & ->).
  simpl. rewrite (round_comp _ _ 1 Hrun).
  assert (Hfloor : forall L', In L' (accepted df peaks) -> 2 <= max_drawdown_value L')
    by (intros L'; apply accepted_drawdown_floor).
  split.
  - rewrite <- (round_Z (2 * (Z.of_nat k + 1)) 1). apply round_mono.
    assert (Hlen : (S k <= length (accepted df peaks))%nat).
    { apply Nat.le_succ_l. apply nth_error_Some. congruence. }
    pose proof (drawdown_sum_floor _ 2 Hfloor (S k) Hlen) as Hsum.
    rewrite Nat2Z.inj_succ in Hsum. unfold Z.succ in Hsum.
    rewrite inject_Z_mult.
    setoid_replace (inject_Z 2 * inject_Z (Z.of_nat k + 1))
      with (inject_Z (Z.of_nat k + 1) * 2) by (change (inject_Z 2) with 2; ring).
    exact Hsum.
  - apply round_mono. apply drawdown_sum_covers_last; [|exact HL].
    intros L' HL'. apply Hfloor in HL'. lra.
Qed.

Lemma cumulative_drawdown_lower_bounds_witness :
  exists r,
    cycle_processing (hourly two_cycles_levels) [1; 3; 5]%Z = Ok two_cycles_report
    /\ nth_error two_cycles_report 1 = Some r
    /\ inject_Z (2 * (Z.of_nat 1 + 1)) <= Cycle.Cumulative_Drawdown_m r.
Proof.
  eexists. split; [vm_compute; reflexivity|]. split; [reflexivity|].
  apply (cumulative_drawdown_lower_bounds
           (hourly two_cycles_levels) [1; 3; 5]%Z two_cycles_report 1).
  - vm_compute. reflexivity.
  - reflexivity.
Defined.









(** ** Series without peaks *)

(** X11. A frame of fewer than three rows has no interior sample: the
    pipeline finds no peak and returns the empty report. *)
Theorem fewer_than_three_rows_empty_report (df : DataFrame) :
  (length df < 3)%nat -> main df = Ok [].
Proof.
  intros H. unfold main, find_peaks.
  rewrite find_peaks_prominence_short
    by (unfold levels_of; rewrite length_map; exact H).
  reflexivity.
Qed.

Lemma fewer_than_three_rows_empty_report_witness :
  (length (hourly [10%Q; 2%Q]) < 3)%nat /\ main (hourly [10; 2]) = Ok [].
Proof.
  split; [simpl; lia|].
  apply (fewer_than_three_rows_empty_report (hourly [10; 2])). simpl. lia.
Defined.

Section Chains.

Context {A : Type} (rel : A -> A -> bool) (R : A -> A -> Prop).
Hypothesis rel_R : forall a b, rel a b = true -> R a b.
Hypothesis R_trans : forall a b c, R a b -> R b c -> R a c.

Lemma chain_head_Forall (a : A) (l : list A) :
  chain rel (a :: l) = true -> Forall (R a) l.
Proof.
  revert a. induction l as [| b l IH]; intros a H; [constructor|].
  simpl in H. apply andb_true_iff in H. destruct H as [Hab H].
  apply rel_R in Hab.
  constructor; [exact Hab|].
  eapply Forall_impl; [|apply (IH b H)]. simpl. intros c. apply R_trans, Hab.
Qed.

(** In a chain every element stands in the relation to every later one. *)
Lemma chain_nth (l : list A) :
  chain rel l = true ->
  forall i j a b,
    (i < j)%nat -> nth_error l i = Some a -> nth_error l j = Some b -> R a b.
Proof.
  induction l as [| c l IH]; intros H i j a b Hij Hi Hj.
  - destruct i; discriminate Hi.
  - destruct j as [| j]; [lia|]. simpl in Hj.
    destruct i as [| i]; simpl in Hi.
    + injection Hi as <-.
      pose proof (chain_head_Forall _ _ H) as Hall.
      rewrite Forall_forall in Hall. apply Hall. apply (nth_error_In _ _ Hj).
    + apply (IH (chain_tail _ _ _ H) i j); [lia | exact Hi | exact Hj].
Qed.

End Chains.

Lemma getitem_Ok {A : Type} (xs : list A) (i : nat) (a : A) :
  getitem xs i = Ok a -> nth_error xs i = Some a.
Proof.
  unfold getitem. destruct (nth_error xs i); [intros [= ->]; reflexivity | discriminate].
Qed.

(** No sample that is followed only by samples at least as high is a
    peak. *)
Lemma local_maxima_loop_nondecreasing (x : list Q) :
  (forall i j a b,
      (i < j)%nat -> nth_error x i = Some a -> nth_error x j = Some b -> a <= b) ->
  forall fuel i,
    (1 <= i)%nat ->
    local_maxima_loop Qltb Qeq_bool x (length x - 1) fuel i = Ok [].
Proof.
  intros Hmono. induction fuel as [| fuel IH]; intros i Hi; simpl; [reflexivity|].
  destruct (i <? length x - 1)%nat eqn:Hlt; [|reflexivity].
  apply Nat.ltb_lt in Hlt.
  destruct (getitem_lt x (i - 1)) as (xp & Hxp); [lia|].
  destruct (getitem_lt x i) as (xi & Hxi); [lia|].
  rewrite Hxp, Hxi; simpl.
  destruct (Qltb xp xi); [|apply IH; lia].
  destruct (look_ahead_total Qeq_bool x xi (length x - 1 - (i + 1)) (i + 1))
    as (j & Hj & Hjr); [lia|].
  rewrite Hj; simpl.
  destruct (getitem_lt x j) as (xa & Hxa); [lia|].
  rewrite Hxa; simpl.
  assert (Hle : xi <= xa).
  { apply (Hmono i j); [lia | apply getitem_Ok, Hxi | apply getitem_Ok, Hxa]. }
  apply Qltb_false in Hle. rewrite Hle. apply IH. lia.
Qed.

(** No sample that follows only samples at least as high is a peak. *)
Lemma local_maxima_loop_nonincreasing (x : list Q) :
  (forall i j a b,
      (i < j)%nat -> nth_error x i = Some a -> nth_error x j = Some b -> b <= a) ->
  forall fuel i,
    (1 <= i)%nat ->
    local_maxima_loop Qltb Qeq_bool x (length x - 1) fuel i = Ok [].
Proof.
  intros Hmono. induction fuel as [| fuel IH]; intros i Hi; simpl; [reflexivity|].
  destruct (i <? length x - 1)%nat eqn:Hlt; [|reflexivity].
  apply Nat.ltb_lt in Hlt.
  destruct (getitem_lt x (i - 1)) as (xp & Hxp); [lia|].
  destruct (getitem_lt x i) as (xi & Hxi); [lia|].
  rewrite Hxp, Hxi; simpl.
  assert (Hle : xi <= xp).
  { apply (Hmono (i - 1)%nat i); [lia | apply getitem_Ok, Hxp | apply getitem_Ok, Hxi]. }
  apply Qltb_false in Hle. rewrite Hle. apply IH. lia.
Qed.

(** X12. A series of levels that never falls, or that never rises, has no
    peak (a flat series is both); the pipeline returns the empty report
    for it. *)
Theorem monotone_series_has_no_peak (df : DataFrame) :
  chain Qle_bool (levels_of df) = true
  \/ chain (fun a b => Qle_bool b a) (levels_of df) = true ->
  find_peaks (levels_of df) = Ok [] /\ main df = Ok [].
Proof.
  intros H.
  assert (Hp : find_peaks (levels_of df) = Ok []).
  { unfold find_peaks, find_peaks_prominence, local_maxima_1d.
    destruct H as [H | H].
    - rewrite local_maxima_loop_nondecreasing; [reflexivity | | lia].
      apply (chain_nth Qle_bool Qle); [| intros a b c; apply Qle_trans | exact H].
      intros a b. apply Qle_bool_iff.
    - rewrite local_maxima_loop_nonincreasing; [reflexivity | | lia].
      intros i j a b Hij Ha Hb.
      apply (chain_nth (fun a b => Qle_bool b a) (fun a b => b <= a))
        with (l := levels_of df) (i := i) (j := j); try assumption.
      + intros u v. apply Qle_bool_iff.
      + intros u v w Huv Hvw. apply (Qle_trans _ v); assumption. }
  split; [exact Hp|].
  unfold main. rewrite Hp. reflexivity.
Qed.

Lemma monotone_series_has_no_peak_witness :
  chain Qle_bool (levels_of (hourly [1; 2; 2; 5; 9])) = true
  /\ main (hourly [1; 2; 2; 5; 9]) = Ok [].
Proof.
  split; [vm_compute; reflexivity|].
  apply (monotone_series_has_no_peak (hourly [1; 2; 2; 5; 9])).
  left. vm_compute. reflexivity.
Defined.

(** ** The shape of the detected peaks *)

Section PeakShape.

Context {A : Type}.
Variables ltb leb eqb : A -> A -> bool.
Variable sub : A -> A -> A.
Variable x : list A.

Lemma local_maxima_loop_sorted (fuel i : nat) (peaks : list nat) :
  (1 <= i)%nat ->
  local_maxima_loop ltb eqb x (length x - 1) fuel i = Ok peaks ->
  StronglySorted lt peaks.
Proof.
  revert i peaks. induction fuel as [| fuel IH]; intros i peaks Hi; simpl.
  - intros [= <-]. constructor.
  - destruct (i <? length x - 1)%nat eqn:Hlt; [|intros [= <-]; constructor].
    destruct (getitem x (i - 1)) as [xp |]; simpl; [|discriminate].
    destruct (getitem x i) as [xi |]; simpl; [|discriminate].
    destruct (ltb xp xi); [|apply IH; lia].
    destruct (look_ahead eqb x xi (length x - 1 - (i + 1)) (i + 1)) as [j |] eqn:Hj;
      simpl; [|discriminate].
    apply look_ahead_ge in Hj.
    destruct (getitem x j) as [xa |]; simpl; [|discriminate].
    destruct (ltb xa xi); [|apply IH; lia].
    destruct (local_maxima_loop_total ltb eqb x fuel (j + 1)) as (rest & Hrest & Hall);
      [lia|].
    rewrite Hrest; cbn [bind]. intros [= <-].
    constructor.
    + apply (IH (j + 1)%nat); [lia | exact Hrest].
    + eapply Forall_impl; [|exact Hall]. cbv beta. intros p Hp.
      assert (((i + (j - 1)) / 2 < j)%nat)
        by (apply Nat.Div0.div_lt_upper_bound; lia).
      change ((i + (j - 1)) / 2 < p)%nat. lia.
Qed.

Lemma select_by_prominence_sub (pmin : A) (peaks kept : list nat) :
  select_by_prominence ltb leb sub x pmin peaks = Ok kept ->
  (forall p, In p kept -> In p peaks)
  /\ (StronglySorted lt peaks -> StronglySorted lt kept).
Proof.
  revert kept. induction peaks as [| peak peaks IH]; intros kept; simpl.
  - intros [= <-]. split; [intros p [] | intros; constructor].
  - destruct (prominence ltb leb sub x peak) as [p |]; simpl; [|discriminate].
    destruct (select_by_prominence ltb leb sub x pmin peaks) as [kept' |]; simpl;
      [|discriminate].
    destruct (IH kept' eq_refl) as [Hin Hsorted].
    intros [= <-]. split.
    + destruct (leb pmin p); intros q Hq.
      * destruct Hq as [<- | Hq]; [left; reflexivity | right; apply Hin, Hq].
      * right. apply Hin, Hq.
    + intros Hs. apply StronglySorted_inv in Hs. destruct Hs as [Hs Hall].
      destruct (leb pmin p); [|apply Hsorted, Hs].
      constructor; [apply Hsorted, Hs|].
      rewrite Forall_forall in *. intros q Hq. apply Hall, Hin, Hq.
Qed.

(** The detected peaks are interior indices in strictly increasing
    order. *)
Lemma find_peaks_prominence_shape (pmin : A) (peaks : list nat) :
  find_peaks_prominence ltb leb eqb sub x pmin = Ok peaks ->
  StronglySorted lt peaks
  /\ Forall (fun p => (1 <= p < length x - 1)%nat) peaks.
Proof.
  unfold find_peaks_prominence, local_maxima_1d.
  destruct (local_maxima_loop_total ltb eqb x (length x - 1) 1 (le_n 1))
    as (maxima & Hm & Hall).
  rewrite Hm; simpl. intros Hsel.
  destruct (select_by_prominence_sub _ _ _ Hsel) as [Hin Hsorted].
  split.
  - apply Hsorted. apply (local_maxima_loop_sorted (length x - 1) 1); [lia | exact Hm].
  - rewrite Forall_forall in *. intros p Hp. apply Hall, Hin, Hp.
Qed.

End PeakShape.

Lemma sorted_increasing (l : list nat) :
  StronglySorted lt l -> increasing (map Z.of_nat l) = true.
Proof.
  induction 1 as [| a l Hs IH Hall]; [reflexivity|].
  destruct l as [| b l]; [reflexivity|].
  change (increasing (map Z.of_nat (a :: b :: l)))
    with ((Z.of_nat a <? Z.of_nat b)%Z && increasing (map Z.of_nat (b :: l))).
  rewrite IH, andb_true_r. apply Z.ltb_lt.
  apply Forall_inv in Hall. lia.
Qed.

(** X13. The peaks that peak detection returns are interior indices of the
    series in strictly increasing order, so the cycle loop of [main] always
    receives peak indices that are within the frame and ascending. *)
Theorem detected_peaks_are_interior_and_ascending
  (df : DataFrame) (peaks : list nat) :
  find_peaks (levels_of df) = Ok peaks ->
  StronglySorted lt peaks
  /\ Forall (fun p => (1 <= p < length df - 1)%nat) peaks
  /\ forallb (in_bounds df) (map Z.of_nat peaks) = true
  /\ increasing (map Z.of_nat peaks) = true.
Proof.
  intros H. apply find_peaks_prominence_shape in H.
  destruct H as [Hs Hall].
  unfold levels_of in Hall. rewrite length_map in Hall.
  split; [exact Hs|]. split; [exact Hall|]. split.
  - apply forallb_forall. intros z Hz. apply in_map_iff in Hz.
    destruct Hz as (p & <- & Hp).
    rewrite Forall_forall in Hall. apply Hall in Hp.
    unfold in_bounds, len. apply andb_true_iff. split.
    + apply Z.leb_le. lia.
    + apply Z.ltb_lt. lia.
  - apply sorted_increasing, Hs.
Qed.

Lemma detected_peaks_are_interior_and_ascending_witness :
  find_peaks (levels_of (hourly two_cycles_levels)) = Ok [1; 3; 5]%nat
  /\ increasing (map Z.of_nat [1; 3; 5]%nat) = true.
Proof.
  split; [vm_compute; reflexivity|].
  apply (detected_peaks_are_interior_and_ascending (hourly two_cycles_levels)).
  vm_compute. reflexivity.
Defined.

(** ** The prominence bound 0 *)

Lemma scan_left_below (x : list Q) (xpeak : Q) (n : nat) (left_min m : Q) :
  left_min <= xpeak ->
  scan_left Qltb Qle_bool x xpeak n left_min = Ok m -> m <= xpeak.
Proof.
  revert left_min. induction n as [| i IH]; intros left_min Hle; simpl.
  - intros [= <-]. exact Hle.
  - destruct (getitem x i) as [xi |]; simpl; [|discriminate].
    destruct (Qle_bool xi xpeak) eqn:E; [|intros [= <-]; exact Hle].
    apply Qle_bool_iff in E. apply IH.
    destruct (Qltb xi left_min); assumption.
Qed.

Lemma scan_right_below (x : list Q) (xpeak : Q) (gap i : nat) (right_min m : Q) :
  right_min <= xpeak ->
  scan_right Qltb Qle_bool x xpeak gap i right_min = Ok m -> m <= xpeak.
Proof.
  revert i right_min. induction gap as [| gap IH]; intros i right_min Hle; simpl.
  - intros [= <-]. exact Hle.
  - destruct (getitem x i) as [xi |]; simpl; [|discriminate].
    destruct (Qle_bool xi xpeak) eqn:E; [|intros [= <-]; exact Hle].
    apply Qle_bool_iff in E. apply IH.
    destruct (Qltb xi right_min); assumption.
Qed.

Lemma prominence_nonneg (x : list Q) (peak : nat) (p : Q) :
  prominence Qltb Qle_bool Qminus x peak = Ok p -> 0 <= p.
Proof.
  unfold prominence. destruct (peak <? length x)%nat; [|discriminate].
  destruct (getitem x peak) as [xpeak |]; simpl; [|discriminate].
  destruct (scan_left Qltb Qle_bool x xpeak (peak + 1) xpeak) as [l |] eqn:Hl;
    simpl; [|discriminate].
  destruct (scan_right Qltb Qle_bool x xpeak (length x - peak) peak xpeak)
    as [r |] eqn:Hr; simpl; [|discriminate].
  apply scan_left_below in Hl; [|apply Qle_refl].
  apply scan_right_below in Hr; [|apply Qle_refl].
  intros [= <-]. destruct (Qltb l r); lra.
Qed.

Lemma select_by_prominence_zero (x : list Q) (peaks : list nat) :
  Forall (fun peak => (peak < length x)%nat) peaks ->
  select_by_prominence Qltb Qle_bool Qminus x 0 peaks = Ok peaks.
Proof.
  induction 1 as [| peak peaks Hp _ IH]; simpl; [reflexivity|].
  destruct (prominence_total Qltb Qle_bool Qminus x peak Hp) as (p & Hprom).
  rewrite Hprom, IH; simpl.
  apply prominence_nonneg in Hprom. apply Qle_bool_iff in Hprom.
  rewrite Hprom. reflexivity.
Qed.

(** X14. On finite levels the prominence bound 0 removes nothing: the peaks
    returned are all the local maxima of the series. *)
Theorem prominence_zero_keeps_every_maximum (levels : list Q) :
  find_peaks levels = local_maxima_1d Qltb Qeq_bool levels.
Proof.
  unfold find_peaks, find_peaks_prominence, local_maxima_1d.
  destruct (local_maxima_loop_total Qltb Qeq_bool levels (length levels - 1) 1 (le_n 1))
    as (maxima & Hm & Hall).
  rewrite Hm; simpl.
  apply select_by_prominence_zero.
  eapply Forall_impl; [|exact Hall]. simpl. intros; lia.
Qed.

(** ** Peaks are plateaus above their neighbours *)

Lemma look_ahead_plateau (x : list Q) (xi : Q) (gap i_ahead j : nat) :
  look_ahead Qeq_bool x xi gap i_ahead = Ok j ->
  forall k, (i_ahead <= k < j)%nat -> exists u, nth_error x k = Some u /\ u == xi.
Proof.
  revert i_ahead. induction gap as [| gap IH]; intros i_ahead; simpl.
  - intros [= <-] k Hk. lia.
  - destruct (getitem x i_ahead) as [xa |] eqn:Hxa; simpl; [|discriminate].
    destruct (Qeq_bool xa xi) eqn:E.
    + intros H k Hk.
      destruct (Nat.eq_dec k i_ahead) as [-> | Hne].
      * exists xa. split; [apply getitem_Ok, Hxa | apply Qeq_bool_iff, E].
      * apply (IH _ H). lia.
    + intros [= <-] k Hk. lia.
Qed.

Lemma local_maxima_loop_plateau (x : list Q) (fuel i : nat) (peaks : list nat) :
  (1 <= i)%nat ->
  local_maxima_loop Qltb Qeq_bool x (length x - 1) fuel i = Ok peaks ->
  forall p, In p peaks -> plateau_peak x p.
Proof.
  revert i peaks. induction fuel as [| fuel IH]; intros i peaks Hi; simpl.
  - intros [= <-] p [].
  - destruct (i <? length x - 1)%nat eqn:Hlt; [|intros [= <-] p []].
    destruct (getitem x (i - 1)) as [xp |] eqn:Hxp; cbn [bind]; [|discriminate].
    destruct (getitem x i) as [xi |] eqn:Hxi; cbn [bind]; [|discriminate].
    destruct (Qltb xp xi) eqn:Hrise; [|apply IH; lia].
    destruct (look_ahead Qeq_bool x xi (length x - 1 - (i + 1)) (i + 1))
      as [j |] eqn:Hj; cbn [bind]; [|discriminate].
    pose proof (look_ahead_ge _ _ _ _ _ _ Hj) as Hge.
    destruct (getitem x j) as [xa |] eqn:Hxa; cbn [bind]; [|discriminate].
    destruct (Qltb xa xi) eqn:Hfall; [|apply IH; lia].
    destruct (local_maxima_loop Qltb Qeq_bool x (length x - 1) fuel (j + 1))
      as [rest |] eqn:Hrest; cbn [bind]; [|discriminate].
    intros [= <-] p [<- | Hp]; [|apply (IH (j + 1)%nat rest); [lia | exact Hrest | exact Hp]].
    apply getitem_Ok in Hxp, Hxi, Hxa.
    exists i, (j - 1)%nat, xi.
    split; [lia|]. split.
    + assert (j < length x)%nat by (apply nth_error_Some; congruence). lia.
    + split; [reflexivity|]. split; [|split].
      * intros k Hk. destruct (Nat.eq_dec k i) as [-> | Hne].
        -- exists xi. split; [exact Hxi | reflexivity].
        -- apply (look_ahead_plateau _ _ _ _ _ Hj). lia.
      * exists xp. split; [exact Hxp | apply Qltb_true, Hrise].
      * exists xa. split; [|apply Qltb_true, Hfall].
        replace (j - 1 + 1)%nat with j by lia. exact Hxa.
Qed.

(** X15. Every peak that peak detection returns is the middle index of a
    plateau of equal levels whose two outer neighbours are strictly lower:
    a single sample above both its neighbours, or the middle of a flat
    top. *)
Theorem detected_peak_is_plateau_above_neighbours
  (levels : list Q) (peaks : list nat) (p : nat) :
  find_peaks levels = Ok peaks -> In p peaks -> plateau_peak levels p.
Proof.
  unfold find_peaks, find_peaks_prominence, local_maxima_1d.
  destruct (local_maxima_loop Qltb Qeq_bool levels (length levels - 1)
              (length levels - 1) 1) as [maxima |] eqn:Hm; cbn [bind]; [|discriminate].
  intros Hsel Hp.
  destruct (select_by_prominence_sub _ _ _ _ _ _ _ Hsel) as [Hin _].
  apply (local_maxima_loop_plateau levels (length levels - 1) 1 maxima);
    [lia | exact Hm | apply Hin, Hp].
Qed.

Lemma detected_peak_is_plateau_above_neighbours_witness :
  find_peaks [1; 2; 2; 2; 1] = Ok [2%nat]
  /\ In 2%nat [2%nat]
  /\ plateau_peak [1; 2; 2; 2; 1] 2.
Proof.
  split; [vm_compute; reflexivity|]. split; [left; reflexivity|].
  apply (detected_peak_is_plateau_above_neighbours [1; 2; 2; 2; 1] [2%nat]).
  - vm_compute. reflexivity.
  - left. reflexivity.
Defined.

(** ** The peak marks *)

Lemma set_label_spec {A : Type} (col : list A) (label : nat) (v : A) :
  (label < length col)%nat ->
  exists col',
    set_label col label v = Ok col'
    /\ length col' = length col
    /\ forall k, nth_error col' k
                 = if Nat.eqb k label then Some v else nth_error col k.
Proof.
  revert label. induction col as [| a col IH]; intros label H; simpl in H; [lia|].
  destruct label as [| label]; simpl.
  - exists (v :: col). split; [reflexivity|]. split; [reflexivity|].
    intros [| k]; reflexivity.
  - destruct (IH label) as (col' & Hset & Hlen & Hnth); [lia|].
    rewrite Hset; simpl. exists (a :: col'). split; [reflexivity|].
    split; [simpl; rewrite Hlen; reflexivity|].
    intros [| k]; [reflexivity|]. simpl. apply Hnth.
Qed.

Lemma mark_peaks_spec (peaks : list nat) :
  forall col : list bool,
    Forall (fun peak => (peak < length col)%nat) peaks ->
    exists col',
      for_each (fun col peak => set_label col peak true) peaks col = Ok col'
      /\ length col' = length col
      /\ forall k, nth_error col' k
                   = if existsb (Nat.eqb k) peaks then
                       (if (k <? length col)%nat then Some true else None)
                     else nth_error col k.
Proof.
  induction peaks as [| peak peaks IH]; intros col Hall.
  - exists col. repeat split.
  - apply Forall_cons_iff in Hall. destruct Hall as [Hp Hall].
    destruct (set_label_spec col peak true Hp) as (col1 & Hset & Hlen & Hnth).
    simpl. rewrite Hset; cbn [bind].
    destruct (IH col1) as (col' & Hfor & Hlen' & Hnth').
    { rewrite Hlen. exact Hall. }
    exists col'. split; [exact Hfor|]. split; [congruence|].
    intros k. rewrite Hnth', Hnth, Hlen.
    destruct (existsb (Nat.eqb k) peaks); [rewrite orb_true_r; reflexivity|].
    rewrite orb_false_r. destruct (Nat.eqb k peak) eqn:E; [|reflexivity].
    apply Nat.eqb_eq in E. subst k.
    apply Nat.ltb_lt in Hp. rewrite Hp. reflexivity.
Qed.

(** X16. Marking the detected peaks never raises, and it sets the column
    ['is_peak'], one entry per row, to True exactly at the detected
    peaks. *)
Theorem is_peak_marks_exactly_the_peaks (df : DataFrame) (peaks : list nat) :
  find_peaks (levels_of df) = Ok peaks ->
  exists col,
    is_peak_column df peaks = Ok col
    /\ length col = length df
    /\ forall i, (i < length df)%nat ->
                 nth_error col i = Some (existsb (Nat.eqb i) peaks).
Proof.
  intros H. apply find_peaks_prominence_shape in H. destruct H as [_ Hall].
  unfold levels_of in Hall. rewrite length_map in Hall.
  unfold is_peak_column.
  destruct (mark_peaks_spec peaks (repeat false (length df)))
    as (col & Hcol & Hlen & Hnth).
  { rewrite repeat_length. eapply Forall_impl; [|exact Hall]. simpl. intros; lia. }
  rewrite repeat_length in *.
  exists col. split; [exact Hcol|]. split; [exact Hlen|].
  intros i Hi. rewrite Hnth.
  apply Nat.ltb_lt in Hi as Hb. rewrite Hb.
  destruct (existsb (Nat.eqb i) peaks); [reflexivity|].
  apply nth_error_repeat. exact Hi.
Qed.

Lemma is_peak_marks_exactly_the_peaks_witness :
  find_peaks (levels_of (hourly example_levels)) = Ok [1; 5]%nat
  /\ exists col,
      is_peak_column (hourly example_levels) [1; 5]%nat = Ok col
      /\ length col = length (hourly example_levels).
Proof.
  split; [vm_compute; reflexivity|].
  destruct (is_peak_marks_exactly_the_peaks (hourly example_levels) [1; 5]%nat)
    as (col & Hcol & Hlen & _); [vm_compute; reflexivity|].
  exists col. split; assumption.
Defined.

(** ** The summary statistics *)

Lemma fold_min_spec (vs : list Q) (v : Q) :
  In (fold_left Qmin2 vs v) (v :: vs)
  /\ Forall (fun u => fold_left Qmin2 vs v <= u) (v :: vs).
Proof.
  revert v. induction vs as [| w vs IH]; intros v; simpl.
  - split; [left; reflexivity | constructor; [apply Qle_refl | constructor]].
  - destruct (IH (Qmin2 v w)) as [Hin Hall].
    apply Forall_cons_iff in Hall. destruct Hall as [Hm Hall].
    assert (Hvw : Qmin2 v w <= v /\ Qmin2 v w <= w /\ (Qmin2 v w = v \/ Qmin2 v w = w)).
    { unfold Qmin2. destruct (Qle_bool v w) eqn:E.
      - apply Qle_bool_iff in E. repeat split; [apply Qle_refl | exact E | left; reflexivity].
      - assert (w <= v).
        { destruct (Qlt_le_dec v w) as [Hlt | Hle]; [|exact Hle].
          apply Qlt_le_weak, Qle_bool_iff in Hlt. congruence. }
        repeat split; [assumption | apply Qle_refl | right; reflexivity]. }
    destruct Hvw as (H1 & H2 & H3).
    split.
    + destruct Hin as [Hin | Hin]; [|right; right; exact Hin].
      rewrite <- Hin. destruct H3 as [-> | ->]; [left | right; left]; reflexivity.
    + constructor; [eapply Qle_trans; eassumption|].
      constructor; [eapply Qle_trans; eassumption | exact Hall].
Qed.

Lemma fold_max_spec (vs : list Q) (v : Q) :
  In (fold_left Qmax2 vs v) (v :: vs)
  /\ Forall (fun u => u <= fold_left Qmax2 vs v) (v :: vs).
Proof.
  revert v. induction vs as [| w vs IH]; intros v; simpl.
  - split; [left; reflexivity | constructor; [apply Qle_refl | constructor]].
  - destruct (IH (Qmax2 v w)) as [Hin Hall].
    apply Forall_cons_iff in Hall. destruct Hall as [Hm Hall].
    assert (Hvw : v <= Qmax2 v w /\ w <= Qmax2 v w /\ (Qmax2 v w = v \/ Qmax2 v w = w)).
    { unfold Qmax2. destruct (Qle_bool v w) eqn:E.
      - apply Qle_bool_iff in E. repeat split; [exact E | apply Qle_refl | right; reflexivity].
      - assert (w <= v).
        { destruct (Qlt_le_dec v w) as [Hlt | Hle]; [|exact Hle].
          apply Qlt_le_weak, Qle_bool_iff in Hlt. congruence. }
        repeat split; [apply Qle_refl | assumption | left; reflexivity]. }
    destruct Hvw as (H1 & H2 & H3).
    split.
    + destruct Hin as [Hin | Hin]; [|right; right; exact Hin].
      rewrite <- Hin. destruct H3 as [-> | ->]; [left | right; left]; reflexivity.
    + constructor; [eapply Qle_trans; eassumption|].
      constructor; [eapply Qle_trans; eassumption | exact Hall].
Qed.

Lemma Qsum_between (xs : list Q) (lo hi : Q) :
  Forall (fun u => lo <= u /\ u <= hi) xs ->
  inject_Z (len xs) * lo <= Qsum xs /\ Qsum xs <= inject_Z (len xs) * hi.
Proof.
  unfold len. induction 1 as [| u xs [Hlo Hhi] _ [IH1 IH2]].
  - change (0 * lo <= 0 /\ 0 <= 0 * hi). split; lra.
  - change (length (u :: xs)) with (S (length xs)).
    rewrite Nat2Z.inj_succ. unfold Z.succ. rewrite inject_Z_plus.
    change (inject_Z 1) with 1.
    change (Qsum (u :: xs)) with (u + Qsum xs).
    setoid_replace ((inject_Z (Z.of_nat (length xs)) + 1) * lo)
      with (inject_Z (Z.of_nat (length xs)) * lo + lo) by ring.
    setoid_replace ((inject_Z (Z.of_nat (length xs)) + 1) * hi)
      with (inject_Z (Z.of_nat (length xs)) * hi + hi) by ring.
    split; lra.
Qed.

Lemma dropna_In (col : column) (v : Q) : In v (dropna col) <-> In (Some v) col.
Proof.
  induction col as [| [u |] col IH]; simpl.
  - tauto.
  - rewrite IH. split; intros [H | H]; auto; left; congruence.
  - rewrite IH. split; [auto | intros [H | H]; [discriminate | exact H]].
Qed.

(** The statistics of a column with a value that is not NaN. *)
Lemma series_stats (col : column) (v0 : Q) :
  In (Some v0) col ->
  exists mn av mx,
    series_min col = Some mn /\ series_mean col = Some av
    /\ series_max col = Some mx
    /\ mn <= av /\ av <= mx
    /\ In (Some mn) col /\ In (Some mx) col
    /\ forall v, In (Some v) col -> mn <= v /\ v <= mx.
Proof.
  intros H0. apply dropna_In in H0.
  unfold series_min, series_mean, series_max.
  destruct (dropna col) as [| v vs] eqn:E; [contradiction|].
  destruct (fold_min_spec vs v) as [Hmin_in Hmin].
  destruct (fold_max_spec vs v) as [Hmax_in Hmax].
  set (mn := fold_left Qmin2 vs v) in *. set (mx := fold_left Qmax2 vs v) in *.
  assert (Hall : Forall (fun u => mn <= u /\ u <= mx) (v :: vs)).
  { rewrite Forall_forall in *. intros u Hu. split; [apply Hmin | apply Hmax]; exact Hu. }
  destruct (Qsum_between _ _ _ Hall) as [Hlo Hhi].
  assert (Hn : 0 < inject_Z (len (v :: vs))).
  { unfold len. simpl length. unfold Qlt. simpl. lia. }
  exists mn, (Qsum (v :: vs) / inject_Z (len (v :: vs))), mx.
  split; [reflexivity|]. split; [reflexivity|]. split; [reflexivity|].
  split; [apply Qle_shift_div_l; [exact Hn | rewrite Qmult_comm; exact Hlo]|].
  split; [apply Qle_shift_div_r; [exact Hn | rewrite Qmult_comm; exact Hhi]|].
  split; [apply dropna_In; rewrite E; exact Hmin_in|].
  split; [apply dropna_In; rewrite E; exact Hmax_in|].
  intros u Hu. apply dropna_In in Hu. rewrite E in Hu.
  rewrite Forall_forall in Hall. apply Hall, Hu.
Qed.

(** X17. In a summary row, when the column has a value that is not NaN,
    Min, Average and Max are all present, Min <= Max, Min and Max are
    values of the column and every value of the column lies between them;
    when the column has no such value the three are NaN. *)
Theorem summary_row_min_and_max_bound_the_column
  (df : list Cycle.t) (param : String.string * (Cycle.t -> option Q)) :
  ((exists r v, In r df /\ snd param r = Some v) ->
   exists mn av mx,
     Summary.Min (summary_row df param) = Some mn
     /\ Summary.Average (summary_row df param) = Some av
     /\ Summary.Max (summary_row df param) = Some mx
     /\ mn <= mx
     /\ (exists r, In r df /\ snd param r = Some mn)
     /\ (exists r, In r df /\ snd param r = Some mx)
     /\ forall r v, In r df -> snd param r = Some v -> mn <= v /\ v <= mx)
  /\ ((forall r, In r df -> snd param r = None) ->
      Summary.Min (summary_row df param) = None
      /\ Summary.Average (summary_row df param) = None
      /\ Summary.Max (summary_row df param) = None).
Proof.
  split.
  - intros (r0 & v0 & Hr0 & Hv0).
    assert (H0 : In (Some v0) (map (snd param) df))
      by (rewrite <- Hv0; apply in_map, Hr0).
    destruct (series_stats _ _ H0)
      as (mn & av & mx & Hmn & Hav & Hmx & H1 & H2 & Hin_mn & Hin_mx & Hall).
    exists mn, av, mx. simpl.
    split; [exact Hmn|]. split; [exact Hav|]. split; [exact Hmx|].
    split; [apply (Hall mn Hin_mn)|].
    split; [apply in_map_iff in Hin_mn; destruct Hin_mn as (r & Hr & Hin);
            exists r; split; assumption|].
    split; [apply in_map_iff in Hin_mx; destruct Hin_mx as (r & Hr & Hin);
            exists r; split; assumption|].
    intros r v Hr Hv. apply Hall. rewrite <- Hv. apply in_map, Hr.
  - intros Hnan. simpl.
    assert (E : dropna (map (snd param) df) = []).
    { induction df as [| r df IH]; [reflexivity|]. simpl.
      rewrite (Hnan r (or_introl eq_refl)). apply IH.
      intros r' Hr'. apply Hnan. right. exact Hr'. }
    unfold series_min, series_mean, series_max. rewrite E.
    repeat split.
Qed.

Lemma summary_row_min_and_max_bound_the_column_witness :
  exists mn av mx,
    Summary.Min (summary_row two_cycles_report
                   ("Cumulative Drawdown (m)"%string,
                    fun r => Some (Cycle.Cumulative_Drawdown_m r))) = Some mn
    /\ Summary.Average (summary_row two_cycles_report
                          ("Cumulative Drawdown (m)"%string,
                           fun r => Some (Cycle.Cumulative_Drawdown_m r))) = Some av
    /\ Summary.Max (summary_row two_cycles_report
                      ("Cumulative Drawdown (m)"%string,
                       fun r => Some (Cycle.Cumulative_Drawdown_m r))) = Some mx
    /\ mn <= mx.
Proof.
  destruct (summary_row_min_and_max_bound_the_column two_cycles_report
              ("Cumulative Drawdown (m)"%string,
               fun r => Some (Cycle.Cumulative_Drawdown_m r))) as [H _].
  destruct H as (mn & av & mx & Hmn & Hav & Hmx & H1 & _).
  - eexists. eexists. split; [left; reflexivity | reflexivity].
  - exists mn, av, mx. repeat split; assumption.
Defined.

(** ** The summary of a report *)

Lemma report_record_floor (df : DataFrame) (peaks : list Z)
  (cycles : list Cycle.t) (r : Cycle.t) :
  cycle_processing df peaks = Ok cycles ->
  In r cycles -> 2 <= Cycle.Max_Drawdown_m r.
Proof.
  intros H Hr. apply In_nth_error in Hr. destruct Hr as (k & Hk).
  destruct (report_nth _ _ _ _ _ H Hk) as (L & running & HL & _ & ->).
  simpl. rewrite <- (round_Z 2 1). apply round_mono.
  apply (accepted_drawdown_floor df peaks), (nth_error_In _ _ HL).
Qed.

(** X18. When the report is not empty, the row ['Max Drawdown (m)'] of its
    summary has a minimum and an average of at least 2. *)
Theorem summary_drawdown_at_least_floor
  (df : DataFrame) (peaks : list Z) (cycles : list Cycle.t) :
  cycle_processing df peaks = Ok cycles ->
  cycles <> [] ->
  exists row mn av,
    nth_error (create_summary cycles) 1 = Some row
    /\ Summary.Param row = "Max Drawdown (m)"%string
    /\ Summary.Min row = Some mn
    /\ Summary.Average row = Some av
    /\ 2 <= mn /\ 2 <= av.
Proof.
  intros H Hne.
  destruct cycles as [| c0 cs]; [contradiction|].
  set (col := map (fun r => Some (Cycle.Max_Drawdown_m r)) (c0 :: cs)).
  destruct (series_stats col (Cycle.Max_Drawdown_m c0))
    as (mn & av & mx & Hmn & Hav & _ & H1 & _ & Hin & _).
  { left. reflexivity. }
  exists (summary_row (c0 :: cs)
            ("Max Drawdown (m)"%string, fun r => Some (Cycle.Max_Drawdown_m r))),
    mn, av.
  split; [reflexivity|]. split; [reflexivity|].
  split; [exact Hmn|]. split; [exact Hav|].
  assert (Hfloor : 2 <= mn).
  { apply in_map_iff in Hin. destruct Hin as (r & Hr & Hin).
    injection Hr as <-. apply (report_record_floor _ _ _ _ H Hin). }
  split; [exact Hfloor | lra].
Qed.

Lemma summary_drawdown_at_least_floor_witness :
  cycle_processing (hourly two_cycles_levels) [1; 3; 5]%Z = Ok two_cycles_report
  /\ two_cycles_report <> []
  /\ exists row mn,
      nth_error (create_summary two_cycles_report) 1 = Some row
      /\ Summary.Min row = Some mn /\ 2 <= mn.
Proof.
  split; [vm_compute; reflexivity|]. split; [discriminate|].
  destruct (summary_drawdown_at_least_floor
              (hourly two_cycles_levels) [1; 3; 5]%Z two_cycles_report)
    as (row & mn & av & Hrow & _ & Hmn & _ & Hfloor & _).
  - vm_compute. reflexivity.
  - discriminate.
  - exists row, mn. repeat split; assumption.
Defined.

Lemma report_cumulative_mono (df : DataFrame) (peaks : list Z)
  (cycles : list Cycle.t) (j k : nat) (rj rk : Cycle.t) :
  cycle_processing df peaks = Ok cycles ->
  (j <= k)%nat ->
  nth_error cycles j = Some rj -> nth_error cycles k = Some rk ->
  Cycle.Cumulative_Drawdown_m rj <= Cycle.Cumulative_Drawdown_m rk.
Proof.
  intros H Hjk Hj Hk.
  destruct (report_nth _ _ _ _ _ H Hj) as (Lj & tj & _ & Htj & ->).
  destruct (report_nth _ _ _ _ _ H Hk) as (Lk & tk & _ & Htk & ->).
  simpl. rewrite (round_comp _ _ 1 Htj), (round_comp _ _ 1 Htk).
  apply round_mono. apply drawdown_sum_mono; [|lia].
  intros L HL. apply (accepted_drawdown_floor df peaks) in HL. lra.
Qed.

Lemma pairwise_sorted {A : Type} (R : A -> A -> Prop) (l : list A) :
  (forall j k a b,
      (j < k)%nat -> nth_error l j = Some a -> nth_error l k = Some b -> R a b) ->
  StronglySorted R l.
Proof.
  induction l as [| a l IH]; intros H; constructor.
  - apply IH. intros j k u v Hjk Hu Hv. apply (H (S j) (S k)); [lia | exact Hu | exact Hv].
  - apply Forall_forall. intros b Hb. apply In_nth_error in Hb.
    destruct Hb as (k & Hk). apply (H 0%nat (S k)); [lia | reflexivity | exact Hk].
Qed.

Lemma fold_min_sorted (vs : list Q) (v : Q) :
  StronglySorted Qle (v :: vs) -> fold_left Qmin2 vs v = v.
Proof.
  revert v. induction vs as [| w vs IH]; intros v H; [reflexivity|].
  apply StronglySorted_inv in H. destruct H as [Hs Hall].
  simpl. assert (E : Qmin2 v w = v).
  { unfold Qmin2. apply Forall_inv in Hall. apply Qle_bool_iff in Hall.
    rewrite Hall. reflexivity. }
  rewrite E. apply IH.
  apply StronglySorted_inv in Hs. destruct Hs as [Hs' _].
  constructor; [exact Hs' | apply Forall_inv_tail in Hall; exact Hall].
Qed.

Lemma last_default {A : Type} (l : list A) (a d d' : A) :
  last (a :: l) d = last (a :: l) d'.
Proof.
  revert a. induction l as [| b l IH]; intros a; [reflexivity|].
  change (last (b :: l) d = last (b :: l) d'). apply IH.
Qed.

Lemma last_cons_self {A : Type} (l : list A) (a : A) : last (a :: l) a = last l a.
Proof.
  destruct l as [| b l]; reflexivity.
Qed.

Lemma last_map_commute {A B : Type} (g : A -> B) (l : list A) (d : A) :
  last (map g l) (g d) = g (last l d).
Proof.
  induction l as [| a l IH]; [reflexivity|].
  destruct l as [| b l]; [reflexivity|].
  change (last (map g (b :: l)) (g d) = g (last (b :: l) d)). exact IH.
Qed.

Lemma fold_max_sorted (vs : list Q) (v : Q) :
  StronglySorted Qle (v :: vs) -> fold_left Qmax2 vs v = last (v :: vs) v.
Proof.
  revert v. induction vs as [| w vs IH]; intros v H; [reflexivity|].
  apply StronglySorted_inv in H. destruct H as [Hs Hall].
  simpl fold_left. assert (E : Qmax2 v w = w).
  { unfold Qmax2. apply Forall_inv in Hall. apply Qle_bool_iff in Hall.
    rewrite Hall. reflexivity. }
  rewrite E, (IH w Hs).
  change (last (v :: w :: vs) v) with (last (w :: vs) v).
  apply last_default.
Qed.

Lemma dropna_all_present {A : Type} (g : A -> Q) (l : list A) :
  dropna (map (fun r => Some (g r)) l) = map g l.
Proof.
  induction l as [| a l IH]; simpl; [reflexivity | rewrite IH; reflexivity].
Qed.

(** X19. In the summary of a report, the minimum of ['Cumulative Drawdown
    (m)'] is the value of the first record and the maximum is the value of
    the last record. *)
Theorem summary_cumulative_spans_first_to_last
  (df : DataFrame) (peaks : list Z) (first : Cycle.t) (others : list Cycle.t) :
  cycle_processing df peaks = Ok (first :: others) ->
  exists row,
    nth_error (create_summary (first :: others)) 8 = Some row
    /\ Summary.Param row = "Cumulative Drawdown (m)"%string
    /\ Summary.Min row = Some (Cycle.Cumulative_Drawdown_m first)
    /\ Summary.Max row
       = Some (Cycle.Cumulative_Drawdown_m (last others first)).
Proof.
  intros H.
  exists (summary_row (first :: others)
            ("Cumulative Drawdown (m)"%string,
             fun r => Some (Cycle.Cumulative_Drawdown_m r))).
  split; [reflexivity|]. split; [reflexivity|].
  assert (Hs : StronglySorted Qle
                 (map Cycle.Cumulative_Drawdown_m (first :: others))).
  { apply pairwise_sorted. intros j k a b Hjk Ha Hb.
    rewrite nth_error_map in Ha, Hb.
    destruct (nth_error (first :: others) j) as [rj |] eqn:Ej; [|discriminate].
    destruct (nth_error (first :: others) k) as [rk |] eqn:Ek; [|discriminate].
    injection Ha as <-. injection Hb as <-.
    apply (report_cumulative_mono df peaks (first :: others) j k); try assumption. lia. }
  unfold summary_row, series_min, series_max. cbn [snd Summary.Min Summary.Max].
  rewrite dropna_all_present. cbn [map] in *.
  rewrite (fold_min_sorted _ _ Hs), (fold_max_sorted _ _ Hs).
  split; [reflexivity|].
  f_equal.
  change (Cycle.Cumulative_Drawdown_m first
          :: map Cycle.Cumulative_Drawdown_m others)
    with (map Cycle.Cumulative_Drawdown_m (first :: others)).
  rewrite last_map_commute, last_cons_self. reflexivity.
Qed.

Lemma summary_cumulative_spans_first_to_last_witness :
  exists first others row,
    cycle_processing (hourly two_cycles_levels) [1; 3; 5]%Z = Ok (first :: others)
    /\ nth_error (create_summary (first :: others)) 8 = Some row
    /\ Summary.Min row = Some (Cycle.Cumulative_Drawdown_m first).
Proof.
  eexists. eexists.
  destruct (summary_cumulative_spans_first_to_last
              (hourly two_cycles_levels) [1; 3; 5]%Z
              (hd (Cycle.mk 0 0 0 0 0 0 0 0 None 0 0 0) two_cycles_report)
              (tl two_cycles_report))
    as (row & Hrow & _ & Hmin & _).
  - vm_compute. reflexivity.
  - exists row. split; [vm_compute; reflexivity|]. split; [exact Hrow | exact Hmin].
Defined.

(** ** Positive levels *)

Lemma slice_head_in_frame (df : DataFrame) (start stop : Z)
  (row0 : nat * row) (rest : frame) :
  iloc_slice df start stop = row0 :: rest ->
  fst row0 = slice_bound (length df) start
  /\ nth_error df (fst row0) = Some (snd row0).
Proof.
  intros H. split.
  - pose proof (iloc_slice_rows df start stop) as Hrows. cbv zeta in Hrows.
    rewrite H in Hrows.
    apply (f_equal (map fst)) in Hrows. rewrite combine_seq_fst in Hrows.
    remember (length (firstn (slice_bound (length df) stop
                              - slice_bound (length df) start)
                        (skipn (slice_bound (length df) start) df))) as n eqn:En.
    clear En. destruct n as [| n]; [discriminate Hrows|].
    cbn [map seq] in Hrows. injection Hrows as Hrow0 _. exact Hrow0.
  - apply (iloc_slice_In df start stop). rewrite H. destruct row0. left. reflexivity.
Qed.

Lemma recovery_90_of_positive_swl (cycle_data : frame) (L : locals) :
  iteration_run cycle_data L ->
  0 < swl L ->
  exists t, time_to_90_recovery L = Some t /\ t == time_to_max_drawdown L.
Proof.
  intros HL Hswl.
  destruct (run_first _ _ HL) as (row0 & rest & Hcd & Hs & Hstart).
  rewrite (run_time_to_90_recovery _ _ HL), Hcd.
  unfold level_at_least. simpl.
  assert (E : Qle_bool (recovery_level L) (Level_above_Pump (snd row0)) = true).
  { apply Qle_bool_iff. rewrite (run_recovery_level _ _ HL), <- Hs. lra. }
  rewrite E. eexists. split; [reflexivity|].
  rewrite (run_time_to_max_drawdown _ _ HL), <- Hstart.
  unfold Qdiv. rewrite total_seconds_opp. reflexivity.
Qed.

(** X20. On a frame whose levels are all positive, every record of the
    report carries under ['90% Recovery Time (hr)'] the value it carries
    under ['Time to Max Drawdown (hr)'], and the two rows of the summary have
    the same Min, Average and Max. *)
Theorem positive_levels_duplicate_time_to_max_drawdown
  (df : DataFrame) (peaks : list Z) (cycles : list Cycle.t) :
  (forall rw, In rw df -> 0 < Level_above_Pump rw) ->
  cycle_processing df peaks = Ok cycles ->
  (forall r, In r cycles ->
             Cycle.Recovery_90_Time_hr r = Some (Cycle.Time_to_Max_Drawdown_hr r))
  /\ exists row5 row6,
      nth_error (create_summary cycles) 5 = Some row5
      /\ nth_error (create_summary cycles) 6 = Some row6
      /\ Summary.Param row5 = "Time to Max Drawdown (hr)"%string
      /\ Summary.Param row6 = "90% Recovery Time (hr)"%string
      /\ Summary.Min row6 = Summary.Min row5
      /\ Summary.Average row6 = Summary.Average row5
      /\ Summary.Max row6 = Summary.Max row5.
Proof.
  intros Hpos H.
  assert (Hrec : forall r, In r cycles ->
                   Cycle.Recovery_90_Time_hr r
                   = Some (Cycle.Time_to_Max_Drawdown_hr r)).
  { intros r Hr. apply In_nth_error in Hr. destruct Hr as (k & Hk).
    destruct (report_nth _ _ _ _ _ H Hk) as (L & running & HL & _ & ->).
    destruct (accepted_run df peaks L (nth_error_In _ _ HL)) as (s & e & _ & Hrun).
    assert (Hswl : 0 < swl L).
    { destruct (run_first _ _ Hrun) as (row0 & rest & Hcd & Hs & _).
      rewrite Hs. apply Hpos.
      destruct (slice_head_in_frame _ _ _ _ _ Hcd) as [_ Hnth].
      apply (nth_error_In _ _ Hnth). }
    destruct (recovery_90_of_positive_swl _ _ Hrun Hswl) as (t & Ht & Heq).
    simpl. rewrite Ht. f_equal. apply round_comp. exact Heq. }
  split; [exact Hrec|].
  assert (Hcol : map Cycle.Recovery_90_Time_hr cycles
                 = map (fun r => Some (Cycle.Time_to_Max_Drawdown_hr r)) cycles).
  { apply map_ext_in. exact Hrec. }
  exists (summary_row cycles
            ("Time to Max Drawdown (hr)"%string,
             fun r => Some (Cycle.Time_to_Max_Drawdown_hr r))),
    (summary_row cycles ("90% Recovery Time (hr)"%string, Cycle.Recovery_90_Time_hr)).
  split; [reflexivity|]. split; [reflexivity|].
  split; [reflexivity|]. split; [reflexivity|].
  unfold summary_row. cbn [snd Summary.Min Summary.Average Summary.Max].
  rewrite Hcol. repeat split.
Qed.

Lemma positive_levels_duplicate_time_to_max_drawdown_witness :
  (forall rw, In rw (hourly [1; 10; 796 # 100; 9; 696 # 100; 8; 1]) ->
              0 < Level_above_Pump rw)
  /\ exists cycles,
      cycle_processing (hourly [1; 10; 796 # 100; 9; 696 # 100; 8; 1]) [1; 3; 5]%Z
      = Ok cycles
      /\ forall r, In r cycles ->
                   Cycle.Recovery_90_Time_hr r
                   = Some (Cycle.Time_to_Max_Drawdown_hr r).
Proof.
  assert (Hpos : forall rw, In rw (hourly [1; 10; 796 # 100; 9; 696 # 100; 8; 1]) ->
                            0 < Level_above_Pump rw).
  { intros rw Hrw. simpl in Hrw.
    repeat (destruct Hrw as [<- | Hrw]; [reflexivity|]). contradiction. }
  split; [exact Hpos|].
  eexists. split; [vm_compute; reflexivity|].
  eapply (positive_levels_duplicate_time_to_max_drawdown
            (hourly [1; 10; 796 # 100; 9; 696 # 100; 8; 1]) [1; 3; 5]%Z).
  - exact Hpos.
  - vm_compute. reflexivity.
Defined.

(** ** The order of the records *)

Lemma sorted_nth {A : Type} (R : A -> A -> Prop) (l : list A) :
  StronglySorted R l ->
  forall i j a b,
    (i < j)%nat -> nth_error l i = Some a -> nth_error l j = Some b -> R a b.
Proof.
  induction 1 as [| c l Hs IH Hall]; intros i j a b Hij Hi Hj.
  - destruct i; discriminate Hi.
  - destruct j as [| j]; [lia|]. simpl in Hj.
    destruct i as [| i]; simpl in Hi.
    + injection Hi as <-. rewrite Forall_forall in Hall.
      apply Hall, (nth_error_In _ _ Hj).
    + apply (IH i j); [lia | exact Hi | exact Hj].
Qed.

Lemma records_from_start_times (Ls : list locals) (n : nat) (total : Q) :
  map Cycle.start_time (records_from n total Ls) = map start_time Ls.
Proof.
  revert n total. induction Ls as [| L Ls IH]; intros n total; simpl;
    [reflexivity | rewrite IH; reflexivity].
Qed.

(** The start of an accepted cycle is the timestamp of the row at its
    first peak. *)
Lemma accepted_start_row (df : DataFrame) (peaks : list nat) (i : nat)
  (start_idx end_idx : Z) (L : locals) :
  getitem (map Z.of_nat peaks) i = Ok start_idx ->
  cycle_locals df start_idx end_idx = Ok (Some L) ->
  exists p rw,
    nth_error peaks i = Some p /\ nth_error df p = Some rw
    /\ start_time L = Timestamp rw.
Proof.
  intros Hs HL. apply getitem_Ok in Hs. rewrite nth_error_map in Hs.
  destruct (nth_error peaks i) as [p |] eqn:Hp; [|discriminate].
  injection Hs as <-.
  apply cycle_locals_Some in HL.
  destruct (run_first _ _ HL) as (row0 & rest & Hcd & _ & Hstart).
  destruct (slice_head_in_frame _ _ _ _ _ Hcd) as [Hlabel Hnth].
  assert (Hlt : (fst row0 < length df)%nat) by (apply nth_error_Some; congruence).
  assert (Hp0 : fst row0 = p).
  { unfold slice_bound in Hlabel.
    destruct (Z.of_nat p <? 0)%Z eqn:E; [apply Z.ltb_lt in E; lia|]. lia. }
  exists p, (snd row0). rewrite <- Hp0. repeat split; assumption.
Qed.

Lemma accepted_among_chronological (df : DataFrame) (peaks : list nat) :
  chain Z.ltb (map Timestamp df) = true ->
  StronglySorted lt peaks ->
  forall idxs,
    StronglySorted lt idxs ->
    StronglySorted Z.lt
      (map start_time (accepted_among df (map Z.of_nat peaks) idxs)).
Proof.
  intros Hts Hpeaks.
  assert (Hrows : forall i j a b,
             (i < j)%nat -> nth_error df i = Some a -> nth_error df j = Some b ->
             (Timestamp a < Timestamp b)%Z).
  { intros i j a b Hij Ha Hb.
    apply (chain_nth Z.ltb Z.lt) with (l := map Timestamp df) (i := i) (j := j).
    - intros u v. apply Z.ltb_lt.
    - intros u v w. apply Z.lt_trans.
    - exact Hts.
    - exact Hij.
    - rewrite nth_error_map, Ha. reflexivity.
    - rewrite nth_error_map, Hb. reflexivity. }
  induction 1 as [| i idxs Hs IH Hall]; [constructor|].
  simpl. destruct (locals_at df (map Z.of_nat peaks) i) as [L |] eqn:EL; [|exact IH].
  simpl. constructor; [exact IH|].
  apply Forall_forall. intros t Ht. apply in_map_iff in Ht.
  destruct Ht as (L' & <- & HL').
  destruct (accepted_among_In _ _ _ _ HL') as (j & s' & e' & Hj & Hs' & _ & Hc').
  rewrite Forall_forall in Hall. apply Hall in Hj.
  unfold locals_at in EL.
  destruct (getitem (map Z.of_nat peaks) i) as [s |] eqn:Es; [|discriminate].
  destruct (getitem (map Z.of_nat peaks) (i + 1)) as [e |]; [|discriminate].
  destruct (cycle_locals df s e) as [[L0 |] |] eqn:Ec; try discriminate.
  injection EL as ->.
  destruct (accepted_start_row _ _ _ _ _ _ Es Ec) as (p & rw & Hp & Hrw & ->).
  destruct (accepted_start_row _ _ _ _ _ _ Hs' Hc') as (p' & rw' & Hp' & Hrw' & ->).
  apply (Hrows p p'); [|assumption|assumption].
  apply (sorted_nth lt peaks Hpeaks i j); assumption.
Qed.

(** X21. On a frame whose timestamps strictly increase, the records of the
    report of [main] are in chronological order: their start times strictly
    increase. *)
Theorem report_is_chronological (df : DataFrame) (cycles : list Cycle.t) :
  chain Z.ltb (map Timestamp df) = true ->
  main df = Ok cycles ->
  StronglySorted Z.lt (map Cycle.start_time cycles).
Proof.
  intros Hts. unfold main.
  destruct (find_peaks (levels_of df)) as [peaks |] eqn:Hp; cbn [bind]; [|discriminate].
  rewrite cycle_processing_records. intros [= <-].
  rewrite records_from_start_times. unfold accepted, range.
  apply accepted_among_chronological.
  - exact Hts.
  - apply (find_peaks_prominence_shape _ _ _ _ _ _ _ Hp).
  - apply pairwise_sorted. intros j k a b Hjk Ha Hb.
    rewrite nth_error_seq in Ha, Hb.
    destruct (j <? _)%nat; [|discriminate]. destruct (k <? _)%nat; [|discriminate].
    injection Ha as <-. injection Hb as <-. lia.
Qed.

Lemma report_is_chronological_witness :
  chain Z.ltb (map Timestamp (hourly two_cycles_levels)) = true
  /\ main (hourly two_cycles_levels) = Ok two_cycles_report
  /\ StronglySorted Z.lt (map Cycle.start_time two_cycles_report).
Proof.
  split; [vm_compute; reflexivity|]. split; [vm_compute; reflexivity|].
  apply (report_is_chronological (hourly two_cycles_levels)).
  - vm_compute. reflexivity.
  - vm_compute. reflexivity.
Defined.

(** * The cycle loop over the program's float operations *)

Lemma in_firstn_list {A : Type} (n : nat) (l : list A) (a : A) :
  In a (firstn n l) -> In a l.
Proof.
  revert l. induction n as [| n IH]; intros l H; [destruct H|].
  destruct l as [| b l]; [destruct H|].
  destruct H as [<- | H]; [left; reflexivity | right; apply IH, H].
Qed.

Lemma in_skipn_list {A : Type} (n : nat) (l : list A) (a : A) :
  In a (skipn n l) -> In a l.
Proof.
  revert l. induction n as [| n IH]; intros l H; [exact H|].
  destruct l as [| b l]; [destruct H|].
  right. apply IH, H.
Qed.

Lemma firstn_succ_nth {A : Type} (l : list A) (k : nat) (a : A) :
  nth_error l k = Some a -> firstn (S k) l = firstn k l ++ [a].
Proof.
  revert k. induction l as [| b l IH]; intros k H; [destruct k; discriminate H|].
  destruct k as [| k]; simpl in H.
  - injection H as <-. reflexivity.
  - change (firstn (S (S k)) (b :: l)) with (b :: firstn (S k) l).
    rewrite (IH k H). reflexivity.
Qed.

Section FloatProgram.

Context {F : Type} (O : Fl.ops F).

Lemma slice_rows_in_frame_fl (df : Fl.DataFrame F) (start stop : Z)
  (p : nat * Fl.row F) :
  In p (Fl.iloc_slice df start stop) -> In (snd p) df.
Proof.
  unfold Fl.iloc_slice, Fl.labelled. intros H.
  apply in_firstn_list, in_skipn_list in H.
  destruct p as [l r]. apply in_combine_r in H. exact H.
Qed.

Lemma loc_In_fl (f : Fl.frame F) (label : nat) :
  In label (map fst f) -> exists r, Fl.loc f label = Ok r.
Proof.
  induction f as [| r f IH]; simpl; intros H; [contradiction|].
  destruct (Nat.eqb (fst r) label) eqn:E.
  - exists (snd r). reflexivity.
  - destruct H as [H | H].
    + apply Nat.eqb_neq in E. contradiction.
    + apply IH, H.
Qed.

Lemma loc_Ok_In_fl (f : Fl.frame F) (label : nat) (r : Fl.row F) :
  Fl.loc f label = Ok r -> In (label, r) f.
Proof.
  induction f as [| p f IH]; simpl; [discriminate|].
  destruct (Nat.eqb (fst p) label) eqn:E.
  - intros [= <-]. apply Nat.eqb_eq in E. left. destruct p; simpl in *. congruence.
  - intros H. right. apply IH, H.
Qed.

Lemma idxmin_from_In_fl (rest : Fl.frame F) (best : nat * Fl.row F) :
  In (Fl.idxmin_from O best rest) (map fst (best :: rest)).
Proof.
  revert best. induction rest as [| r rest IH]; intros best; simpl.
  - left. reflexivity.
  - destruct (Fl.lt O _ _).
    + right. apply (IH r).
    + destruct (IH best) as [H | H]; [left; exact H | right; right; exact H].
Qed.

(** On a slice with a level that is not NaN, [idxmin] returns a label of
    the slice. *)
Lemma idxmin_total_fl (p0 : nat * Fl.row F) (f : Fl.frame F) :
  Fl.isnan O (Fl.Level_above_Pump (snd p0)) = false ->
  Fl.idxmin O (p0 :: f) = Ok (Fl.idxmin_from O p0 f).
Proof.
  intros H. unfold Fl.idxmin. cbn [forallb]. rewrite H. reflexivity.
Qed.

Lemma iloc_last_In_fl (f : Fl.frame F) (r : Fl.row F) :
  Fl.iloc_last f = Ok r -> exists p, In p f /\ r = snd p.
Proof.
  unfold Fl.iloc_last. destruct (rev f) as [| p t] eqn:E; [discriminate|].
  intros [= <-]. exists p. split; [|reflexivity].
  apply in_rev. rewrite E. left. reflexivity.
Qed.

Lemma iloc_last_total_fl (f : Fl.frame F) :
  f <> [] -> exists r, Fl.iloc_last f = Ok r.
Proof.
  intros H. unfold Fl.iloc_last.
  destruct (rev f) as [| r f'] eqn:E.
  - exfalso. apply H. rewrite <- (rev_involutive f), E. reflexivity.
  - exists (snd r). reflexivity.
Qed.

Lemma timedelta_in_bounds_fl (df : Fl.DataFrame F) (a b : Fl.row F) :
  Fl.timestamps_in_bounds df = true -> In a df -> In b df ->
  Fl.timedelta (Fl.Timestamp a) (Fl.Timestamp b)
  = Ok (Fl.Timestamp a - Fl.Timestamp b)%Z.
Proof.
  unfold Fl.timestamps_in_bounds. intros H Ha Hb.
  rewrite forallb_forall in H. specialize (H a Ha).
  rewrite forallb_forall in H. specialize (H b Hb).
  unfold Fl.timedelta. rewrite H. reflexivity.
Qed.

(** An iteration that reaches [cycles.append] has passed the guard of
    line 67 with the drawdown of line 65. *)
Lemma cycle_locals_Some_fl (df : Fl.DataFrame F) (start_idx end_idx : Z)
  (L : Fl.locals F) :
  Fl.cycle_locals O df start_idx end_idx = Ok (Some L) ->
  Fl.max_drawdown_value L = Fl.sub O (Fl.swl L) (Fl.min_level L)
  /\ Fl.lt O (Fl.max_drawdown_value L) (Fl.lit O 2) = false.
Proof.
  unfold Fl.cycle_locals.
  set (cycle_data := Fl.iloc_slice df start_idx (end_idx + 1)).
  intros H.
  destruct (len cycle_data <? 2)%Z; [discriminate H|].
  bind_inv H row0 Hrow0.
  bind_inv H idx Hidx.
  bind_inv H row_min Hloc.
  destruct (Fl.lt O _ (Fl.lit O 2)) eqn:Hguard; [discriminate H|].
  bind_inv H row_last Hlast.
  bind_inv H t1 Ht1.
  bind_inv H t2 Ht2.
  bind_inv H t90 Ht90.
  bind_inv H t3 Ht3.
  injection H as <-.
  split; [reflexivity | exact Hguard].
Qed.

(** On levels that are not NaN and timestamps whose differences fit a
    Timedelta no statement of an iteration raises. *)
Lemma cycle_locals_total_fl (df : Fl.DataFrame F) (start_idx end_idx : Z) :
  Fl.no_nan_levels O df = true ->
  Fl.timestamps_in_bounds df = true ->
  exists o, Fl.cycle_locals O df start_idx end_idx = Ok o.
Proof.
  intros Hnan Hb. unfold Fl.cycle_locals.
  pose proof (slice_rows_in_frame_fl df start_idx (end_idx + 1)) as Hin.
  set (cycle_data := Fl.iloc_slice df start_idx (end_idx + 1)) in *.
  destruct (len cycle_data <? 2)%Z eqn:Hlen; [eexists; reflexivity|].
  apply Z.ltb_ge in Hlen.
  destruct cycle_data as [| p0 f'] eqn:Hcd; [unfold len in Hlen; simpl in Hlen; lia|].
  assert (H0 : In (snd p0) df) by (apply Hin; left; reflexivity).
  cbn [Fl.iloc_first bind].
  rewrite idxmin_total_fl.
  2:{ unfold Fl.no_nan_levels in Hnan. rewrite forallb_forall in Hnan.
      apply negb_true_iff, Hnan, H0. }
  cbn [bind].
  destruct (loc_In_fl (p0 :: f') (Fl.idxmin_from O p0 f')) as (row_min & Hloc).
  { apply idxmin_from_In_fl. }
  rewrite Hloc; cbn [bind].
  destruct (Fl.lt O _ (Fl.lit O 2)); [eexists; reflexivity|].
  destruct (iloc_last_total_fl (p0 :: f')) as (row_last & Hlast); [discriminate|].
  rewrite Hlast; cbn [bind].
  assert (Hm : In row_min df).
  { apply loc_Ok_In_fl in Hloc. apply (Hin _ Hloc). }
  assert (Hl : In row_last df).
  { apply iloc_last_In_fl in Hlast. destruct Hlast as (p & Hp & ->). apply Hin, Hp. }
  unfold Fl.hours_between.
  rewrite (timedelta_in_bounds_fl df row_min (snd p0) Hb Hm H0); cbn [bind].
  rewrite (timedelta_in_bounds_fl df row_last row_min Hb Hl Hm); cbn [bind].
  rewrite (timedelta_in_bounds_fl df row_last (snd p0) Hb Hl H0).
  destruct (Fl.level_at_least O _ (p0 :: f')) as [| p90 rs] eqn:E90; cbn [bind].
  - eexists; reflexivity.
  - assert (H90 : In (snd p90) df).
    { apply Hin. unfold Fl.level_at_least in E90.
      assert (Hp : In p90 (p90 :: rs)) by (left; reflexivity).
      rewrite <- E90 in Hp. apply filter_In in Hp. apply Hp. }
    rewrite (timedelta_in_bounds_fl df (snd p90) row_min Hb H90 Hm); cbn [bind].
    eexists; reflexivity.
Qed.

(** The state after a run of iterations that did not raise. *)
Lemma for_each_loop_body_fl (df : Fl.DataFrame F) (peaks : list Z) (idxs : list nat) :
  forall cycles total st,
    for_each (Fl.loop_body O df peaks) idxs (cycles, total) = Ok st ->
    st = (cycles ++ Fl.records_from O (length cycles) total
                      (Fl.accepted_among O df peaks idxs),
          fold_left (Fl.add O)
            (map Fl.max_drawdown_value (Fl.accepted_among O df peaks idxs)) total).
Proof.
  induction idxs as [| i idxs IH]; intros cycles total st H.
  - simpl in H. injection H as <-. simpl. rewrite app_nil_r. reflexivity.
  - simpl in H. bind_inv H st1 Hbody.
    unfold Fl.loop_body in Hbody.
    bind_inv Hbody s Hs. bind_inv Hbody e He. bind_inv Hbody o Ho.
    simpl Fl.accepted_among. unfold Fl.locals_at. rewrite Hs, He, Ho.
    destruct o as [L |].
    + injection Hbody as <-.
      rewrite (IH _ _ _ H). rewrite length_app, Nat.add_1_r. simpl.
      rewrite <- app_assoc. reflexivity.
    + injection Hbody as <-. apply (IH _ _ _ H).
Qed.

Lemma cycle_processing_records_fl (df : Fl.DataFrame F) (peaks : list Z)
  (cycles : list (Fl.cycle F)) :
  Fl.cycle_processing O df peaks = Ok cycles ->
  cycles = Fl.records_from O 0 (Fl.lit O 0) (Fl.accepted O df peaks).
Proof.
  unfold Fl.cycle_processing, Fl.accepted. intros H.
  bind_inv H st Hst. injection H as <-.
  rewrite (for_each_loop_body_fl _ _ _ _ _ _ Hst). reflexivity.
Qed.

Lemma for_each_total_fl (df : Fl.DataFrame F) (peaks : list Z) (idxs : list nat) :
  Fl.no_nan_levels O df = true ->
  Fl.timestamps_in_bounds df = true ->
  (forall i, In i idxs -> (i + 1 < length peaks)%nat) ->
  forall st, exists st', for_each (Fl.loop_body O df peaks) idxs st = Ok st'.
Proof.
  intros Hnan Hb. induction idxs as [| i idxs IH]; intros Hin st.
  - exists st. reflexivity.
  - simpl. unfold Fl.loop_body at 1.
    destruct (getitem_lt peaks i) as (s & Hs); [specialize (Hin i (or_introl eq_refl)); lia|].
    destruct (getitem_lt peaks (i + 1)) as (e & He); [apply Hin; left; reflexivity|].
    rewrite Hs, He; cbn [bind].
    destruct (cycle_locals_total_fl df s e Hnan Hb) as (o & Ho).
    rewrite Ho; cbn [bind].
    assert (Hin' : forall j, In j idxs -> (j + 1 < length peaks)%nat)
      by (intros j Hj; apply Hin; right; exact Hj).
    destruct o as [L |]; [destruct st as [cycles total]|]; cbn [bind]; apply (IH Hin').
Qed.

Lemma cycle_processing_total_fl (df : Fl.DataFrame F) (peaks : list Z) :
  Fl.no_nan_levels O df = true ->
  Fl.timestamps_in_bounds df = true ->
  exists cycles, Fl.cycle_processing O df peaks = Ok cycles.
Proof.
  intros Hnan Hb. unfold Fl.cycle_processing.
  destruct (for_each_total_fl df peaks (range (len peaks - 1)) Hnan Hb
              (range_peaks_in peaks) ([], Fl.lit O 0)) as (st & Hst).
  rewrite Hst. exists (fst st). reflexivity.
Qed.

Lemma records_from_length_fl (Ls : list (Fl.locals F)) (n : nat) (total : F) :
  length (Fl.records_from O n total Ls) = length Ls.
Proof.
  revert n total. induction Ls as [| L Ls IH]; intros n total; simpl;
    [reflexivity | rewrite IH; reflexivity].
Qed.

Lemma records_from_nth_fl (Ls : list (Fl.locals F)) :
  forall n total k r,
    nth_error (Fl.records_from O n total Ls) k = Some r ->
    exists L,
      nth_error Ls k = Some L
      /\ r = Fl.cycle_record O (n + k) L
               (fold_left (Fl.add O)
                  (map Fl.max_drawdown_value (firstn (S k) Ls)) total).
Proof.
  induction Ls as [| L Ls IH]; intros n total k r H.
  - destruct k; discriminate H.
  - destruct k as [| k]; simpl in H.
    + injection H as <-. exists L. split; [reflexivity|].
      rewrite Nat.add_0_r. reflexivity.
    + destruct (IH _ _ _ _ H) as (L' & HL & Hr).
      exists L'. split; [exact HL|].
      rewrite Hr. change (firstn (S (S k)) (L :: Ls)) with (L :: firstn (S k) Ls).
      simpl. f_equal. lia.
Qed.

(** The record at position [k] of the report is the dictionary of the
    [k]-th accepted cycle, built with the running total after it. *)
Lemma report_nth_fl (df : Fl.DataFrame F) (peaks : list Z)
  (cycles : list (Fl.cycle F)) (k : nat) (r : Fl.cycle F) :
  Fl.cycle_processing O df peaks = Ok cycles ->
  nth_error cycles k = Some r ->
  exists L,
    nth_error (Fl.accepted O df peaks) k = Some L
    /\ r = Fl.cycle_record O k L (Fl.running_total O (Fl.accepted O df peaks) (S k)).
Proof.
  intros H Hr. rewrite (cycle_processing_records_fl _ _ _ H) in Hr.
  destruct (records_from_nth_fl _ _ _ _ _ Hr) as (L & HL & ->).
  exists L. split; [exact HL | reflexivity].
Qed.

Lemma report_length_fl (df : Fl.DataFrame F) (peaks : list Z)
  (cycles : list (Fl.cycle F)) :
  Fl.cycle_processing O df peaks = Ok cycles ->
  length cycles = length (Fl.accepted O df peaks).
Proof.
  intros H. rewrite (cycle_processing_records_fl _ _ _ H).
  apply records_from_length_fl.
Qed.

Lemma accepted_among_In_fl (df : Fl.DataFrame F) (peaks : list Z)
  (idxs : list nat) (L : Fl.locals F) :
  In L (Fl.accepted_among O df peaks idxs) ->
  exists start_idx end_idx,
    Fl.cycle_locals O df start_idx end_idx = Ok (Some L).
Proof.
  induction idxs as [| i idxs IH]; simpl; intros H; [contradiction|].
  destruct (Fl.locals_at O df peaks i) as [L' |] eqn:E; [|apply IH, H].
  destruct H as [<- | H]; [|apply IH, H].
  unfold Fl.locals_at in E.
  destruct (getitem peaks i) as [s |]; [|discriminate E].
  destruct (getitem peaks (i + 1)) as [e |]; [|discriminate E].
  destruct (Fl.cycle_locals O df s e) as [[L'' |] |] eqn:EL; try discriminate E.
  injection E as ->. exists s, e. exact EL.
Qed.

Lemma rejected_iteration_keeps_state_fl (df : Fl.DataFrame F) (peaks : list Z)
  (st : Fl.loop_state F) (i : nat) (start_idx end_idx : Z) :
  getitem peaks i = Ok start_idx ->
  getitem peaks (i + 1) = Ok end_idx ->
  Fl.cycle_locals O df start_idx end_idx = Ok None ->
  Fl.loop_body O df peaks st i = Ok st.
Proof.
  intros Hs He Hc. unfold Fl.loop_body. rewrite Hs, He; simpl. rewrite Hc. reflexivity.
Qed.

(** *** The running total *)

Lemma running_total_succ (Ls : list (Fl.locals F)) (k : nat) (L : Fl.locals F) :
  nth_error Ls k = Some L ->
  Fl.running_total O Ls (S k)
  = Fl.add O (Fl.running_total O Ls k) (Fl.max_drawdown_value L).
Proof.
  intros H. unfold Fl.running_total.
  rewrite (firstn_succ_nth _ _ _ H), map_app, fold_left_app. reflexivity.
Qed.

Lemma running_total_past (Ls : list (Fl.locals F)) (k : nat) :
  nth_error Ls k = None ->
  Fl.running_total O Ls (S k) = Fl.running_total O Ls k.
Proof.
  intros H. apply nth_error_None in H. unfold Fl.running_total.
  rewrite !firstn_all2 by lia. reflexivity.
Qed.

Section Order.

Hypothesis laws : Fl.order_laws O.

Variable Ls : list (Fl.locals F).

Hypothesis drawdowns_nonneg :
  forall L, In L Ls -> Fl.le O (Fl.lit O 0) (Fl.max_drawdown_value L) = true.

Lemma running_total_step (k : nat) :
  Fl.le O (Fl.lit O 0) (Fl.running_total O Ls k) = true
  /\ Fl.le O (Fl.running_total O Ls k) (Fl.running_total O Ls (S k)) = true.
Proof.
  induction k as [| k [IH0 IH1]].
  - assert (H0 : Fl.le O (Fl.lit O 0) (Fl.running_total O Ls 0) = true)
      by (apply (Fl.lit_le O laws); reflexivity).
    split; [exact H0|].
    destruct (nth_error Ls 0) as [L |] eqn:E.
    + rewrite (running_total_succ _ _ _ E).
      apply (Fl.add_grows O laws); [exact H0|].
      apply drawdowns_nonneg, (nth_error_In _ _ E).
    + rewrite (running_total_past _ _ E). exact H0.
  - assert (H0 : Fl.le O (Fl.lit O 0) (Fl.running_total O Ls (S k)) = true)
      by (apply (Fl.le_trans O laws _ _ _ IH0 IH1)).
    split; [exact H0|].
    destruct (nth_error Ls (S k)) as [L |] eqn:E.
    + rewrite (running_total_succ _ _ _ E).
      apply (Fl.add_grows O laws); [exact H0|].
      apply drawdowns_nonneg, (nth_error_In _ _ E).
    + rewrite (running_total_past _ _ E).
      apply (Fl.le_self O laws _ _ H0).
Qed.

Lemma running_total_mono (j k : nat) :
  (j <= k)%nat ->
  Fl.le O (Fl.running_total O Ls j) (Fl.running_total O Ls k) = true.
Proof.
  induction 1 as [| k Hjk IH].
  - apply (Fl.le_self O laws _ _ (proj1 (running_total_step j))).
  - apply (Fl.le_trans O laws _ _ _ IH), running_total_step.
Qed.

End Order.

(** Under the laws of order a drawdown that is not NaN and has passed the
    guard of line 67 is at least 2, hence not negative. *)
Lemma passed_guard_nonneg (x : F) :
  Fl.order_laws O ->
  Fl.isnan O x = false ->
  Fl.lt O x (Fl.lit O 2) = false ->
  Fl.le O (Fl.lit O 2) x = true /\ Fl.le O (Fl.lit O 0) x = true.
Proof.
  intros laws Hnan Hguard.
  assert (H2 : Fl.le O (Fl.lit O 2) x = true)
    by (apply (Fl.not_lt_le O laws); [exact Hnan | apply (Fl.lit_not_nan O laws) | exact Hguard]).
  split; [exact H2|].
  apply (Fl.le_trans O laws _ (Fl.lit O 2)); [|exact H2].
  apply (Fl.lit_le O laws). reflexivity.
Qed.

(** *** The roundings play no part before the record is built *)

Lemma cycle_locals_with_round (rnd rnd_float : F -> nat -> F)
  (df : Fl.DataFrame F) (start_idx end_idx : Z) :
  Fl.cycle_locals (Fl.with_round O rnd rnd_float) df start_idx end_idx
  = Fl.cycle_locals O df start_idx end_idx.
Proof.
  reflexivity.
Qed.

Lemma accepted_among_with_round (rnd rnd_float : F -> nat -> F)
  (df : Fl.DataFrame F) (peaks : list Z) (idxs : list nat) :
  Fl.accepted_among (Fl.with_round O rnd rnd_float) df peaks idxs
  = Fl.accepted_among O df peaks idxs.
Proof.
  induction idxs as [| i idxs IH]; [reflexivity|].
  cbn [Fl.accepted_among].
  change (Fl.locals_at (Fl.with_round O rnd rnd_float) df peaks i)
    with (Fl.locals_at O df peaks i).
  rewrite IH. reflexivity.
Qed.

Lemma running_total_with_round (rnd rnd_float : F -> nat -> F)
  (Ls : list (Fl.locals F)) (k : nat) :
  Fl.running_total (Fl.with_round O rnd rnd_float) Ls k = Fl.running_total O Ls k.
Proof.
  reflexivity.
Qed.

End FloatProgram.

(** *** The instance *)

Lemma F64_leb_finite (p q : Q) : F64.leb (Finite p) (Finite q) = Qle_bool p q.
Proof.
  unfold F64.leb. simpl. apply Qle_bool_ltb_eqb.
Qed.

Lemma Exact_order_laws : Fl.order_laws Exact.ops.
Proof.
  constructor; cbn [Exact.ops Fl.le Fl.lt Fl.lit Fl.isnan Fl.add Fl.round].
  - intros [p | | |] [q | | |] [r | | |]; try discriminate; try reflexivity.
    rewrite !F64_leb_finite. intros H1 H2.
    apply Qle_bool_iff in H1, H2. apply Qle_bool_iff. lra.
  - intros [p | | |] [q | | |]; try discriminate; intros _;
      split; try reflexivity; rewrite F64_leb_finite; apply Qle_bool_iff, Qle_refl.
  - intros p q H. rewrite F64_leb_finite. exact H.
  - reflexivity.
  - intros [p | | |] [q | | |]; try discriminate; try reflexivity.
    intros _ _ H. rewrite F64_leb_finite.
    change (Qltb p q = false) in H. apply Qltb_false in H.
    apply Qle_bool_iff. exact H.
  - intros [p | | |] [q | | |]; try discriminate; try reflexivity.
    rewrite !F64_leb_finite. intros H1 H2. cbn [Exact.add].
    rewrite F64_leb_finite.
    apply Qle_bool_iff in H1, H2. apply Qle_bool_iff. lra.
  - intros [p | | |] [q | | |] n; try discriminate; try reflexivity.
    cbn [Exact.round_decimals]. rewrite !F64_leb_finite. intros H.
    apply Qle_bool_iff in H. apply Qle_bool_iff, round_mono, H.
Qed.

(** ** The report, in the program's float arithmetic *)

(** C2, as amended. The report has one record per accepted cycle, and the
    cumulative drawdown reported by the record at position [k] (from 0) is
    the running float total after the accepted cycles 1..k+1, rounded to one
    decimal when the record is built: the total starts at 0 and each
    accepted cycle adds its full-precision drawdown to it, in encounter
    order; it is not the exact sum.  An iteration that is rejected leaves
    the report and the running total as they are.  When no accepted
    drawdown is NaN, the reported value never decreases along the report
    (under the laws of order of the float operations). *)
Theorem cumulative_drawdown_is_rounded_float_total
  {F : Type} (O : Fl.ops F) (df : Fl.DataFrame F) (peaks : list Z)
  (cycles : list (Fl.cycle F)) :
  Fl.cycle_processing O df peaks = Ok cycles ->
  length cycles = length (Fl.accepted O df peaks)
  /\ (forall k r,
         nth_error cycles k = Some r ->
         Fl.Cumulative_Drawdown_m r
         = Fl.round O (Fl.running_total O (Fl.accepted O df peaks) (S k)) 1)
  /\ Fl.running_total O (Fl.accepted O df peaks) 0 = Fl.lit O 0
  /\ (forall k L,
         nth_error (Fl.accepted O df peaks) k = Some L ->
         Fl.running_total O (Fl.accepted O df peaks) (S k)
         = Fl.add O (Fl.running_total O (Fl.accepted O df peaks) k)
             (Fl.max_drawdown_value L))
  /\ (forall st i start_idx end_idx,
         getitem peaks i = Ok start_idx ->
         getitem peaks (i + 1) = Ok end_idx ->
         Fl.cycle_locals O df start_idx end_idx = Ok None ->
         Fl.loop_body O df peaks st i = Ok st)
  /\ (Fl.order_laws O ->
      Fl.drawdowns_not_nan O df peaks = true ->
      forall j k rj rk,
        (j <= k)%nat ->
        nth_error cycles j = Some rj ->
        nth_error cycles k = Some rk ->
        Fl.le O (Fl.Cumulative_Drawdown_m rj) (Fl.Cumulative_Drawdown_m rk)
        = true).
Proof.
  intros H.
  assert (Hcum : forall k r,
             nth_error cycles k = Some r ->
             Fl.Cumulative_Drawdown_m r
             = Fl.round O (Fl.running_total O (Fl.accepted O df peaks) (S k)) 1).
  { intros k r Hr.
    destruct (report_nth_fl O _ _ _ _ _ H Hr) as (L & _ & ->). reflexivity. }
  split; [apply (report_length_fl O _ _ _ H)|].
  split; [exact Hcum|].
  split; [reflexivity|].
  split; [intros k L; apply running_total_succ|].
  split; [intros st i s e; apply rejected_iteration_keeps_state_fl|].
  intros laws Hnan j k rj rk Hjk Hj Hk.
  rewrite (Hcum _ _ Hj), (Hcum _ _ Hk).
  apply (Fl.round_monotone O laws).
  apply (running_total_mono O laws); [|lia].
  intros L HL.
  unfold Fl.drawdowns_not_nan in Hnan. rewrite forallb_forall in Hnan.
  specialize (Hnan L HL). apply negb_true_iff in Hnan.
  destruct (accepted_among_In_fl O _ _ _ _ HL) as (s & e & Hrun).
  apply cycle_locals_Some_fl in Hrun. destruct Hrun as [_ Hguard].
  apply (passed_guard_nonneg O _ laws Hnan Hguard).
Qed.

Lemma cumulative_drawdown_is_rounded_float_total_witness :
  Fl.cycle_processing Exact.ops (float_rows (hourly two_cycles_levels)) [1; 3; 5]%Z
  = Ok two_cycles_records
  /\ Fl.drawdowns_not_nan Exact.ops (float_rows (hourly two_cycles_levels))
       [1; 3; 5]%Z = true
  /\ (forall k r,
         nth_error two_cycles_records k = Some r ->
         Fl.Cumulative_Drawdown_m r
         = Fl.round Exact.ops
             (Fl.running_total Exact.ops
                (Fl.accepted Exact.ops (float_rows (hourly two_cycles_levels))
                   [1; 3; 5]%Z) (S k)) 1)
  /\ (forall j k rj rk,
         (j <= k)%nat ->
         nth_error two_cycles_records j = Some rj ->
         nth_error two_cycles_records k = Some rk ->
         Fl.le Exact.ops (Fl.Cumulative_Drawdown_m rj)
           (Fl.Cumulative_Drawdown_m rk) = true).
Proof.
  split; [vm_compute; reflexivity|].
  split; [vm_compute; reflexivity|].
  destruct (cumulative_drawdown_is_rounded_float_total Exact.ops
              (float_rows (hourly two_cycles_levels)) [1; 3; 5]%Z
              two_cycles_records ltac:(vm_compute; reflexivity))
    as (_ & Hcum & _ & _ & _ & Hmono).
  split; [exact Hcum|].
  apply Hmono; [exact Exact_order_laws | vm_compute; reflexivity].
Defined.

(** C5. No value is rounded before the record is built.  Every field of
    every record is one rounding, made when the dictionary is built, of a
    local of the accepted cycle (1 decimal for levels, rates and the volume,
    2 decimals for hours; the 90%-recovery time is left NaN when it is NaN),
    and the cumulative drawdown is the rounding of the running total of the
    unrounded drawdowns.  The locals of the accepted cycles and the running
    total are the same whatever the two roundings are: no rounded value
    enters a later computation. *)
Theorem rounding_only_when_the_record_is_built
  {F : Type} (O : Fl.ops F) (df : Fl.DataFrame F) (peaks : list Z)
  (cycles : list (Fl.cycle F)) :
  Fl.cycle_processing O df peaks = Ok cycles ->
  (forall k r,
      nth_error cycles k = Some r ->
      exists L,
        nth_error (Fl.accepted O df peaks) k = Some L
        /\ (exists start_idx end_idx,
               Fl.cycle_locals O df start_idx end_idx = Ok (Some L))
        /\ Fl.cycle_start_time r = Fl.start_time L
        /\ Fl.SWL_m r = Fl.round O (Fl.swl L) 1
        /\ Fl.Max_Drawdown_m r = Fl.round O (Fl.max_drawdown_value L) 1
        /\ Fl.Drawdown_Rate_m_hr r = Fl.round O (Fl.drawdown_rate L) 1
        /\ Fl.Recovery_Time_hr r = Fl.round_float O (Fl.recovery_time L) 2
        /\ Fl.Recharge_Rate_m_hr r = Fl.round O (Fl.recharge_rate L) 1
        /\ Fl.Time_to_Max_Drawdown_hr r
           = Fl.round_float O (Fl.time_to_max_drawdown L) 2
        /\ Fl.Recovery_90_Time_hr r
           = (if Fl.isnan O (Fl.time_to_90_recovery L) then Fl.nan O
              else Fl.round_float O (Fl.time_to_90_recovery L) 2)
        /\ Fl.Hourly_Fluctuation_m_hr r = Fl.round O (Fl.hourly_fluctuations L) 1
        /\ Fl.Cumulative_Drawdown_m r
           = Fl.round O (Fl.running_total O (Fl.accepted O df peaks) (S k)) 1
        /\ Fl.Recharge_Volume_m3 r = Fl.round O (Fl.recharge_volume L) 1)
  /\ (forall rnd rnd_float : F -> nat -> F,
         (forall start_idx end_idx,
             Fl.cycle_locals (Fl.with_round O rnd rnd_float) df start_idx end_idx
             = Fl.cycle_locals O df start_idx end_idx)
         /\ Fl.accepted (Fl.with_round O rnd rnd_float) df peaks
            = Fl.accepted O df peaks
         /\ forall k,
             Fl.running_total (Fl.with_round O rnd rnd_float)
               (Fl.accepted (Fl.with_round O rnd rnd_float) df peaks) k
             = Fl.running_total O (Fl.accepted O df peaks) k).
Proof.
  intros H. split.
  - intros k r Hr.
    destruct (report_nth_fl O _ _ _ _ _ H Hr) as (L & HL & ->).
    exists L. split; [exact HL|].
    split; [apply (accepted_among_In_fl O df peaks (range (len peaks - 1)) L),
              (nth_error_In _ _ HL)|].
    cbn [Fl.cycle_record Fl.cycle_start_time Fl.SWL_m Fl.Max_Drawdown_m
         Fl.Drawdown_Rate_m_hr Fl.Recovery_Time_hr Fl.Recharge_Rate_m_hr
         Fl.Time_to_Max_Drawdown_hr Fl.Recovery_90_Time_hr
         Fl.Hourly_Fluctuation_m_hr Fl.Cumulative_Drawdown_m
         Fl.Recharge_Volume_m3].
    do 7 (split; [reflexivity|]).
    split; [destruct (Fl.isnan O (Fl.time_to_90_recovery L)); reflexivity|].
    do 2 (split; [reflexivity|]). reflexivity.
  - intros rnd rnd_float.
    split; [intros s e; apply cycle_locals_with_round|].
    assert (E : Fl.accepted (Fl.with_round O rnd rnd_float) df peaks
                = Fl.accepted O df peaks)
      by apply accepted_among_with_round.
    split; [exact E|].
    intros k. rewrite E. apply running_total_with_round.
Qed.

Lemma rounding_only_when_the_record_is_built_witness :
  Fl.cycle_processing Exact.ops (float_rows (hourly two_cycles_levels)) [1; 3; 5]%Z
  = Ok two_cycles_records
  /\ forall k r,
      nth_error two_cycles_records k = Some r ->
      exists L,
        nth_error (Fl.accepted Exact.ops (float_rows (hourly two_cycles_levels))
                     [1; 3; 5]%Z) k = Some L
        /\ Fl.Max_Drawdown_m r = Fl.round Exact.ops (Fl.max_drawdown_value L) 1
        /\ Fl.Recovery_Time_hr r
           = Fl.round_float Exact.ops (Fl.recovery_time L) 2.
Proof.
  split; [vm_compute; reflexivity|].
  intros k r Hr.
  destruct (rounding_only_when_the_record_is_built Exact.ops
              (float_rows (hourly two_cycles_levels)) [1; 3; 5]%Z
              two_cycles_records ltac:(vm_compute; reflexivity)) as [Hrec _].
  destruct (Hrec k r Hr)
    as (L & HL & _ & _ & _ & Hmd & _ & Hrt & _).
  exists L. repeat split; assumption.
Defined.

(** C7, as amended. The cycle loop has no error of its own and does not
    check its input: for every list of peak indices (within the bounds of
    the series or not, ascending or not) and every series (timestamps
    increasing or not) whose levels are not NaN and whose timestamp
    differences fit a nanosecond Timedelta, it returns a report, with one
    record per accepted cycle, so the empty report when no cycle is
    accepted. *)
Theorem cycle_processing_returns_without_validation
  {F : Type} (O : Fl.ops F) (df : Fl.DataFrame F) (peaks : list Z) :
  Fl.no_nan_levels O df = true ->
  Fl.timestamps_in_bounds df = true ->
  exists cycles,
    Fl.cycle_processing O df peaks = Ok cycles
    /\ length cycles = length (Fl.accepted O df peaks)
    /\ (Fl.accepted O df peaks = [] -> cycles = []).
Proof.
  intros Hnan Hb.
  destruct (cycle_processing_total_fl O df peaks Hnan Hb) as (cycles & H).
  exists cycles. split; [exact H|].
  pose proof (report_length_fl O _ _ _ H) as Hlen.
  split; [exact Hlen|].
  intros E. rewrite E in Hlen. destruct cycles; [reflexivity | discriminate Hlen].
Qed.

Lemma cycle_processing_returns_without_validation_witness :
  Fl.no_nan_levels Exact.ops (float_rows repeated_timestamps) = true
  /\ Fl.timestamps_in_bounds (float_rows repeated_timestamps) = true
  /\ exists cycles,
      Fl.cycle_processing Exact.ops (float_rows repeated_timestamps) [1; 3]%Z
      = Ok cycles
      /\ length cycles
         = length (Fl.accepted Exact.ops (float_rows repeated_timestamps)
                     [1; 3]%Z).
Proof.
  split; [vm_compute; reflexivity|].
  split; [vm_compute; reflexivity|].
  destruct (cycle_processing_returns_without_validation Exact.ops
              (float_rows repeated_timestamps) [1; 3]%Z)
    as (cycles & H & Hlen & _); [vm_compute; reflexivity | vm_compute; reflexivity|].
  exists cycles. split; assumption.
Defined.

(** C7, counterexample. Five readings with the same timestamp and the
    levels 0, 10, 5, 10, 0 are sorted by timestamp, and their timestamps do
    not increase: the input of the cycle loop, with the detected peaks 1 and
    3, is structurally invalid.  No error is raised: the analysis returns a
    report of one record. *)
Lemma repeated_timestamps_not_rejected :
  sorted_by_timestamp repeated_timestamps = true
  /\ find_peaks (levels_of repeated_timestamps) = Ok [1; 3]%nat
  /\ structurally_valid repeated_timestamps [1; 3]%Z = false
  /\ main repeated_timestamps = Ok repeated_timestamps_report
  /\ length repeated_timestamps_report = 1%nat
  /\ Fl.main Exact.ops (float_rows repeated_timestamps)
     = Ok repeated_timestamps_records
  /\ length repeated_timestamps_records = 1%nat.
Proof.
  repeat split; vm_compute; reflexivity.
Qed.

(** ** The analysis as a whole *)

(** X22. On a frame whose levels are not NaN and whose timestamp
    differences fit a nanosecond Timedelta, the statements of lines 43-107
    run to the end without an exception: peak detection returns its peaks,
    marking them in ['is_peak'] succeeds, and the cycle loop returns the
    report. *)
Theorem analysis_returns_a_report
  {F : Type} (O : Fl.ops F) (df : Fl.DataFrame F) :
  Fl.no_nan_levels O df = true ->
  Fl.timestamps_in_bounds df = true ->
  exists peaks col cycles,
    Fl.find_peaks O (map Fl.Level_above_Pump df) = Ok peaks
    /\ Fl.is_peak_column df peaks = Ok col
    /\ Fl.cycle_processing O df (map Z.of_nat peaks) = Ok cycles
    /\ Fl.main O df = Ok cycles.
Proof.
  intros Hnan Hb.
  destruct (find_peaks_prominence_total (Fl.lt O) (Fl.le O) (Fl.eqb O) (Fl.sub O)
              (map Fl.Level_above_Pump df) (Fl.lit O 0)) as (peaks & Hp).
  pose proof (find_peaks_prominence_shape _ _ _ _ _ _ _ Hp) as [_ Hall].
  rewrite length_map in Hall.
  destruct (mark_peaks_spec peaks (repeat false (length df))) as (col & Hcol & _).
  { rewrite repeat_length. eapply Forall_impl; [|exact Hall]. simpl. intros; lia. }
  destruct (cycle_processing_total_fl O df (map Z.of_nat peaks) Hnan Hb) as (cycles & Hc).
  exists peaks, col, cycles.
  split; [exact Hp|]. split; [exact Hcol|]. split; [exact Hc|].
  unfold Fl.main, Fl.find_peaks, Fl.is_peak_column. rewrite Hp; cbn [bind].
  unfold Fl.is_peak_column in Hcol. rewrite Hcol; cbn [bind]. exact Hc.
Qed.

Lemma analysis_returns_a_report_witness :
  Fl.no_nan_levels Exact.ops (float_rows (hourly example_levels)) = true
  /\ Fl.timestamps_in_bounds (float_rows (hourly example_levels)) = true
  /\ exists cycles,
      Fl.main Exact.ops (float_rows (hourly example_levels)) = Ok cycles.
Proof.
  split; [vm_compute; reflexivity|].
  split; [vm_compute; reflexivity|].
  destruct (analysis_returns_a_report Exact.ops
              (float_rows (hourly example_levels)))
    as (peaks & col & cycles & _ & _ & _ & H);
    [vm_compute; reflexivity | vm_compute; reflexivity|].
  exists cycles. exact H.
Defined.
